(** * The analytics dashboard client: request construction, the authentication
      guard, the filter controls and the page's fetch sequence.

    The development embeds [frontend/lib/api.ts], [components/AuthGuard.tsx],
    [components/FilterControls.tsx] and the [Home] page.  JavaScript strings
    are modelled as [string] (a sequence of bytes holding the UTF-8 form of
    the text), JavaScript numbers as binary64 [float], thrown values and
    promise rejections as an error monad over an explicit world (clock,
    request log, React state). *)

From Stdlib Require Import String Ascii List Bool Arith ZArith Lia Floats.
Import ListNotations.
Set Warnings "-register-all,-inexact-float".
Open Scope list_scope.
Open Scope string_scope.

(** ** JavaScript values and string primitives *)

Module Js.

(** Truthiness of a string-valued expression that may be [undefined] or
    [null]: only a present, non-empty string is truthy. *)
Definition truthy (v : option string) : bool :=
  match v with
  | Some s => negb (s =? "")
  | None => false
  end.

(** [a || b] on strings. *)
Definition or_else (v : option string) (d : string) : string :=
  match v with
  | Some s => if s =? "" then d else s
  | None => d
  end.

(** [String.prototype.split] with a one-character separator. *)
Fixpoint split (sep : ascii) (s : string) : list string :=
  match s with
  | EmptyString => [EmptyString]
  | String c r =>
      if (c =? sep)%char then EmptyString :: split sep r
      else match split sep r with
           | h :: t => String c h :: t
           | [] => [String c EmptyString]
           end
  end.

(** [Array.prototype.join]. *)
Definition join (sep : string) (l : list string) : string := String.concat sep l.

Definition lowerChar (c : ascii) : ascii :=
  let n := nat_of_ascii c in
  if ((65 <=? n) && (n <=? 90))%nat then ascii_of_nat (n + 32) else c.

(** [String.prototype.toLowerCase], on the ASCII letters.  The only
    non-ASCII code point whose lower case is an ASCII letter is the Kelvin
    sign (to [k]), a letter no allowlisted domain contains. *)
Fixpoint toLowerCase (s : string) : string :=
  match s with
  | EmptyString => EmptyString
  | String c r => String (lowerChar c) (toLowerCase r)
  end.

(** [Array.prototype.some]. *)
Definition some {A : Type} (p : A -> bool) (l : list A) : bool := existsb p l.

(** The values a parsed JSON body, or a variable holding one, can take. *)
Inductive value : Type :=
| VUndefined
| VNull
| VBool (b : bool)
| VNum (x : float)
| VStr (s : string)
| VArr (items : list value)
| VObj (fields : list (string * value)).

Definition valueTruthy (v : value) : bool :=
  match v with
  | VUndefined | VNull => false
  | VBool b => b
  | VNum x => negb (PrimFloat.eqb x 0%float || PrimFloat.is_nan x)
  | VStr s => negb (s =? "")
  | VArr _ | VObj _ => true
  end.

(** A thrown value: an [Error] instance (with its [name] and [message]) or
    anything else. *)
Inductive thrown : Type :=
| ErrorObject (name message : string)
| NonError (v : value).

Definition upperChar (c : ascii) : ascii :=
  let n := nat_of_ascii c in
  if ((97 <=? n) && (n <=? 122))%nat then ascii_of_nat (n - 32) else c.

(** [String.prototype.toUpperCase], on the ASCII letters; on a string of
    ASCII characters it is what the engine computes. *)
Fixpoint toUpperCase (s : string) : string :=
  match s with
  | EmptyString => EmptyString
  | String c r => String (upperChar c) (toUpperCase r)
  end.

(** [s.charAt(0)]: the first character as a string, empty on the empty
    string. *)
Definition charAt0 (s : string) : string :=
  match s with
  | EmptyString => EmptyString
  | String c _ => String c EmptyString
  end.

(** [s.slice(1)]. *)
Definition slice1 (s : string) : string :=
  match s with
  | EmptyString => EmptyString
  | String _ r => r
  end.

End Js.

(** ** [URLSearchParams] *)

Module URLSearchParams.

Definition t : Type := list (string * string).

Definition append (p : t) (name val : string) : t := (p ++ [(name, val)])%list.

(** Bytes the [application/x-www-form-urlencoded] serializer leaves as they
    are: ASCII alphanumerics and [*-._]. *)
Definition isUrlSafe (c : ascii) : bool :=
  let n := nat_of_ascii c in
  (((48 <=? n) && (n <=? 57)) || ((65 <=? n) && (n <=? 90))
   || ((97 <=? n) && (n <=? 122))
   || (n =? 42) || (n =? 45) || (n =? 46) || (n =? 95))%nat.

Definition hexDigit (n : nat) : ascii :=
  match String.get n "0123456789ABCDEF" with
  | Some c => c
  | None => "0"%char
  end.

Definition percentEncode (c : ascii) : string :=
  let n := nat_of_ascii c in
  String "%" (String (hexDigit (n / 16)) (String (hexDigit (n mod 16)) EmptyString)).

Definition serializeByte (c : ascii) : string :=
  if (c =? " ")%char then "+"
  else if isUrlSafe c then String c EmptyString
  else percentEncode c.

Fixpoint serialize (s : string) : string :=
  match s with
  | EmptyString => EmptyString
  | String c r => serializeByte c ++ serialize r
  end.

Definition serializePair (kv : string * string) : string :=
  serialize (fst kv) ++ "=" ++ serialize (snd kv).

(** [URLSearchParams.prototype.toString]. *)
Definition toString (p : t) : string := Js.join "&" (map serializePair p).

(** The inverse direction, as the URL standard's
    [application/x-www-form-urlencoded] parser reads a query string; it is
    what "the parameter is present in the query string" means below. *)
Definition hexVal (c : ascii) : option nat :=
  let n := nat_of_ascii c in
  if ((48 <=? n) && (n <=? 57))%nat then Some (n - 48)
  else if ((65 <=? n) && (n <=? 70))%nat then Some (n - 55)
  else if ((97 <=? n) && (n <=? 102))%nat then Some (n - 87)
  else None.

Fixpoint percentDecode (s : string) : string :=
  match s with
  | EmptyString => EmptyString
  | String c r =>
      if (c =? "%")%char then
        match r with
        | String h (String l r') =>
            match hexVal h, hexVal l with
            | Some a, Some b => String (ascii_of_nat (16 * a + b)) (percentDecode r')
            | _, _ => String c (percentDecode r)
            end
        | _ => String c (percentDecode r)
        end
      else String c (percentDecode r)
  end.

Fixpoint plusToSpace (s : string) : string :=
  match s with
  | EmptyString => EmptyString
  | String c r => String (if (c =? "+")%char then " "%char else c) (plusToSpace r)
  end.

(** Cut at the first [=]: the name before it, the value after it. *)
Fixpoint cut (s : string) : string * string :=
  match s with
  | EmptyString => (EmptyString, EmptyString)
  | String c r =>
      if (c =? "=")%char then (EmptyString, r)
      else let (n, v) := cut r in (String c n, v)
  end.

Definition decode (s : string) : string := percentDecode (plusToSpace s).

Definition parsePair (s : string) : string * string :=
  let (n, v) := cut s in (decode n, decode v).

Definition parse (q : string) : t :=
  map parsePair (filter (fun s => negb (s =? "")) (Js.split "&" q)).


Fixpoint get (p : t) (name : string) : option string :=
  match p with
  | [] => None
  | (k, v) :: r => if k =? name then Some v else get r name
  end.

End URLSearchParams.

(** ** Promises over an explicit world *)

Module Async.

Record Request : Type := mkRequest {
  url : string;
  headers : list (string * string)
}.

(** What [response.json()] finds in the body. *)
Inductive Body : Type :=
| Json (v : Js.value)
| Malformed (message : string).

Record Response : Type := mkResponse {
  status : nat;
  body : Body
}.

(** [response.ok]. *)
Definition ok (r : Response) : bool :=
  ((200 <=? status r) && (status r <=? 299))%nat.

(** [fetch] resolves with a response, whatever its status, or rejects. *)
Inductive Outcome : Type :=
| Responded (r : Response)
| Rejected (e : Js.thrown).

Record Exchange : Type := mkExchange {
  latency : nat;
  outcome : Outcome
}.

(** The server and the network between: what a request issued at a given
    time meets. *)
Definition Network : Type := nat -> Request -> Exchange.

Section World.
Context {U : Type}.

(** [authToken] is the module-level variable of [lib/api.ts]; [ui] is the
    state of whatever component runs the computation. *)
Record World : Type := mkWorld {
  authToken : option string;
  now : nat;
  issued : list (nat * Request);
  ui : U
}.

Definition M (A : Type) : Type := World -> (Js.thrown + A) * World.

Definition ret {A} (a : A) : M A := fun w => (inr a, w).

Definition throw {A} (e : Js.thrown) : M A := fun w => (inl e, w).

Definition bind {A B} (m : M A) (k : A -> M B) : M B :=
  fun w =>
    match m w with
    | (inr a, w') => k a w'
    | (inl e, w') => (inl e, w')
    end.

Definition tryCatch {A} (m : M A) (handler : Js.thrown -> M A) : M A :=
  fun w =>
    match m w with
    | (inr a, w') => (inr a, w')
    | (inl e, w') => handler e w'
    end.

Definition getWorld : M World := fun w => (inr w, w).

Definition setNow (t : nat) (w : World) : World :=
  mkWorld (authToken w) t (issued w) (ui w).

Definition modifyUi (f : U -> U) : M unit :=
  fun w => (inr tt, mkWorld (authToken w) (now w) (issued w) (f (ui w))).

Definition fetch (net : Network) (req : Request) : M Response :=
  fun w =>
    let x := net (now w) req in
    let w' := mkWorld (authToken w) (now w + latency x)
                      (issued w ++ [(now w, req)])%list (ui w) in
    match outcome x with
    | Responded r => (inr r, w')
    | Rejected e => (inl e, w')
    end.

(** [response.json()]. *)
Definition json (r : Response) : M Js.value :=
  match body r with
  | Json v => ret v
  | Malformed msg => throw (Js.ErrorObject "SyntaxError" msg)
  end.

(** The promises handed to [Promise.all] all start at the same instant,
    in array order; each is recorded with the instant it settles. *)
Fixpoint runAll {A} (ms : list (M A)) (t0 : nat) (w : World)
  : list (nat * (Js.thrown + A)) * World :=
  match ms with
  | [] => ([], w)
  | m :: rest =>
      let (r, w1) := m (setNow t0 w) in
      let (rs, w2) := runAll rest t0 w1 in
      ((now w1, r) :: rs, w2)
  end.

(** The rejection [Promise.all] reports: the earliest one, the earlier
    array position winning among simultaneous ones. *)
Fixpoint firstRejection {A} (rs : list (nat * (Js.thrown + A)))
  : option (nat * Js.thrown) :=
  match rs with
  | [] => None
  | (t, inl e) :: rest =>
      match firstRejection rest with
      | Some (t', e') => if (t' <? t)%nat then Some (t', e') else Some (t, e)
      | None => Some (t, e)
      end
  | (_, inr _) :: rest => firstRejection rest
  end.

Fixpoint fulfilled {A} (rs : list (nat * (Js.thrown + A))) : list A :=
  match rs with
  | [] => []
  | (_, inr a) :: rest => a :: fulfilled rest
  | (_, inl _) :: rest => fulfilled rest
  end.

Definition latest {A} (t0 : nat) (rs : list (nat * (Js.thrown + A))) : nat :=
  fold_right (fun r acc => Nat.max (fst r) acc) t0 rs.

Definition promiseAll {A} (ms : list (M A)) : M (list A) :=
  fun w =>
    let (rs, w') := runAll ms (now w) w in
    match firstRejection rs with
    | Some (t, e) => (inl e, setNow t w')
    | None => (inr (fulfilled rs), setNow (latest (now w) rs) w')
    end.

End World.

Arguments World : clear implicits.
Arguments M : clear implicits.

End Async.

Declare Scope async_scope.
Delimit Scope async_scope with async.
Notation "x <- m ;; k" := (Async.bind m (fun x => k))
  (at level 61, m at next level, right associativity) : async_scope.
Notation "m ;;; k" := (Async.bind m (fun _ => k))
  (at level 61, right associativity) : async_scope.

(** ** [lib/api.ts] *)

Module Api.
Import Async.

(** Modelled from the spec: [lib/types.ts] is not among the sources; the
    fields are those [buildQueryString] and [Home] read and write, with
    [environment] and [userId] optional.  [ProductContext] and [UserType]
    are string-literal unions, erased at run time, so both fields hold
    strings. *)
Record AnalyticsFilters : Type := mkFilters {
  startDate : string;
  endDate : string;
  productContext : string;
  userType : string;
  environment : option string;
  userId : option string
}.

Definition buildQueryString (filters : AnalyticsFilters) : string :=
  let params : URLSearchParams.t :=
    [ ("start_date", startDate filters);
      ("end_date", endDate filters);
      ("product_context", productContext filters);
      ("user_type", userType filters) ] in
  let params :=
    if Js.truthy (environment filters)
    then URLSearchParams.append params "environment" (Js.or_else (environment filters) "")
    else params in
  let params :=
    if Js.truthy (userId filters)
    then URLSearchParams.append params "user_id" (Js.or_else (userId filters) "")
    else params in
  URLSearchParams.toString params.

(** The ten records [fetchAllFastKPIs] returns. *)
Record FastKPIs : Type := mkFastKPIs {
  sessionMetrics : Js.value;
  volumeTrends : Js.value;
  userEngagement : Js.value;
  userRetention : Js.value;
  queryCategories : Js.value;
  returningUserBehavior : Js.value;
  userSegmentation : Js.value;
  timePatterns : Js.value;
  conversationLength : Js.value;
  platformAnalytics : Js.value
}.

Section Client.
Context {U : Type}.
(** [process.env.NEXT_PUBLIC_API_URL], fixed when the module loads. *)
Variable NEXT_PUBLIC_API_URL : option string.
Variable net : Network.

Local Open Scope async_scope.

Definition API_URL : string := Js.or_else NEXT_PUBLIC_API_URL "http://localhost:8080".

Definition setAuthToken (token : option string) : M U unit :=
  fun w => (inr tt, mkWorld token (now w) (issued w) (ui w)).

Definition getAuthHeaders : M U (list (string * string)) :=
  w <- getWorld ;;
  let headers := [("Content-Type", "application/json")] in
  if Js.truthy (authToken w)
  then ret (headers ++ [("Authorization", ("Bearer " ++ Js.or_else (authToken w) "")%string)])%list
  else ret headers.

(** The body the twelve fetch functions share; each supplies its path
    and its failure message. *)
Definition fetchJson (path failure : string) (filters : AnalyticsFilters)
  : M U Js.value :=
  h <- getAuthHeaders ;;
  response <- fetch net (mkRequest (API_URL ++ path ++ "?" ++ buildQueryString filters) h) ;;
  if negb (ok response) then throw (Js.ErrorObject "Error" failure)
  else json response.

Definition fetchSessionMetrics :=
  fetchJson "/analytics/session-metrics" "Failed to fetch session metrics".
Definition fetchPainPointClustering :=
  fetchJson "/analytics/pain-point-clustering" "Failed to fetch pain point clustering".
Definition fetchVolumeTrends :=
  fetchJson "/analytics/volume-trends" "Failed to fetch volume trends".
Definition fetchUserEngagement :=
  fetchJson "/analytics/user-engagement" "Failed to fetch user engagement".
Definition fetchUserRetention :=
  fetchJson "/analytics/user-retention" "Failed to fetch user retention".
Definition fetchQueryCategories :=
  fetchJson "/analytics/query-categories" "Failed to fetch query categories".
Definition fetchReturningUserBehavior :=
  fetchJson "/analytics/returning-user-behavior" "Failed to fetch returning user behavior".
Definition fetchUserSegmentation :=
  fetchJson "/analytics/user-segmentation" "Failed to fetch user segmentation".
Definition fetchTimePatterns :=
  fetchJson "/analytics/time-patterns" "Failed to fetch time patterns".
Definition fetchConversationLength :=
  fetchJson "/analytics/conversation-length" "Failed to fetch conversation length".
Definition fetchPlatformAnalytics :=
  fetchJson "/analytics/platform-analytics" "Failed to fetch platform analytics".
Definition fetchSentimentAnalysis :=
  fetchJson "/analytics/sentiment-analysis" "Failed to fetch sentiment analysis".

(** The array handed to [Promise.all], in its order. *)
Definition fastKPIFetchers : list (AnalyticsFilters -> M U Js.value) :=
  [ fetchSessionMetrics; fetchVolumeTrends; fetchUserEngagement;
    fetchUserRetention; fetchQueryCategories; fetchReturningUserBehavior;
    fetchUserSegmentation; fetchTimePatterns; fetchConversationLength;
    fetchPlatformAnalytics ].

(** Array destructuring: a missing position is [undefined]. *)
Definition at_ (vs : list Js.value) (i : nat) : Js.value := nth i vs Js.VUndefined.

Definition fetchAllFastKPIs (filters : AnalyticsFilters) : M U FastKPIs :=
  vs <- promiseAll (map (fun f => f filters) fastKPIFetchers) ;;
  ret (mkFastKPIs (at_ vs 0) (at_ vs 1) (at_ vs 2) (at_ vs 3) (at_ vs 4)
                  (at_ vs 5) (at_ vs 6) (at_ vs 7) (at_ vs 8) (at_ vs 9)).

End Client.

End Api.

(** ** [components/AuthGuard.tsx] *)

Module AuthGuard.

(** Only these email domains are allowed access. *)
Definition ALLOWED_DOMAINS : list string :=
  [ "srsdistribution.com"; "instalily.ai"; "mmhfgb.com";
    "heritagelsg.com"; "heritagepsg.com" ].

Record User : Type := mkUser { email : option string }.

(** What [useAuth0()] hands to the component. *)
Record Auth0 : Type := mkAuth0 {
  isAuthenticated : bool;
  isLoading : bool;
  user : option User
}.

(** What the component returns, with the call it makes on the way:
    [loginWithRedirect()] before [Redirecting], [logout(...)] before
    [AccessDenied]. *)
Inductive Rendered : Type :=
| LoadingScreen
| Redirecting
| AccessDenied
| Children.

(** [user.email.split("@")[1]?.toLowerCase()]. *)
Definition emailDomain (email : string) : option string :=
  option_map Js.toLowerCase (nth_error (Js.split "@" email) 1).

(** [emailDomain === domain.toLowerCase()], the left side possibly
    [undefined]. *)
Definition strictEq (a : option string) (b : string) : bool :=
  match a with
  | Some s => s =? b
  | None => false
  end.

Definition isAllowed (email : string) : bool :=
  Js.some (fun domain => strictEq (emailDomain email) (Js.toLowerCase domain))
          ALLOWED_DOMAINS.

Definition AuthGuard (auth : Auth0) : Rendered :=
  if isLoading auth then LoadingScreen
  else if negb (isAuthenticated auth) then Redirecting
  else
    match user auth with
    | Some u =>
        if Js.truthy (email u) then
          if negb (isAllowed (Js.or_else (email u) "")) then AccessDenied
          else Children
        else Children
    | None => Children
    end.

End AuthGuard.

(** ** [components/FilterControls.tsx] *)

Module FilterControls.

(** The [<option>] elements of the two selects: value and label. *)
Definition productContextOptions : list (string * string) :=
  [ ("pool", "Heritage Pool Plus"); ("landscape", "Heritage Plus") ].

Definition userTypeOptions : list (string * string) :=
  [ ("all", "All Users"); ("internal", "Internal Users");
    ("external", "External Users") ].

(** What a user can do with the controls.  A date input reports the text
    of its value; a select reports the value of the option chosen, given
    here by its position. *)
Inductive Gesture : Type :=
| EditStartDate (value : string)
| EditEndDate (value : string)
| ChooseProductContext (position : nat)
| ChooseUserType (position : nat)
| ClickReset.

Section Component.
Context {S : Type}.

Record Props : Type := mkProps {
  onStartDateChange : string -> S -> S;
  onEndDateChange : string -> S -> S;
  onProductContextChange : string -> S -> S;
  onUserTypeChange : string -> S -> S;
  onReset : S -> S
}.

Definition choose (options : list (string * string)) (position : nat)
           (callback : string -> S -> S) (s : S) : S :=
  match nth_error options position with
  | Some (value, _) => callback value s
  | None => s
  end.

Definition handle (props : Props) (g : Gesture) (s : S) : S :=
  match g with
  | EditStartDate v => onStartDateChange props v s
  | EditEndDate v => onEndDateChange props v s
  | ChooseProductContext i => choose productContextOptions i (onProductContextChange props) s
  | ChooseUserType i => choose userTypeOptions i (onUserTypeChange props) s
  | ClickReset => onReset props s
  end.

End Component.

Arguments Props : clear implicits.

End FilterControls.

(** ** The [Home] page *)

Module Home.
Import Async.

Record DashboardData : Type := mkDashboardData {
  fast : Api.FastKPIs;
  painPointClustering : Js.value;
  sentimentAnalysis : Js.value
}.

(** The [useState] cells of the component. *)
Record State : Type := mkState {
  startDate : string;
  endDate : string;
  productContext : string;
  userType : string;
  data : option DashboardData;
  clustering : Js.value;
  sentiment : Js.value;
  loading : bool;
  clusteringLoading : bool;
  sentimentLoading : bool;
  error : option string
}.

(** Default to December 2025. *)
Definition initial : State :=
  mkState "2025-12-01" "2025-12-31" "pool" "all"
          None Js.VNull Js.VNull true true true None.

Definition setStartDate (v : string) (s : State) : State :=
  mkState v (endDate s) (productContext s) (userType s) (data s) (clustering s)
          (sentiment s) (loading s) (clusteringLoading s) (sentimentLoading s) (error s).
Definition setEndDate (v : string) (s : State) : State :=
  mkState (startDate s) v (productContext s) (userType s) (data s) (clustering s)
          (sentiment s) (loading s) (clusteringLoading s) (sentimentLoading s) (error s).
Definition setProductContext (v : string) (s : State) : State :=
  mkState (startDate s) (endDate s) v (userType s) (data s) (clustering s)
          (sentiment s) (loading s) (clusteringLoading s) (sentimentLoading s) (error s).
Definition setUserType (v : string) (s : State) : State :=
  mkState (startDate s) (endDate s) (productContext s) v (data s) (clustering s)
          (sentiment s) (loading s) (clusteringLoading s) (sentimentLoading s) (error s).
Definition setData (v : option DashboardData) (s : State) : State :=
  mkState (startDate s) (endDate s) (productContext s) (userType s) v (clustering s)
          (sentiment s) (loading s) (clusteringLoading s) (sentimentLoading s) (error s).
Definition setClustering (v : Js.value) (s : State) : State :=
  mkState (startDate s) (endDate s) (productContext s) (userType s) (data s) v
          (sentiment s) (loading s) (clusteringLoading s) (sentimentLoading s) (error s).
Definition setSentiment (v : Js.value) (s : State) : State :=
  mkState (startDate s) (endDate s) (productContext s) (userType s) (data s) (clustering s)
          v (loading s) (clusteringLoading s) (sentimentLoading s) (error s).
Definition setLoading (v : bool) (s : State) : State :=
  mkState (startDate s) (endDate s) (productContext s) (userType s) (data s) (clustering s)
          (sentiment s) v (clusteringLoading s) (sentimentLoading s) (error s).
Definition setClusteringLoading (v : bool) (s : State) : State :=
  mkState (startDate s) (endDate s) (productContext s) (userType s) (data s) (clustering s)
          (sentiment s) (loading s) v (sentimentLoading s) (error s).
Definition setSentimentLoading (v : bool) (s : State) : State :=
  mkState (startDate s) (endDate s) (productContext s) (userType s) (data s) (clustering s)
          (sentiment s) (loading s) (clusteringLoading s) v (error s).
Definition setError (v : option string) (s : State) : State :=
  mkState (startDate s) (endDate s) (productContext s) (userType s) (data s) (clustering s)
          (sentiment s) (loading s) (clusteringLoading s) (sentimentLoading s) v.

Definition handleReset (s : State) : State :=
  setUserType "all" (setProductContext "pool"
    (setEndDate "2025-12-31" (setStartDate "2025-12-01" s))).

(** The props [Home] passes to [FilterControls]. *)
Definition filterControlsProps : FilterControls.Props State :=
  FilterControls.mkProps setStartDate setEndDate setProductContext setUserType
                         handleReset.

(** The component's state together with what React has put on screen: the
    state is committed, with the time, each time the running function
    waits on a promise and once more when it ends. *)
Record Page : Type := mkPage {
  state : State;
  frames : list (nat * State)
}.

(** The filters [fetchData] builds from the four cells it closes over. *)
Definition filtersOf (startDate endDate productContext userType : string)
  : Api.AnalyticsFilters :=
  Api.mkFilters (startDate ++ "T00:00:00") (endDate ++ "T23:59:59")
                productContext userType None None.

(** [err instanceof Error ? err.message : "Failed to fetch data"]. *)
Definition messageOf (err : Js.thrown) : string :=
  match err with
  | Js.ErrorObject _ message => message
  | Js.NonError _ => "Failed to fetch data"
  end.

(** *** What the component returns *)

(** [value.name] on a parsed JSON value that is neither [null] nor
    [undefined], for the property names [Home] reads; an object lists each
    of its properties once. *)
Definition prop (v : Js.value) (name : string) : Js.value :=
  match v with
  | Js.VObj fields =>
      match find (fun kv => fst kv =? name) fields with
      | Some kv => snd kv
      | None => Js.VUndefined
      end
  | _ => Js.VUndefined
  end.

(** Reading a property of [null] or of [undefined] throws. *)
Definition nullish (v : Js.value) : bool :=
  match v with
  | Js.VNull | Js.VUndefined => true
  | _ => false
  end.

(** A value between the tags of an element, [{value}]: React shows strings
    and numbers, shows nothing for booleans, [null] and [undefined], goes
    through the items of an array, and throws on any other object. *)
Fixpoint renderable (v : Js.value) : bool :=
  match v with
  | Js.VObj _ => false
  | Js.VArr items => forallb renderable items
  | _ => true
  end.

(** Conversion to a string, as a template literal, [join] and the [key]
    of an element do it: an object parsed from JSON that has a property
    [toString] of its own cannot be converted, and the conversion throws;
    an array is converted item by item. *)
Fixpoint stringifies (v : Js.value) : bool :=
  match v with
  | Js.VObj fields => negb (existsb (fun kv => fst kv =? "toString") fields)
  | Js.VArr items => forallb stringifies items
  | _ => true
  end.

(** [record?.name]. *)
Definition optional (record : Js.value) (name : string) : Js.value :=
  if nullish record then Js.VUndefined else prop record name.

(** [value || 0]. *)
Definition orZero (v : Js.value) : Js.value :=
  if Js.valueTruthy v then v else Js.VNum 0.

(** [{value || 0}] between tags. *)
Definition shows (v : Js.value) : bool := renderable (orZero v).

(** [(value || 0).toFixed(1)], which needs a number. *)
Definition fixes (v : Js.value) : bool :=
  match orZero v with
  | Js.VNum _ => true
  | _ => false
  end.

(** [(value || []).map(...)], which needs an array. *)
Definition maps (v : Js.value) : bool :=
  match v with
  | Js.VArr _ => true
  | _ => negb (Js.valueTruthy v)
  end.

(** The cards over the ten records, in the order of the page: whether
    every expression [Home] evaluates for them goes through. *)
Definition cardsRender (d : DashboardData) : bool :=
  let r := fast d in
  shows (optional (Api.sessionMetrics r) "total_sessions")
  && shows (optional (Api.userEngagement r) "unique_users")
  && fixes (optional (Api.userEngagement r) "avg_conversations_per_user")
  && shows (optional (Api.sessionMetrics r) "positive_feedback_sessions")
  && stringifies (orZero (optional (Api.sessionMetrics r) "negative_feedback_sessions"))
  && fixes (optional (Api.sessionMetrics r) "avg_response_time")
  && maps (optional (Api.queryCategories r) "categories")
  && fixes (optional (Api.userRetention r) "returning_users_percentage")
  && shows (optional (Api.userRetention r) "returning_users")
  && shows (optional (Api.userRetention r) "one_time_users")
  && fixes (optional (Api.conversationLength r) "avg_messages_per_session")
  && shows (optional (Api.conversationLength r) "total_sessions")
  && shows (optional (Api.conversationLength r) "longest_session_messages")
  && fixes (optional (Api.returningUserBehavior r) "avg_sessions_per_returning_user")
  && fixes (optional (Api.returningUserBehavior r) "avg_days_between_first_last")
  && shows (optional (Api.returningUserBehavior r) "returning_users_count").

(** The "Sentiment Trend" card. *)
Definition sentimentTrend (avg_sentiment_score : float) : string :=
  if PrimFloat.ltb 0.05 avg_sentiment_score then "Positive"
  else if PrimFloat.ltb avg_sentiment_score (-0.05) then "Negative"
  else "Neutral".

(** The clustering chart gets one [Cell] for each item of
    [clustering.clusters]. *)
Inductive ClusteringPanel : Type :=
| ClusteringSpinner
| ClusteringChart (clusters : list Js.value)
| NoClusteringData.

Inductive SentimentPanel : Type :=
| SentimentSpinner
| SentimentCards (trend : string)
| NoSentimentData.

(** What [Home] puts on the screen.  [RenderThrows]: an expression of the
    last [return] throws, or React finds an object where it expects text,
    so nothing is rendered and React, finding no error boundary in [Home],
    takes the page off the screen.  The model follows every expression
    [Home] evaluates itself; what the chart library does with the data and
    the callbacks handed to it ([data], [label], [formatter],
    [tickFormatter]) is the library's. *)
Inductive View : Type :=
| LoadingScreen
| ErrorScreen (message : string)
| Nothing
| Dashboard (d : DashboardData) (clusteringPanel : ClusteringPanel)
            (sentimentPanel : SentimentPanel) (detailsTable : bool)
| RenderThrows.

(** The panel "Pain Point Clustering": [clustering.clusters.map] needs an
    array; [None] when it throws. *)
Definition clusteringPanelOf (s : State) : option ClusteringPanel :=
  if clusteringLoading s then Some ClusteringSpinner
  else if Js.valueTruthy (clustering s) then
    match prop (clustering s) "clusters" with
    | Js.VArr clusters => Some (ClusteringChart clusters)
    | _ => None
    end
  else Some NoClusteringData.

(** One row of the table "Pain Point Details": [key={cluster.cluster_id}],
    the three cells [{cluster.cluster_name}], [{cluster.count}],
    [{cluster.percentage}%] and
    [cluster.example_queries.slice(0, 3).join("; ")], which needs an array
    (a string has [slice] but what it returns has no [join]). *)
Definition detailsRowRenders (cluster : Js.value) : bool :=
  negb (nullish cluster)
  && stringifies (prop cluster "cluster_id")
  && renderable (prop cluster "cluster_name")
  && renderable (prop cluster "count")
  && renderable (prop cluster "percentage")
  && match prop cluster "example_queries" with
     | Js.VArr queries => forallb stringifies (firstn 3 queries)
     | _ => false
     end.

(** [clustering && !clusteringLoading && (<table> ...)]: whether the table
    is shown; [None] when rendering it throws. *)
Definition detailsTableOf (s : State) : option bool :=
  if Js.valueTruthy (clustering s) && negb (clusteringLoading s) then
    match prop (clustering s) "clusters" with
    | Js.VArr clusters => if forallb detailsRowRenders clusters then Some true else None
    | _ => None
    end
  else Some false.

(** One entry of the "Breakdown" list: [key={cat.category}],
    [{cat.category}], [{cat.count}], [{cat.percentage}%]. *)
Definition categoryRenders (cat : Js.value) : bool :=
  negb (nullish cat)
  && stringifies (prop cat "category")
  && renderable (prop cat "category")
  && renderable (prop cat "count")
  && renderable (prop cat "percentage").

(** One of the most positive or most negative messages: [{msg.message}]
    and [msg.score.toFixed(3)], which needs a number. *)
Definition messageRenders (msg : Js.value) : bool :=
  negb (nullish msg)
  && renderable (prop msg "message")
  && match prop msg "score" with
     | Js.VNum _ => true
     | _ => false
     end.

(** [messages.slice(0, 3).map(...)]: an array, of which the first three
    items are rendered. *)
Definition topThreeRender (messages : Js.value) : bool :=
  match messages with
  | Js.VArr msgs => forallb messageRenders (firstn 3 msgs)
  | _ => false
  end.

(** The panel "Sentiment Analysis": [{sentiment.total_messages}],
    [sentiment.avg_sentiment_score.toFixed(3)], the trend,
    [sentiment.sentiment_distribution.map] twice and the two lists of
    messages; [None] when one of them throws. *)
Definition sentimentPanelOf (s : State) : option SentimentPanel :=
  if sentimentLoading s then Some SentimentSpinner
  else if Js.valueTruthy (sentiment s) then
    match prop (sentiment s) "avg_sentiment_score",
          prop (sentiment s) "sentiment_distribution" with
    | Js.VNum score, Js.VArr cats =>
        if renderable (prop (sentiment s) "total_messages")
           && forallb categoryRenders cats
           && topThreeRender (prop (sentiment s) "most_positive_messages")
           && topThreeRender (prop (sentiment s) "most_negative_messages")
        then Some (SentimentCards (sentimentTrend score))
        else None
    | _, _ => None
    end
  else Some NoSentimentData.

Definition view (s : State) : View :=
  if loading s then LoadingScreen
  else if Js.truthy (error s) then ErrorScreen (Js.or_else (error s) "")
  else match data s with
       | None => Nothing
       | Some d =>
           match clusteringPanelOf s, sentimentPanelOf s, detailsTableOf s with
           | Some clusteringPanel, Some sentimentPanel, Some detailsTable =>
               if cardsRender d
               then Dashboard d clusteringPanel sentimentPanel detailsTable
               else RenderThrows
           | _, _, _ => RenderThrows
           end
       end.

(** [FilterControls] is rendered by the last [return] only. *)
Definition controlsOnScreen (s : State) : bool :=
  match view s with
  | Dashboard _ _ _ _ => true
  | _ => false
  end.

(** The page is off the screen; React drops the updates of a component
    that is no longer mounted. *)
Definition crashed (s : State) : bool :=
  match view s with
  | RenderThrows => true
  | _ => false
  end.

(** The dependency array [[startDate, endDate, productContext, userType]]. *)
Definition sameDeps (a b : State) : bool :=
  (startDate a =? startDate b) && (endDate a =? endDate b)
  && (productContext a =? productContext b) && (userType a =? userType b).

(** *** Runs of [fetchData] in flight

    The effect has no cleanup, so a run started by an earlier render goes
    on while a later one is under way.  A run is cut at its [await]s: each
    stage is the promise awaited and the updates that follow when it
    fulfils; the handler is the [catch] block around them. *)
Inductive Stage : Type :=
| Awaiting {A : Type} (promise : M Page A) (andThen : A -> State -> State).

Record Run : Type := mkRun {
  stages : list Stage;
  handler : Js.thrown -> State -> State
}.

(** A promise some run waits on: the instant it settles, its rejection if
    it rejects, the updates the run makes when it resumes, and the rest of
    the run. *)
Record Pending : Type := mkPending {
  settlesAt : nat;
  rejection : option Js.thrown;
  update : State -> State;
  continuation : Run
}.

(** The browser tab: the world and the promises in flight, oldest first. *)
Record Tab : Type := mkTab {
  world : World Page;
  pending : list Pending
}.

(** What can happen next in the tab: the user acts on the filter controls,
    the next promise settles, or time passes. *)
Inductive Event : Type :=
| User (g : FilterControls.Gesture)
| Settle
| Wait (ticks : nat).

(** The updates made between two [await]s are rendered together. *)
Definition render (f : State -> State) (w : World Page) : World Page :=
  if crashed (state (ui w)) then w
  else
    let s := f (state (ui w)) in
    mkWorld (authToken w) (now w) (issued w)
            (mkPage s (frames (ui w) ++ [(now w, s)])%list).

(** The run reaches its next [await]: the requests of the promise leave
    now, and the run waits until the promise settles. *)
Definition launch (r : Run) (w : World Page) : World Page * list Pending :=
  match stages r with
  | [] => (w, [])
  | Awaiting promise andThen :: rest =>
      match promise w with
      | (inr a, w') =>
          (setNow (now w) w',
           [mkPending (now w') None (andThen a) (mkRun rest (handler r))])
      | (inl err, w') =>
          (setNow (now w) w',
           [mkPending (now w') (Some err) (handler r err) (mkRun [] (handler r))])
      end
  end.

(** The promise that settles first, the older one among simultaneous
    ones, and the others. *)
Fixpoint earliest (ps : list Pending) : option (Pending * list Pending) :=
  match ps with
  | [] => None
  | p :: rest =>
      match earliest rest with
      | Some (q, others) =>
          if (settlesAt q <? settlesAt p)%nat then Some (q, p :: others)
          else Some (p, rest)
      | None => Some (p, [])
      end
  end.

(** The next promise settles: its run resumes, renders its updates and
    goes on to its next [await]. *)
Definition settleNext (tab : Tab) : Tab :=
  match earliest (pending tab) with
  | None => tab
  | Some (p, others) =>
      let w := setNow (Nat.max (now (world tab)) (settlesAt p)) (world tab) in
      let (w', ps) := launch (continuation p) (render (update p) w) in
      mkTab w' (others ++ ps)%list
  end.

(** Time passes, at most until the next promise settles. *)
Definition wait (ticks : nat) (tab : Tab) : Tab :=
  let t := now (world tab) in
  let t' := match earliest (pending tab) with
            | Some (p, _) => Nat.max t (Nat.min (t + ticks) (settlesAt p))
            | None => t + ticks
            end in
  mkTab (setNow t' (world tab)) (pending tab).

(** The [await]s a promise in flight still stands for, itself included. *)
Definition awaitsLeft (p : Pending) : nat := S (length (stages (continuation p))).

Section Effect.
Variable NEXT_PUBLIC_API_URL : option string.
Variable net : Network.

Local Open Scope async_scope.

Definition set (f : State -> State) : M Page unit :=
  modifyUi (fun p => mkPage (f (state p)) (frames p)).

Definition commit : M Page unit :=
  fun w =>
    (inr tt,
     mkWorld (authToken w) (now w) (issued w)
             (mkPage (state (ui w)) (frames (ui w) ++ [(now w, state (ui w))])%list)).

Definition await {A} (m : M Page A) : M Page A := commit ;;; m.

(** [fetchData], run from its first line to its last with nothing else
    happening in the tab meanwhile. *)
Definition fetchData (startDate endDate productContext userType : string)
  : M Page unit :=
  set (setLoading true) ;;;
  set (setClusteringLoading true) ;;;
  set (setSentimentLoading true) ;;;
  set (setError None) ;;;
  let filters := filtersOf startDate endDate productContext userType in
  tryCatch
    ((* Fetch fast KPIs immediately *)
     fastData <- await (Api.fetchAllFastKPIs NEXT_PUBLIC_API_URL net filters) ;;
     set (setData (Some (mkDashboardData fastData Js.VNull Js.VNull))) ;;;
     set (setLoading false) ;;;
     (* Fetch slow clustering and sentiment separately *)
     clusteringData <- await (Api.fetchPainPointClustering NEXT_PUBLIC_API_URL net filters) ;;
     set (setClustering clusteringData) ;;;
     set (setClusteringLoading false) ;;;
     sentimentData <- await (Api.fetchSentimentAnalysis NEXT_PUBLIC_API_URL net filters) ;;
     set (setSentiment sentimentData) ;;;
     set (setSentimentLoading false))
    (fun err =>
       set (setError (Some (messageOf err))) ;;;
       set (setLoading false) ;;;
       set (setClusteringLoading false) ;;;
       set (setSentimentLoading false)) ;;;
  commit.

(** The same function cut at its [await]s: the updates made before the
    [try], then the three stages and the [catch] block. *)
Definition fetchDataRun (startDate endDate productContext userType : string)
  : (State -> State) * Run :=
  (fun s =>
     setError None (setSentimentLoading true (setClusteringLoading true (setLoading true s))),
   let filters := filtersOf startDate endDate productContext userType in
   mkRun
     [ (* Fetch fast KPIs immediately *)
       Awaiting (Api.fetchAllFastKPIs NEXT_PUBLIC_API_URL net filters)
         (fun fastData s =>
            setLoading false
              (setData (Some (mkDashboardData fastData Js.VNull Js.VNull)) s));
       (* Fetch slow clustering and sentiment separately *)
       Awaiting (Api.fetchPainPointClustering NEXT_PUBLIC_API_URL net filters)
         (fun clusteringData s =>
            setClusteringLoading false (setClustering clusteringData s));
       Awaiting (Api.fetchSentimentAnalysis NEXT_PUBLIC_API_URL net filters)
         (fun sentimentData s =>
            setSentimentLoading false (setSentiment sentimentData s)) ]
     (fun err s =>
        setSentimentLoading false
          (setClusteringLoading false
             (setLoading false (setError (Some (messageOf err)) s))))).

(** The effect of [useEffect]: [fetchData] is called on the cells of the
    render the effect belongs to, and runs up to its first [await]. *)
Definition effect (w : World Page) : World Page * list Pending :=
  let s := state (ui w) in
  let (before, r) :=
    fetchDataRun (startDate s) (endDate s) (productContext s) (userType s) in
  launch r (render before w).

(** One gesture on the filter controls, which only the dashboard shows:
    the handler updates the cells; when a dependency changed the page is
    rendered with the new cells and the effect runs again. *)
Definition react (g : FilterControls.Gesture) (w : World Page)
  : World Page * list Pending :=
  let before := state (ui w) in
  if controlsOnScreen before then
    let after := FilterControls.handle filterControlsProps g before in
    if sameDeps before after
    then (mkWorld (authToken w) (now w) (issued w) (mkPage after (frames (ui w))), [])
    else effect (render (fun _ => after) w)
  else (w, []).

(** The gesture as far as it goes at once: the requests it sends and the
    frames it renders. *)
Definition gesture (g : FilterControls.Gesture) : M Page unit :=
  fun w => (inr tt, fst (react g w)).

Definition step (tab : Tab) (e : Event) : Tab :=
  match e with
  | User g =>
      let (w, ps) := react g (world tab) in
      mkTab w (pending tab ++ ps)%list
  | Settle => settleNext tab
  | Wait ticks => wait ticks tab
  end.

Definition run (events : list Event) (tab : Tab) : Tab := fold_left step events tab.

(** Every promise in flight settles, in the order of time, the user
    doing nothing more. *)
Definition drain (tab : Tab) : Tab :=
  Nat.iter (list_sum (map awaitsLeft (pending tab))) settleNext tab.

(** The component is mounted: first render, first effect. *)
Definition mounted (w : World Page) : Tab :=
  let (w', ps) := effect w in mkTab w' ps.

(** A session of the page: mounting, then the events, in their order,
    then whatever is still in flight settles. *)
Definition session (events : list Event) : M Page unit :=
  fun w => (inr tt, world (drain (run events (mounted w)))).

End Effect.

Definition mount (token : option string) : World Page :=
  mkWorld token 0 [] (mkPage initial []).

End Home.

(** ** Chart helpers of the [Home] page *)

Module Charts.

Definition COLORS : list string :=
  [ "#3b82f6"; "#10b981"; "#f59e0b"; "#ef4444"; "#8b5cf6"; "#ec4899"; "#14b8a6" ].

(** [COLORS[index % COLORS.length]], [undefined] being [None]. *)
Definition cellFill (index : nat) : option string :=
  nth_error COLORS (index mod Datatypes.length COLORS).

(** The arrow function mapped over the words:
    [word.charAt(0).toUpperCase() + word.slice(1)]. *)
Definition capitalize (word : string) : string :=
  Js.toUpperCase (Js.charAt0 word) ++ Js.slice1 word.

(** Helper function to format category names. *)
Definition formatCategoryName (name : string) : string :=
  Js.join " " (map capitalize (Js.split "_" name)).

End Charts.

(** ** Notions used to state the properties *)

(** [occurs c s]: the character [c] occurs in [s]. *)
Fixpoint occurs (c : ascii) (s : string) : bool :=
  match s with
  | EmptyString => false
  | String x r => (x =? c)%char || occurs c r
  end.

(** The requests a computation adds to the log when run from [w]. *)
Definition issuedBy {U A : Type} (m : Async.M U A) (w : Async.World U)
  : list (nat * Async.Request) :=
  skipn (length (Async.issued w)) (Async.issued (snd (m w))).

(** The headers [getAuthHeaders] returns while [authToken] holds [token]. *)
Definition headersOf (token : option string) : list (string * string) :=
  match fst (Api.getAuthHeaders (Async.mkWorld token 0 [] tt)) with
  | inr h => h
  | inl _ => []
  end.

(** The request an operation on [path] sends for [filters] while
    [authToken] holds [token]. *)
Definition requestFor (env token : option string) (path : string)
           (filters : Api.AnalyticsFilters) : Async.Request :=
  Async.mkRequest (Api.API_URL env ++ path ++ "?" ++ Api.buildQueryString filters)
                  (headersOf token).

(** An exchange that lets the fetch function return: an ok status and a
    body that parses. *)
Definition answered (x : Async.Exchange) : option Js.value :=
  match Async.outcome x with
  | Async.Responded r =>
      if Async.ok r then
        match Async.body r with
        | Async.Json v => Some v
        | Async.Malformed _ => None
        end
      else None
  | Async.Rejected _ => None
  end.

(** What a fetch function makes of the exchange its request meets. *)
Definition settle (failure : string) (x : Async.Exchange) : Js.thrown + Js.value :=
  match Async.outcome x with
  | Async.Rejected e => inl e
  | Async.Responded r =>
      if Async.ok r then
        match Async.body r with
        | Async.Json v => inr v
        | Async.Malformed msg => inl (Js.ErrorObject "SyntaxError" msg)
        end
      else inl (Js.ErrorObject "Error" failure)
  end.

(** Paths and failure messages of the ten operations in the array of
    [fetchAllFastKPIs], in its order. *)
Definition fastEndpoints : list (string * string) :=
  [ ("/analytics/session-metrics", "Failed to fetch session metrics");
    ("/analytics/volume-trends", "Failed to fetch volume trends");
    ("/analytics/user-engagement", "Failed to fetch user engagement");
    ("/analytics/user-retention", "Failed to fetch user retention");
    ("/analytics/query-categories", "Failed to fetch query categories");
    ("/analytics/returning-user-behavior", "Failed to fetch returning user behavior");
    ("/analytics/user-segmentation", "Failed to fetch user segmentation");
    ("/analytics/time-patterns", "Failed to fetch time patterns");
    ("/analytics/conversation-length", "Failed to fetch conversation length");
    ("/analytics/platform-analytics", "Failed to fetch platform analytics") ].

Definition clusteringPath : string := "/analytics/pain-point-clustering".
Definition sentimentPath : string := "/analytics/sentiment-analysis".

(** The stages of [fetchData] on the cells of [Home]. *)
Definition begun (s : Home.State) : Home.State :=
  Home.setError None
    (Home.setSentimentLoading true (Home.setClusteringLoading true (Home.setLoading true s))).

Definition withFast (fastData : Api.FastKPIs) (s : Home.State) : Home.State :=
  Home.setLoading false
    (Home.setData (Some (Home.mkDashboardData fastData Js.VNull Js.VNull)) s).

Definition withClustering (v : Js.value) (s : Home.State) : Home.State :=
  Home.setClusteringLoading false (Home.setClustering v s).

Definition withSentiment (v : Js.value) (s : Home.State) : Home.State :=
  Home.setSentimentLoading false (Home.setSentiment v s).

Definition caught (err : Js.thrown) (s : Home.State) : Home.State :=
  Home.setSentimentLoading false
    (Home.setClusteringLoading false
       (Home.setLoading false (Home.setError (Some (Home.messageOf err)) s))).

(** Example servers.  [healthy] answers every request after three ticks
    with status 200 and an empty object; [failingOn part status] does the
    same except for the requests whose URL contains [part], which it answers
    after thirty ticks with [status] and an error object naming [kind]. *)
Definition healthy : Async.Network :=
  fun _ _ => Async.mkExchange 3 (Async.Responded (Async.mkResponse 200 (Async.Json (Js.VObj [])))).

Definition failingOn (part : string) (status : nat) (kind : string) : Async.Network :=
  fun t r =>
    match String.index 0 part (Async.url r) with
    | Some _ =>
        Async.mkExchange 30
          (Async.Responded
             (Async.mkResponse status (Async.Json (Js.VObj [("error", Js.VStr kind)]))))
    | None => healthy t r
    end.

Definition mentions (part : string) (r : nat * Async.Request) : bool :=
  match String.index 0 part (Async.url (snd r)) with
  | Some _ => true
  | None => false
  end.

(** The closed enumerations of the two selectors. *)
Definition productContexts : list string := ["pool"; "landscape"].
Definition userTypes : list string := ["all"; "internal"; "external"].

(** A request that carries filters satisfying [P]. *)
Definition carries (env token : option string) (P : Api.AnalyticsFilters -> Prop)
           (r : Async.Request) : Prop :=
  exists path f, r = requestFor env token path f /\ P f.

(** The twelve operations of [lib/api.ts], the ten of the aggregate first. *)
Definition operations {U : Type} (env : option string) (net : Async.Network)
  : list (Api.AnalyticsFilters -> Async.M U Js.value) :=
  (Api.fastKPIFetchers env net
   ++ [Api.fetchPainPointClustering env net; Api.fetchSentimentAnalysis env net])%list.

Definition operation {U : Type} (env : option string) (net : Async.Network) (i : nat)
  : Api.AnalyticsFilters -> Async.M U Js.value :=
  nth i (operations env net) (fun _ => Async.ret Js.VUndefined).

(** The guard as the specification words it: the domain of an email is
    what follows its first [@]; an email is allowlisted when that domain,
    lowercased, is one of the five. *)
Fixpoint afterFirstAt (email : string) : option string :=
  match email with
  | EmptyString => None
  | String c r => if (c =? "@")%char then Some r else afterFirstAt r
  end.

Definition domainAllowlisted (email : string) : bool :=
  match afterFirstAt email with
  | Some d => existsb (String.eqb (Js.toLowerCase d)) AuthGuard.ALLOWED_DOMAINS
  | None => false
  end.

(** A double quote, as a one-character string. *)
Definition dquote : string := String (ascii_of_nat 34) EmptyString.

(** One promise of the array of [fetchAllFastKPIs]: the instant it settles
    and how. *)
Definition settledAt (env : option string) (net : Async.Network)
           (f : Api.AnalyticsFilters) (token : option string) (t0 : nat)
           (e : string * string) : nat * (Js.thrown + Js.value) :=
  let x := net t0 (requestFor env token (fst e) f) in
  (t0 + Async.latency x, settle (snd e) x).

(** The ten records, from the settled array. *)
Definition recordsOf (rs : list (nat * (Js.thrown + Js.value))) : Api.FastKPIs :=
  let vs := Async.fulfilled rs in
  Api.mkFastKPIs (Api.at_ vs 0) (Api.at_ vs 1) (Api.at_ vs 2) (Api.at_ vs 3)
                 (Api.at_ vs 4) (Api.at_ vs 5) (Api.at_ vs 6) (Api.at_ vs 7)
                 (Api.at_ vs 8) (Api.at_ vs 9).

(** The cells the selectors write are within the enumerations. *)
Definition selectorsClosed (s : Home.State) : Prop :=
  In (Home.productContext s) productContexts /\ In (Home.userType s) userTypes.

Definition closedRequest (env token : option string) (r : nat * Async.Request) : Prop :=
  carries env token
          (fun f => In (Api.productContext f) productContexts
                    /\ In (Api.userType f) userTypes) (snd r).

(** An optional filter field as [buildQueryString] sees it: an empty string
    counts as absent. *)
Definition supplied (v : option string) : option string :=
  if Js.truthy v then v else None.

(** [allChars p s]: every character of [s] satisfies [p]. *)
Fixpoint allChars (p : ascii -> bool) (s : string) : bool :=
  match s with
  | EmptyString => true
  | String c r => p c && allChars p r
  end.

(** The characters a serialized query string is made of: the bytes the
    serializer leaves alone, and [+], [%], [&], [=]. *)
Definition queryChar (c : ascii) : bool :=
  URLSearchParams.isUrlSafe c
  || (c =? "+")%char || (c =? "%")%char || (c =? "&")%char || (c =? "=")%char.

Definition isAscii (s : string) : bool :=
  allChars (fun c => (nat_of_ascii c <? 128)%nat) s.

(** The headers of a request sent while the token is [token], written
    out. *)
Definition expectedHeaders (token : option string) : list (string * string) :=
  ("Content-Type", "application/json")
  :: match token with
     | Some t => if t =? "" then [] else [("Authorization", "Bearer " ++ t)]
     | None => []
     end.

(** The body a path's exchange delivers at [t0], [undefined] when the
    exchange goes unanswered. *)
Definition answerOf (env : option string) (net : Async.Network) (token : option string)
           (t0 : nat) (f : Api.AnalyticsFilters) (path : string) : Js.value :=
  match answered (net t0 (requestFor env token path f)) with
  | Some v => v
  | None => Js.VUndefined
  end.

(** A network on which every [fetch] rejects at once with an [Error] whose
    message is empty. *)
Definition silent : Async.Network :=
  fun _ _ => Async.mkExchange 1 (Async.Rejected (Js.ErrorObject "TypeError" "")).

(** [formatCategoryName] read character by character: an underscore
    becomes a space, and the character at the start of a word is put in
    upper case. *)
Fixpoint wordwise (atStart : bool) (s : string) : string :=
  match s with
  | EmptyString => EmptyString
  | String c r =>
      if (c =? "_")%char then String " " (wordwise true r)
      else String (if atStart then Js.upperChar c else c) (wordwise false r)
  end.

(** Lower-case letters, digits and underscores: the alphabet of the
    category identifiers. *)
Definition snakeChar (c : ascii) : bool :=
  let n := nat_of_ascii c in
  (((97 <=? n) && (n <=? 122)) || ((48 <=? n) && (n <=? 57)) || (n =? 95))%nat.

(** Back from a label to an identifier: lower case, spaces to underscores. *)
Fixpoint toSnake (s : string) : string :=
  match s with
  | EmptyString => EmptyString
  | String c r =>
      String (if (c =? " ")%char then "_"%char else Js.lowerChar c) (toSnake r)
  end.

(** A signed-in user with the given email, Auth0 having finished loading. *)
Definition signedIn (email : string) : AuthGuard.Auth0 :=
  AuthGuard.mkAuth0 true false (Some (AuthGuard.mkUser (Some email))).

(** An update that leaves the four filter cells as they are. *)
Definition keepsFilters (f : Home.State -> Home.State) : Prop :=
  forall s,
    Home.startDate (f s) = Home.startDate s
    /\ Home.endDate (f s) = Home.endDate s
    /\ Home.productContext (f s) = Home.productContext s
    /\ Home.userType (f s) = Home.userType s.

(** A stage that, started while the token is [token], sends closed requests
    only, touches neither the token nor the page, and resumes with an update
    that keeps the filter cells. *)
Definition stageClosed (env token : option string) (st : Home.Stage) : Prop :=
  match st with
  | Home.Awaiting promise andThen =>
      (forall a, keepsFilters (andThen a))
      /\ forall w : Async.World Home.Page,
          Async.authToken w = token ->
          exists t l,
            snd (promise w) = Async.mkWorld token t (Async.issued w ++ l)%list (Async.ui w)
            /\ Async.now w <= t
            /\ Forall (closedRequest env token) l
  end.

(** A run made of such stages, whose handler is the [catch] block of
    [fetchData]. *)
Definition runClosed (env token : option string) (r : Home.Run) : Prop :=
  Forall (stageClosed env token) (Home.stages r)
  /\ forall err s, Home.handler r err s = caught err s.

Definition pendingClosed (env token : option string) (p : Home.Pending) : Prop :=
  keepsFilters (Home.update p)
  /\ runClosed env token (Home.continuation p)
  /\ forall err,
      Home.rejection p = Some err ->
      (forall s, Home.update p s = caught err s)
      /\ Home.stages (Home.continuation p) = [].

Definition worldClosed (env token : option string) (w : Async.World Home.Page) : Prop :=
  Async.authToken w = token
  /\ selectorsClosed (Home.state (Async.ui w))
  /\ Forall (closedRequest env token) (Async.issued w).

(** What holds of the tab throughout a session of a page mounted with
    [token]. *)
Definition tabClosed (env token : option string) (tab : Home.Tab) : Prop :=
  worldClosed env token (Home.world tab)
  /\ Forall (pendingClosed env token) (Home.pending tab)
  /\ Forall (fun p => Async.now (Home.world tab) <= Home.settlesAt p) (Home.pending tab).

(** The rejection about to settle, if the next promise to settle is a
    rejected one. *)
Definition nextRejection (tab : Home.Tab) : option Js.thrown :=
  match Home.earliest (Home.pending tab) with
  | Some (p, _) => Home.rejection p
  | None => None
  end.

(** The paths of the twelve operations, in the order [fetchData] reaches
    them. *)
Definition operationPaths : list string :=
  (map fst fastEndpoints ++ [clusteringPath; sentimentPath])%list.

(** What precedes the first [c] of [s], all of [s] when it holds none, and
    what follows it. *)
Fixpoint beforeFirst (c : ascii) (s : string) : string :=
  match s with
  | EmptyString => EmptyString
  | String x r => if (x =? c)%char then EmptyString else String x (beforeFirst c r)
  end.

Fixpoint afterFirst (c : ascii) (s : string) : string :=
  match s with
  | EmptyString => EmptyString
  | String x r => if (x =? c)%char then r else afterFirst c r
  end.

(** The query of a URL as the URL standard delimits it: the fragment
    starts at the first [#], the query at the first [?] before it.
    [submitted r name] is the value the request [r] carries under [name],
    as the receiving end reads it. *)
Definition queryOf (url : string) : URLSearchParams.t :=
  URLSearchParams.parse (afterFirst "?" (beforeFirst "#" url)).

Definition submitted (r : nat * Async.Request) (name : string) : option string :=
  URLSearchParams.get (queryOf (Async.url (snd r))) name.

(** A timestamp [<date>T<hh>:<mm>:<ss>] read as its date and the second of
    that day, from 0 to 86399. *)
Definition digit (c : ascii) : option N :=
  let n := N_of_ascii c in
  if ((48 <=? n) && (n <=? 57))%N then Some (n - 48)%N else None.

Definition twoDigits (s : string) : option N :=
  match s with
  | String a (String b EmptyString) =>
      match digit a, digit b with
      | Some x, Some y => Some (10 * x + y)%N
      | _, _ => None
      end
  | _ => None
  end.

Definition secondOfDay (time : string) : option N :=
  match Js.split ":" time with
  | [hh; mm; ss] =>
      match twoDigits hh, twoDigits mm, twoDigits ss with
      | Some h, Some m, Some s =>
          if ((h <? 24) && (m <? 60) && (s <? 60))%N
          then Some (3600 * h + 60 * m + s)%N else None
      | _, _, _ => None
      end
  | _ => None
  end.

Definition timestamp (s : string) : option (string * N) :=
  match Js.split "T" s with
  | [date; time] =>
      match secondOfDay time with
      | Some n => Some (date, n)
      | None => None
      end
  | _ => None
  end.

(** A server with well-formed records: the ten fast operations are
    answered after three ticks with an empty object, clustering after forty
    ticks with two clusters, named after the product context asked for, and
    sentiment after twenty ticks. *)
Definition clusteringRecord (product : string) : Js.value :=
  Js.VObj
    [ ("clusters",
       Js.VArr
         [ Js.VObj [ ("cluster_id", Js.VNum 1); ("cluster_name", Js.VStr (product ++ " orders"));
                     ("count", Js.VNum 3); ("percentage", Js.VNum 60);
                     ("example_queries", Js.VArr [Js.VStr "where is my order"]) ];
           Js.VObj [ ("cluster_id", Js.VNum 2); ("cluster_name", Js.VStr (product ++ " pricing"));
                     ("count", Js.VNum 2); ("percentage", Js.VNum 40);
                     ("example_queries", Js.VArr []) ] ]) ].

Definition sentimentRecord : Js.value :=
  Js.VObj
    [ ("total_messages", Js.VNum 5);
      ("avg_sentiment_score", Js.VNum 0.2);
      ("sentiment_distribution",
       Js.VArr
         [ Js.VObj [("category", Js.VStr "positive"); ("count", Js.VNum 3); ("percentage", Js.VNum 60)];
           Js.VObj [("category", Js.VStr "neutral"); ("count", Js.VNum 1); ("percentage", Js.VNum 20)];
           Js.VObj [("category", Js.VStr "negative"); ("count", Js.VNum 1); ("percentage", Js.VNum 20)] ]);
      ("most_positive_messages",
       Js.VArr [Js.VObj [("message", Js.VStr "thank you"); ("score", Js.VNum 0.8)]]);
      ("most_negative_messages",
       Js.VArr [Js.VObj [("message", Js.VStr "still waiting"); ("score", Js.VNum (-0.6))]]) ].

Definition serving : Async.Network :=
  fun t r =>
    let answer := fun latency v =>
      Async.mkExchange latency (Async.Responded (Async.mkResponse 200 (Async.Json v))) in
    if mentions "pain-point-clustering" (t, r) then
      answer 40 (clusteringRecord (if mentions "product_context=landscape" (t, r)
                                   then "landscape" else "pool"))
    else if mentions "sentiment-analysis" (t, r) then answer 20 sentimentRecord
    else healthy t r.

(** The cells the [catch] block leaves and the screen that follows, written
    out for the thrown value [err]. *)
Definition showsFailure (err : Js.thrown) (s : Home.State) : Prop :=
  let message := match err with
                 | Js.ErrorObject _ m => m
                 | Js.NonError _ => "Failed to fetch data"
                 end in
  Home.error s = Some message
  /\ Home.loading s = false
  /\ Home.clusteringLoading s = false
  /\ Home.sentimentLoading s = false
  /\ (message <> "" -> Home.view s = Home.ErrorScreen message).

(** ** The analytics service behind the requests *)

Module Service.

(** Modelled from the spec: the kinds of [ValidationError] of the Filter
    Contract (section 4.1).  The service that validates the filters is not
    among the sources, which hold its client only. *)
Inductive ValidationErrorKind : Type :=
| MissingRequiredField
| InvalidEnumerationValue
| InvalidRange.

(** Modelled from the spec: the closed enumeration of [product]
    (section 3). *)
Inductive Product : Type := Pool | Landscape.

(** Modelled from the spec: the closed enumeration of [user_type]
    (section 3). *)
Inductive UserType : Type := All | Internal | External.

(** Modelled from the spec: the Filter Contract (section 3), a validated
    value; timestamps are counted in seconds. *)
Record FilterContract : Type := mkContract {
  start : N;
  end_ : N;
  product : Product;
  environment : option string;
  user_id : option string;
  user_type : option UserType
}.

(** Modelled from the spec: the raw, loosely typed request parameters
    validation accepts (section 4.1), each possibly absent. *)
Record RawParameters : Type := mkRaw {
  rawStart : option N;
  rawEnd : option N;
  rawProduct : option string;
  rawEnvironment : option string;
  rawUserId : option string;
  rawUserType : option string
}.

(** Modelled from the spec: a [product] parameter read against its
    enumeration, by the names the spec gives its members. *)
Definition readProduct (s : string) : option Product :=
  if s =? "pool" then Some Pool
  else if s =? "landscape" then Some Landscape
  else None.

(** Modelled from the spec: a [user_type] parameter read against its
    enumeration. *)
Definition readUserType (s : string) : option UserType :=
  if s =? "all" then Some All
  else if s =? "internal" then Some Internal
  else if s =? "external" then Some External
  else None.

(** Modelled from the spec: validation (section 4.1) fails with a
    [ValidationError] when [start], [end] or [product] is absent, when
    [product] or [user_type] is outside its enumeration, or when [end] is
    before [start]; on success it produces the Filter Contract.  No I/O. *)
Definition validate (raw : RawParameters) : ValidationErrorKind + FilterContract :=
  match rawStart raw, rawEnd raw, rawProduct raw with
  | Some s, Some e, Some p =>
      match readProduct p, option_map readUserType (rawUserType raw) with
      | None, _ | _, Some None => inl InvalidEnumerationValue
      | Some product, given =>
          if (e <? s)%N then inl InvalidRange
          else inr (mkContract s e product (rawEnvironment raw) (rawUserId raw)
                               (match given with Some u => u | None => None end))
      end
  | _, _, _ => inl MissingRequiredField
  end.

(** Modelled from the spec: the two physical sources of the data layer
    (section 4.2). *)
Inductive Source : Type := PoolSource | LandscapeSource.

(** Modelled from the spec: the Table Router (section 4.2), which maps a
    validated product to exactly one source. *)
Definition route (p : Product) : Source :=
  match p with
  | Pool => PoolSource
  | Landscape => LandscapeSource
  end.

(** Modelled from the spec: what an operation answers, a
    [ValidationError] or the record of its family (section 7). *)
Inductive Outcome (R : Type) : Type :=
| ValidationError (kind : ValidationErrorKind)
| Served (record : R).

Arguments ValidationError {R} kind.
Arguments Served {R} record.

(** Modelled from the spec: the control flow of one operation (section 2):
    Filter Contract, then Table Router, then the computation with its
    queries against the routed source; a validation error reaches neither
    the data nor the classification layer (section 7).  The result comes
    with the queries sent to the data layer. *)
Definition request {Q R : Type} (compute : FilterContract -> Source -> list Q * R)
           (raw : RawParameters) : Outcome R * list (Source * Q) :=
  match validate raw with
  | inl kind => (ValidationError kind, [])
  | inr contract =>
      let source := route (product contract) in
      let (queries, record) := compute contract source in
      (Served record, map (pair source) queries)
  end.

End Service.

(** * Properties *)

(** ** Strings *)

Lemma append_nil_r (s : string) : s ++ "" = s.
Proof. induction s as [|c s IH]; simpl; [reflexivity | now rewrite IH]. Qed.

Lemma append_assoc (a b c : string) : (a ++ b) ++ c = a ++ (b ++ c).
Proof. induction a as [|x a IH]; simpl; [reflexivity | now rewrite IH]. Qed.

Lemma append_cancel_l (a b c : string) : a ++ b = a ++ c -> b = c.
Proof.
  induction a as [|x a IH]; simpl; intros H; [assumption|].
  injection H as H. now apply IH.
Qed.

Lemma occurs_app (c : ascii) (a b : string) :
  occurs c (a ++ b) = occurs c a || occurs c b.
Proof.
  induction a as [|x a IH]; simpl; [reflexivity|].
  rewrite IH. now rewrite orb_assoc.
Qed.

Lemma split_without_sep (sep : ascii) (s : string) :
  occurs sep s = false -> Js.split sep s = [s].
Proof.
  induction s as [|x s IH]; simpl; intros H; [reflexivity|].
  apply orb_false_iff in H. destruct H as [Hx Hs].
  rewrite Hx, (IH Hs). reflexivity.
Qed.

Lemma split_app_sep (sep : ascii) (a b : string) :
  occurs sep a = false ->
  Js.split sep (a ++ String sep b) = a :: Js.split sep b.
Proof.
  induction a as [|x a IH]; simpl; intros H.
  - now rewrite Ascii.eqb_refl.
  - apply orb_false_iff in H. destruct H as [Hx Ha].
    rewrite Hx, (IH Ha). reflexivity.
Qed.

Lemma split_join (sep : ascii) (l : list string) :
  l <> [] ->
  Forall (fun s => occurs sep s = false) l ->
  Js.split sep (Js.join (String sep "") l) = l.
Proof.
  unfold Js.join. induction l as [|a l IH]; intros Hne Hall; [congruence|].
  inversion Hall as [|? ? Ha Hl]; subst.
  destruct l as [|b l].
  - simpl. now apply split_without_sep.
  - change (String.concat (String sep "") (a :: b :: l))
      with (a ++ String sep "" ++ String.concat (String sep "") (b :: l)).
    change (String sep "" ++ String.concat (String sep "") (b :: l))
      with (String sep (String.concat (String sep "") (b :: l))).
    rewrite (split_app_sep _ _ _ Ha), IH; [reflexivity | discriminate | assumption].
Qed.

(** ** The urlencoded serializer and its parser *)

Lemma serializeByte_decode (c : ascii) (t : string) :
  URLSearchParams.percentDecode
    (URLSearchParams.plusToSpace (URLSearchParams.serializeByte c ++ t))
  = String c (URLSearchParams.percentDecode (URLSearchParams.plusToSpace t)).
Proof. destruct c as [[] [] [] [] [] [] [] []]; reflexivity. Qed.

Lemma serialize_decode (s : string) :
  URLSearchParams.decode (URLSearchParams.serialize s) = s.
Proof.
  unfold URLSearchParams.decode.
  induction s as [|c s IH]; [reflexivity|].
  simpl URLSearchParams.serialize. rewrite serializeByte_decode. now rewrite IH.
Qed.

Lemma serializeByte_clean (c : ascii) :
  occurs "&" (URLSearchParams.serializeByte c) = false
  /\ occurs "=" (URLSearchParams.serializeByte c) = false.
Proof. destruct c as [[] [] [] [] [] [] [] []]; split; reflexivity. Qed.

Lemma serialize_clean (s : string) :
  occurs "&" (URLSearchParams.serialize s) = false
  /\ occurs "=" (URLSearchParams.serialize s) = false.
Proof.
  induction s as [|c s [IH1 IH2]]; [split; reflexivity|].
  simpl URLSearchParams.serialize. rewrite !occurs_app, IH1, IH2.
  destruct (serializeByte_clean c) as [H1 H2]. now rewrite H1, H2.
Qed.

Lemma cut_app (a b : string) :
  occurs "=" a = false -> URLSearchParams.cut (a ++ String "=" b) = (a, b).
Proof.
  induction a as [|x a IH]; simpl; intros H; [reflexivity|].
  apply orb_false_iff in H. destruct H as [Hx Ha].
  rewrite Hx, (IH Ha). reflexivity.
Qed.

Lemma parsePair_serializePair (kv : string * string) :
  URLSearchParams.parsePair (URLSearchParams.serializePair kv) = kv.
Proof.
  destruct kv as [k v]. unfold URLSearchParams.parsePair, URLSearchParams.serializePair.
  cbn [fst snd].
  change ("=" ++ URLSearchParams.serialize v) with (String "=" (URLSearchParams.serialize v)).
  rewrite cut_app by apply serialize_clean.
  now rewrite !serialize_decode.
Qed.

Lemma serializePair_clean (kv : string * string) :
  occurs "&" (URLSearchParams.serializePair kv) = false
  /\ (URLSearchParams.serializePair kv =? "") = false.
Proof.
  unfold URLSearchParams.serializePair. split.
  - rewrite !occurs_app.
    destruct (serialize_clean (fst kv)) as [-> _].
    destruct (serialize_clean (snd kv)) as [-> _]. reflexivity.
  - apply String.eqb_neq. destruct (URLSearchParams.serialize (fst kv)); discriminate.
Qed.

(** Reading back what [toString] wrote gives the parameters, in order. *)
Lemma parse_toString (p : URLSearchParams.t) :
  URLSearchParams.parse (URLSearchParams.toString p) = p.
Proof.
  unfold URLSearchParams.parse, URLSearchParams.toString.
  destruct p as [|kv p]; [reflexivity|].
  rewrite split_join.
  - rewrite forallb_filter_id.
    + rewrite map_map. erewrite map_ext; [apply map_id|].
      apply parsePair_serializePair.
    + apply forallb_forall. intros s Hs. apply in_map_iff in Hs.
      destruct Hs as [x [<- _]].
      destruct (serializePair_clean x) as [_ ->]. reflexivity.
  - discriminate.
  - apply Forall_forall. intros s Hs. apply in_map_iff in Hs.
    destruct Hs as [x [<- _]]. apply serializePair_clean.
Qed.

Lemma allChars_app (p : ascii -> bool) (a b : string) :
  allChars p (a ++ b) = allChars p a && allChars p b.
Proof.
  induction a as [|c a IH]; [reflexivity|].
  simpl. rewrite IH. now rewrite andb_assoc.
Qed.

Lemma serializeByte_queryChars (c : ascii) :
  allChars queryChar (URLSearchParams.serializeByte c) = true.
Proof. destruct c as [[] [] [] [] [] [] [] []]; reflexivity. Qed.

Lemma serialize_queryChars (s : string) :
  allChars queryChar (URLSearchParams.serialize s) = true.
Proof.
  induction s as [|c s IH]; [reflexivity|].
  simpl URLSearchParams.serialize.
  now rewrite allChars_app, serializeByte_queryChars, IH.
Qed.

Lemma toString_queryChars (p : URLSearchParams.t) :
  allChars queryChar (URLSearchParams.toString p) = true.
Proof.
  unfold URLSearchParams.toString, Js.join.
  induction p as [|kv p IH]; [reflexivity|].
  assert (Hkv : allChars queryChar (URLSearchParams.serializePair kv) = true).
  { unfold URLSearchParams.serializePair.
    now rewrite !allChars_app, !serialize_queryChars. }
  destruct p as [|kv' p]; [exact Hkv|].
  change (String.concat "&" (map URLSearchParams.serializePair (kv :: kv' :: p)))
    with (URLSearchParams.serializePair kv ++ "&"
          ++ String.concat "&" (map URLSearchParams.serializePair (kv' :: p))).
  rewrite !allChars_app, Hkv. cbn [allChars]. now rewrite IH.
Qed.

Lemma queryChars_no_hash (s : string) :
  allChars queryChar s = true -> occurs "#" s = false.
Proof.
  induction s as [|c s IH]; [reflexivity|].
  cbn [allChars occurs]. intros H. apply andb_true_iff in H. destruct H as [Hc Hs].
  rewrite (IH Hs), orb_false_r.
  destruct (c =? "#")%char eqn:E; [|reflexivity].
  apply Ascii.eqb_eq in E. subst c. discriminate Hc.
Qed.

Lemma beforeFirst_absent (c : ascii) (s : string) :
  occurs c s = false -> beforeFirst c s = s.
Proof.
  induction s as [|x s IH]; [reflexivity|].
  cbn [occurs beforeFirst]. intros H. apply orb_false_iff in H. destruct H as [Hx Hs].
  now rewrite Hx, (IH Hs).
Qed.

Lemma afterFirst_app (c : ascii) (a b : string) :
  occurs c a = false -> afterFirst c (a ++ String c b) = b.
Proof.
  induction a as [|x a IH]; cbn [occurs append afterFirst]; intros H.
  - now rewrite Ascii.eqb_refl.
  - apply orb_false_iff in H. destruct H as [Hx Ha]. now rewrite Hx, (IH Ha).
Qed.

(** ** [buildQueryString] *)

(** The parameters [buildQueryString] serializes, before serialization. *)
Lemma buildQueryString_parse (f : Api.AnalyticsFilters) :
  URLSearchParams.parse (Api.buildQueryString f)
  = ([ ("start_date", Api.startDate f); ("end_date", Api.endDate f);
       ("product_context", Api.productContext f); ("user_type", Api.userType f) ]
     ++ (if Js.truthy (Api.environment f)
         then [("environment", Js.or_else (Api.environment f) "")] else [])
     ++ (if Js.truthy (Api.userId f)
         then [("user_id", Js.or_else (Api.userId f) "")] else []))%list.
Proof.
  unfold Api.buildQueryString. rewrite parse_toString.
  destruct (Js.truthy (Api.environment f)), (Js.truthy (Api.userId f)); reflexivity.
Qed.

Lemma truthy_or_else (v : option string) :
  Js.truthy v = true -> Some (Js.or_else v "") = v.
Proof.
  destruct v as [s|]; simpl; [|discriminate].
  destruct (s =? ""); [discriminate | reflexivity].
Qed.

(** The four required parameters, read back. *)
Lemma buildQueryString_required (f : Api.AnalyticsFilters) :
  let q := URLSearchParams.parse (Api.buildQueryString f) in
  URLSearchParams.get q "start_date" = Some (Api.startDate f)
  /\ URLSearchParams.get q "end_date" = Some (Api.endDate f)
  /\ URLSearchParams.get q "product_context" = Some (Api.productContext f)
  /\ URLSearchParams.get q "user_type" = Some (Api.userType f).
Proof.
  intros q. subst q. rewrite buildQueryString_parse. repeat split.
Qed.


(** ** Running the fetch functions *)

Section Runs.
Context {U : Type}.
Variable env : option string.
Variable net : Async.Network.

Import Async.

Lemma fetchJson_run (path failure : string) (f : Api.AnalyticsFilters) (w : World U) :
  Api.fetchJson env net path failure f w
  = (settle failure (net (now w) (requestFor env (authToken w) path f)),
     mkWorld (authToken w)
             (now w + latency (net (now w) (requestFor env (authToken w) path f)))
             (issued w ++ [(now w, requestFor env (authToken w) path f)])%list
             (ui w)).
Proof.
  unfold Api.fetchJson, requestFor, headersOf, Api.getAuthHeaders, settle,
    bind, getWorld, fetch, json, ret, throw.
  cbn. destruct (Js.truthy (authToken w)); cbn;
    match goal with |- context [outcome ?x] => destruct (outcome x) as [r|e] end;
    cbn; try reflexivity;
    destruct (ok r); cbn; try reflexivity;
    destruct (body r); reflexivity.
Qed.

Lemma runAll_fetchers (f : Api.AnalyticsFilters) (t0 : nat) (eps : list (string * string)) :
  forall w : World U,
  exists t,
    runAll (map (fun e => Api.fetchJson env net (fst e) (snd e) f) eps) t0 w
    = (map (settledAt env net f (authToken w) t0) eps,
       mkWorld (authToken w) t
               (issued w ++ map (fun e => (t0, requestFor env (authToken w) (fst e) f)) eps)%list
               (ui w)).
Proof.
  induction eps as [|e eps IH]; intros w.
  - exists (now w). cbn. rewrite app_nil_r. now destruct w.
  - cbn [map runAll]. rewrite fetchJson_run. cbn [authToken now issued ui setNow].
    match goal with
    | |- context [runAll _ t0 ?w1] => destruct (IH w1) as [t Ht]; rewrite Ht
    end.
    exists t. cbn [authToken now issued ui]. unfold settledAt.
    rewrite <- app_assoc. reflexivity.
Qed.

Lemma fastKPIFetchers_endpoints :
  Api.fastKPIFetchers (U:=U) env net
  = map (fun e => Api.fetchJson env net (fst e) (snd e)) fastEndpoints.
Proof. reflexivity. Qed.

Lemma fetchAllFastKPIs_run (f : Api.AnalyticsFilters) (w : World U) :
  let rs := map (settledAt env net f (authToken w) (now w)) fastEndpoints in
  Api.fetchAllFastKPIs env net f w
  = (match firstRejection rs with
     | Some (_, e) => inl e
     | None => inr (recordsOf rs)
     end,
     mkWorld (authToken w)
             (match firstRejection rs with
              | Some (t, _) => t
              | None => latest (now w) rs
              end)
             (issued w ++ map (fun e => (now w, requestFor env (authToken w) (fst e) f))
                              fastEndpoints)%list
             (ui w)).
Proof.
  intros rs. unfold Api.fetchAllFastKPIs, bind, promiseAll.
  rewrite fastKPIFetchers_endpoints, map_map.
  destruct (runAll_fetchers f (now w) fastEndpoints w) as [t Ht].
  rewrite Ht. fold rs.
  destruct (firstRejection rs) as [[t' e']|]; reflexivity.
Qed.

Lemma settle_answered (failure : string) (x : Exchange) (v : Js.value) :
  settle failure x = inr v <-> answered x = Some v.
Proof.
  unfold settle, answered. destruct (outcome x) as [r|e]; [|split; discriminate].
  destruct (ok r); [|split; discriminate].
  destruct (body r); split; intros H; inversion H; reflexivity.
Qed.

Lemma settle_unanswered (failure : string) (x : Exchange) (e : Js.thrown) :
  settle failure x = inl e -> answered x = None.
Proof.
  unfold settle, answered. destruct (outcome x) as [r|e']; [|reflexivity].
  destruct (ok r); [|reflexivity].
  destruct (body r); [discriminate | reflexivity].
Qed.

End Runs.

(** ** [Promise.all] *)

Section PromiseAll.
Context {A : Type}.
Import Async.

Lemma firstRejection_In (rs : list (nat * (Js.thrown + A))) (t : nat) (e : Js.thrown) :
  firstRejection rs = Some (t, e) -> In (t, inl e) rs.
Proof.
  revert t e. induction rs as [|[t1 [e1|a1]] rs IH]; intros t e H; simpl in H.
  - discriminate.
  - destruct (firstRejection rs) as [[t' e']|].
    + destruct (t' <? t1)%nat; inversion H; subst.
      * right. now apply IH.
      * now left.
    + inversion H. now left.
  - right. now apply IH.
Qed.

Lemma firstRejection_None (rs : list (nat * (Js.thrown + A))) :
  firstRejection rs = None <-> Forall (fun r => exists a, snd r = inr a) rs.
Proof.
  induction rs as [|[t1 [e1|a1]] rs IH]; simpl.
  - split; [constructor | reflexivity].
  - split.
    + destruct (firstRejection rs) as [[t' e']|]; [destruct (t' <? t1)%nat|]; discriminate.
    + intros H. inversion H as [|? ? [a Ha] _]. discriminate.
  - rewrite IH. split; intros H.
    + constructor; [now exists a1 | assumption].
    + now inversion H.
Qed.

End PromiseAll.

Lemma skipn_app_exact {A : Type} (l r : list A) : skipn (length l) (l ++ r) = r.
Proof. induction l as [|x l IH]; [reflexivity | exact IH]. Qed.

(** ** Running [fetchData] *)

Section FetchData.
Variable env : option string.
Variable net : Async.Network.

Import Async.

Lemma fetchData_run (sd ed pc ut : string) (w : World Home.Page) :
  let f := Home.filtersOf sd ed pc ut in
  let tok := authToken w in
  let t0 := now w in
  let s0 := begun (Home.state (ui w)) in
  let rs := map (settledAt env net f tok t0) fastEndpoints in
  let ten := map (fun e => (t0, requestFor env tok (fst e) f)) fastEndpoints in
  Home.fetchData env net sd ed pc ut w
  = (inr tt,
     match firstRejection rs with
     | Some (t, err) =>
         mkWorld tok t (issued w ++ ten)%list
           (Home.mkPage (caught err s0)
              (Home.frames (ui w) ++ [(t0, s0); (t, caught err s0)])%list)
     | None =>
         let t1 := latest t0 rs in
         let s1 := withFast (recordsOf rs) s0 in
         let xc := net t1 (requestFor env tok clusteringPath f) in
         let t2 := t1 + latency xc in
         match settle "Failed to fetch pain point clustering" xc with
         | inl err =>
             mkWorld tok t2
               (issued w ++ ten ++ [(t1, requestFor env tok clusteringPath f)])%list
               (Home.mkPage (caught err s1)
                  (Home.frames (ui w) ++ [(t0, s0); (t1, s1); (t2, caught err s1)])%list)
         | inr c =>
             let s2 := withClustering c s1 in
             let xs := net t2 (requestFor env tok sentimentPath f) in
             let t3 := t2 + latency xs in
             let log := (issued w ++ ten
                         ++ [(t1, requestFor env tok clusteringPath f);
                             (t2, requestFor env tok sentimentPath f)])%list in
             match settle "Failed to fetch sentiment analysis" xs with
             | inl err =>
                 mkWorld tok t3 log
                   (Home.mkPage (caught err s2)
                      (Home.frames (ui w)
                       ++ [(t0, s0); (t1, s1); (t2, s2); (t3, caught err s2)])%list)
             | inr v =>
                 mkWorld tok t3 log
                   (Home.mkPage (withSentiment v s2)
                      (Home.frames (ui w)
                       ++ [(t0, s0); (t1, s1); (t2, s2); (t3, withSentiment v s2)])%list)
             end
         end
     end).
Proof.
  intros f tok t0 s0 rs ten.
  unfold Home.fetchData, Home.await, Home.commit, Home.set, bind, tryCatch, modifyUi.
  cbn [fst snd authToken now issued ui Home.state Home.frames].
  fold f. rewrite fetchAllFastKPIs_run.
  cbn [fst snd authToken now issued ui Home.state Home.frames].
  fold tok t0 rs ten.
  destruct (firstRejection rs) as [[t err]|].
  - cbn [fst snd authToken now issued ui Home.state Home.frames].
    rewrite <- !app_assoc. reflexivity.
  - unfold Api.fetchPainPointClustering. rewrite fetchJson_run.
    cbn [fst snd authToken now issued ui Home.state Home.frames].
    fold clusteringPath.
    destruct (settle "Failed to fetch pain point clustering"
                     (net (latest t0 rs) (requestFor env tok clusteringPath f)))
      as [err|c].
    + cbn [fst snd authToken now issued ui Home.state Home.frames].
      rewrite <- !app_assoc. reflexivity.
    + unfold Api.fetchSentimentAnalysis. rewrite fetchJson_run.
      cbn [fst snd authToken now issued ui Home.state Home.frames].
      fold sentimentPath.
      match goal with
      | |- context [settle "Failed to fetch sentiment analysis" ?x] =>
          destruct (settle "Failed to fetch sentiment analysis" x) as [err|v]
      end;
        cbn [fst snd authToken now issued ui Home.state Home.frames];
        rewrite <- !app_assoc; reflexivity.
Qed.

(** Whether each of the ten promises of the array fulfils. *)
Lemma fast_all_answered (f : Api.AnalyticsFilters) (tok : option string) (t0 : nat) :
  firstRejection (map (settledAt env net f tok t0) fastEndpoints) = None
  <-> Forall (fun e => answered (net t0 (requestFor env tok (fst e) f)) <> None)
             fastEndpoints.
Proof.
  rewrite firstRejection_None, Forall_map.
  split; apply Forall_impl; intros e; unfold settledAt; cbn [snd].
  - intros [a Ha]. apply settle_answered in Ha. congruence.
  - intros Ha. destruct (answered _) as [v|] eqn:E; [|congruence].
    exists v. now apply settle_answered.
Qed.

End FetchData.

(** ** Failures *)

Lemma view_caught (err : Js.thrown) (s : Home.State) (m : string) :
  Home.error (caught err s) = Some m -> m <> "" ->
  Home.view (caught err s) = Home.ErrorScreen m.
Proof.
  intros H Hm. unfold Home.view. cbn in H |- *. inversion H as [H1]. rewrite H1.
  apply String.eqb_neq in Hm. rewrite Hm. reflexivity.
Qed.

Lemma Forall_not_Exists {A : Type} (P : A -> option Js.value) (l : list A) :
  Forall (fun r => P r <> None) l -> Exists (fun r => P r = None) l -> False.
Proof.
  intros HF HE. apply Exists_exists in HE. destruct HE as [x [Hin Hx]].
  rewrite Forall_forall in HF. exact (HF x Hin Hx).
Qed.

(** C1 fails on the code.  The server answers every request but the
    clustering one, which comes back 503 after a long wait: session metrics
    was requested and answered, yet the page ends on the error screen, and
    sentiment was never requested.  And when one of the ten fast exchanges
    fails, the aggregate returns the failure and none of the nine answers. *)
Lemma clustering_failure_takes_the_page_down :
  let net := failingOn "pain-point-clustering" 503 "ClassificationUnavailable" in
  let w' := snd (Home.session None net [] (Home.mount None)) in
  let f := Home.filtersOf "2025-12-01" "2025-12-31" "pool" "all" in
  answered (net 0 (requestFor None None "/analytics/session-metrics" f)) = Some (Js.VObj [])
  /\ existsb (mentions "session-metrics") (Async.issued w') = true
  /\ Home.view (Home.state (Async.ui w'))
     = Home.ErrorScreen "Failed to fetch pain point clustering"
  /\ existsb (mentions "sentiment-analysis") (Async.issued w') = false
  /\ fst (Api.fetchAllFastKPIs None (failingOn "volume-trends" 500 "DataAccessError") f
            (Home.mount None))
     = inl (Js.ErrorObject "Error" "Failed to fetch volume trends").
Proof. vm_compute. repeat split. Qed.

(** ** Fast and slow operations *)

Section Separation.
Variable env : option string.
Variable net : Async.Network.

Import Async.

Lemma fetchJson_issued {U : Type} (path failure : string) (f : Api.AnalyticsFilters)
      (w : World U) :
  issuedBy (Api.fetchJson env net path failure f) w
  = [(now w, requestFor env (authToken w) path f)].
Proof.
  unfold issuedBy. rewrite fetchJson_run. cbn [snd issued].
  apply skipn_app_exact.
Qed.

Lemma fetchAllFastKPIs_issued {U : Type} (f : Api.AnalyticsFilters) (w : World U) :
  issuedBy (Api.fetchAllFastKPIs env net f) w
  = map (fun e => (now w, requestFor env (authToken w) (fst e) f)) fastEndpoints.
Proof.
  unfold issuedBy. rewrite fetchAllFastKPIs_run. cbn [snd issued].
  apply skipn_app_exact.
Qed.

(** C2. The aggregate requests the ten fast families, in the order of its
    array, and neither clustering nor sentiment; each of those two is an
    operation with a single request of its own.  On the page, once the
    aggregate has fulfilled, the ten records are on screen, with the
    loading flag down and both classifier panels still spinning, from the
    instant the aggregate settled (records whose cards cannot be rendered
    take the page off the screen instead): the clustering request leaves
    at that instant, and the sentiment request only after clustering
    answered. *)
Theorem fast_and_slow_are_separate_operations
        (sd ed pc ut : string) (w : World Home.Page) :
  let f := Home.filtersOf sd ed pc ut in
  let tok := authToken w in
  let at_path := fun path => Api.API_URL env ++ path ++ "?" ++ Api.buildQueryString f in
  let new := issuedBy (Home.fetchData env net sd ed pc ut) w in
  let w' := snd (Home.fetchData env net sd ed pc ut w) in
  map (fun r => url (snd r)) (issuedBy (Api.fetchAllFastKPIs env net f) w)
  = map at_path
        [ "/analytics/session-metrics"; "/analytics/volume-trends";
          "/analytics/user-engagement"; "/analytics/user-retention";
          "/analytics/query-categories"; "/analytics/returning-user-behavior";
          "/analytics/user-segmentation"; "/analytics/time-patterns";
          "/analytics/conversation-length"; "/analytics/platform-analytics" ]
  /\ map (fun r => url (snd r)) (issuedBy (Api.fetchPainPointClustering env net f) w)
     = [at_path "/analytics/pain-point-clustering"]
  /\ map (fun r => url (snd r)) (issuedBy (Api.fetchSentimentAnalysis env net f) w)
     = [at_path "/analytics/sentiment-analysis"]
  /\ ~ In (at_path "/analytics/pain-point-clustering")
          (map (fun r => url (snd r)) (issuedBy (Api.fetchAllFastKPIs env net f) w))
  /\ ~ In (at_path "/analytics/sentiment-analysis")
          (map (fun r => url (snd r)) (issuedBy (Api.fetchAllFastKPIs env net f) w))
  /\ forall fast w1,
      Api.fetchAllFastKPIs env net f w = (inr fast, w1) ->
      let s1 := withFast fast (begun (Home.state (ui w))) in
      let creq := requestFor env tok clusteringPath f in
      let sreq := requestFor env tok sentimentPath f in
      let t2 := now w1 + latency (net (now w1) creq) in
      In (now w1, s1) (Home.frames (ui w'))
      /\ Home.view s1
         = (if Home.cardsRender (Home.mkDashboardData fast Js.VNull Js.VNull)
            then Home.Dashboard (Home.mkDashboardData fast Js.VNull Js.VNull)
                                Home.ClusteringSpinner Home.SentimentSpinner false
            else Home.RenderThrows)
      /\ new = (issuedBy (Api.fetchAllFastKPIs env net f) w
                ++ (now w1, creq)
                :: match answered (net (now w1) creq) with
                   | Some _ => [(t2, sreq)]
                   | None => []
                   end)%list.
Proof.
  intros f tok at_path new w'.
  assert (Hten : map (fun r => url (snd r)) (issuedBy (Api.fetchAllFastKPIs env net f) w)
                 = map at_path (map fst fastEndpoints))
    by (rewrite fetchAllFastKPIs_issued, !map_map; reflexivity).
  split; [exact Hten|]. split; [|split; [|split; [|split]]].
  - unfold Api.fetchPainPointClustering. now rewrite fetchJson_issued.
  - unfold Api.fetchSentimentAnalysis. now rewrite fetchJson_issued.
  - rewrite Hten. cbn [map fst fastEndpoints In]. unfold at_path. intros H.
    repeat (destruct H as [H|H]; [apply append_cancel_l in H; discriminate H|]).
    exact H.
  - rewrite Hten. cbn [map fst fastEndpoints In]. unfold at_path. intros H.
    repeat (destruct H as [H|H]; [apply append_cancel_l in H; discriminate H|]).
    exact H.
  - intros fast w1 H s1 creq sreq t2.
    subst new w'. unfold issuedBy at 1.
    rewrite fetchData_run, fetchAllFastKPIs_issued.
    rewrite fetchAllFastKPIs_run in H. cbn [snd]. fold f tok. fold tok in H.
    set (rs := map (settledAt env net f tok (now w)) fastEndpoints) in *.
    destruct (firstRejection rs) as [[t err]|]; [discriminate H|].
    apply pair_equal_spec in H. destruct H as [Hfast Hw1].
    injection Hfast as Hfast. subst t2 s1 fast w1. cbn [now]. fold creq.
    split; [|split].
    + destruct (settle _ _) as [err|c]; [|destruct (settle _ _) as [err|v]];
        cbn [ui Home.frames]; apply in_or_app; right; simpl; auto.
    + unfold Home.view, Home.clusteringPanelOf, Home.sentimentPanelOf,
        Home.detailsTableOf.
      cbn. now rewrite andb_false_r.
    + destruct (settle "Failed to fetch pain point clustering"
                       (net (latest (now w) rs) creq)) as [err|c] eqn:Ec.
      * apply settle_unanswered in Ec. rewrite Ec.
        cbn [issued]. now rewrite skipn_app_exact.
      * apply settle_answered in Ec. rewrite Ec.
        destruct (settle _ _) as [err|v]; cbn [issued]; now rewrite skipn_app_exact.
Qed.

End Separation.

Lemma fast_and_slow_are_separate_operations_witness :
  let f := Home.filtersOf "2025-12-01" "2025-12-31" "pool" "all" in
  issuedBy (Home.fetchData None healthy "2025-12-01" "2025-12-31" "pool" "all")
           (Home.mount None)
  = (issuedBy (Api.fetchAllFastKPIs None healthy f) (Home.mount None)
     ++ [ (3, requestFor None None clusteringPath f);
          (6, requestFor None None sentimentPath f) ])%list.
Proof.
  intros f.
  destruct (fast_and_slow_are_separate_operations None healthy
              "2025-12-01" "2025-12-31" "pool" "all" (Home.mount None))
    as (_ & _ & _ & _ & _ & H).
  edestruct H as (_ & _ & Hnew); [cbv; reflexivity | exact Hnew].
Defined.

(** ** Failure kinds *)

Section FailureKinds.
Variable env : option string.
Variable net : Async.Network.

Import Async.


End FailureKinds.



(** ** Gestures and sessions *)

Ltac case_settle :=
  match goal with
  | |- context [match settle ?m ?x with _ => _ end] =>
      let err := fresh "err" in
      let v := fresh "v" in
      destruct (settle m x) as [err|v]
  end.

Lemma handle_selectorsClosed (g : FilterControls.Gesture) (s : Home.State) :
  selectorsClosed s ->
  selectorsClosed (FilterControls.handle Home.filterControlsProps g s).
Proof.
  unfold selectorsClosed, productContexts, userTypes.
  intros [Hp Hu]. destruct g as [v|v|i|i|]; cbn; try (split; assumption); try tauto.
  - destruct i as [|[|[|i]]]; cbn; tauto.
  - destruct i as [|[|[|[|i]]]]; cbn; tauto.
Qed.

(** A gesture that changes no dependency changes no cell at all. *)
Lemma handle_sameDeps (g : FilterControls.Gesture) (s : Home.State) :
  Home.sameDeps s (FilterControls.handle Home.filterControlsProps g s) = true ->
  FilterControls.handle Home.filterControlsProps g s = s.
Proof.
  unfold Home.sameDeps. intros H.
  apply andb_true_iff in H. destruct H as [H Hut].
  apply andb_true_iff in H. destruct H as [H Hpc].
  apply andb_true_iff in H. destruct H as [Hsd Hed].
  apply String.eqb_eq in Hsd, Hed, Hpc, Hut.
  destruct s as [sd ed pc ut d c v l cl sl e].
  set (s := Home.mkState sd ed pc ut d c v l cl sl e) in *.
  destruct (FilterControls.handle Home.filterControlsProps g s)
    as [sd' ed' pc' ut' d' c' v' l' cl' sl' e'] eqn:E.
  cbn in Hsd, Hed, Hpc, Hut. subst sd' ed' pc' ut'.
  assert (Hrest : Home.data (FilterControls.handle Home.filterControlsProps g s) = d
                  /\ Home.clustering (FilterControls.handle Home.filterControlsProps g s) = c
                  /\ Home.sentiment (FilterControls.handle Home.filterControlsProps g s) = v
                  /\ Home.loading (FilterControls.handle Home.filterControlsProps g s) = l
                  /\ Home.clusteringLoading (FilterControls.handle Home.filterControlsProps g s) = cl
                  /\ Home.sentimentLoading (FilterControls.handle Home.filterControlsProps g s) = sl
                  /\ Home.error (FilterControls.handle Home.filterControlsProps g s) = e).
  { destruct g as [x|x|i|i|]; cbn; try (repeat split; reflexivity).
    - destruct i as [|[|[|i]]]; repeat split; reflexivity.
    - destruct i as [|[|[|[|i]]]]; repeat split; reflexivity. }
  rewrite E in Hrest. cbn in Hrest.
  destruct Hrest as (-> & -> & -> & -> & -> & -> & ->). reflexivity.
Qed.

Lemma latest_later {A : Type} (t0 : nat) (rs : list (nat * (Js.thrown + A))) :
  t0 <= Async.latest t0 rs.
Proof. unfold Async.latest. induction rs as [|r rs IH]; cbn; lia. Qed.

Lemma earliest_None (ps : list Home.Pending) : Home.earliest ps = None -> ps = [].
Proof.
  destruct ps as [|p rest]; [reflexivity|]. cbn [Home.earliest]. intros H.
  destruct (Home.earliest rest) as [[q others]|]; [|discriminate H].
  destruct (Home.settlesAt q <? Home.settlesAt p)%nat; discriminate H.
Qed.

(** The promise [earliest] picks is one of the list, the others are the
    rest of it, and none of them settles before it. *)
Lemma earliest_spec (ps : list Home.Pending) :
  forall p others,
    Home.earliest ps = Some (p, others) ->
    (forall P : Home.Pending -> Prop, Forall P ps -> P p /\ Forall P others)
    /\ (forall x, In x ps -> x = p \/ In x others)
    /\ Forall (fun q => Home.settlesAt p <= Home.settlesAt q) others
    /\ list_sum (map Home.awaitsLeft ps)
       = Home.awaitsLeft p + list_sum (map Home.awaitsLeft others)
    /\ length ps = S (length others).
Proof.
  induction ps as [|a rest IH]; intros p others H; [discriminate|].
  cbn [Home.earliest] in H.
  destruct (Home.earliest rest) as [[q oth]|] eqn:E.
  - destruct (IH q oth eq_refl) as (Hall & Hin & Hmin & Hsum & Hlen).
    destruct (Home.settlesAt q <? Home.settlesAt a)%nat eqn:Hlt;
      injection H as <- <-.
    + apply Nat.ltb_lt in Hlt. split; [|split; [|split; [|split]]].
      * intros P HP. inversion HP as [|? ? Ha Hrest]; subst.
        destruct (Hall P Hrest) as [Hq Hoth]. split; [exact Hq | now constructor].
      * intros x [<-|Hx]; [right; now left|].
        destruct (Hin x Hx) as [->|Hx']; [now left | right; now right].
      * constructor; [lia | exact Hmin].
      * unfold list_sum in *. cbn [map fold_right]. lia.
      * cbn [length]. now rewrite Hlen.
    + apply Nat.ltb_ge in Hlt. split; [|split; [|split; [|split]]].
      * intros P HP. inversion HP; subst. split; assumption.
      * intros x [<-|Hx]; [now left | now right].
      * apply Forall_forall. intros x Hx.
        destruct (Hin x Hx) as [->|Hx']; [exact Hlt|].
        rewrite Forall_forall in Hmin. specialize (Hmin x Hx'). lia.
      * reflexivity.
      * reflexivity.
  - apply earliest_None in E. subst rest. injection H as <- <-.
    split; [|split; [|split; [|split]]].
    + intros P HP. inversion HP; subst. split; assumption.
    + intros x [<-|[]]. now left.
    + constructor.
    + reflexivity.
    + reflexivity.
Qed.

Section Sessions.
Variable env : option string.
Variable net : Async.Network.

Import Async.

Lemma firstRejection_later (f : Api.AnalyticsFilters) (tok : option string) (t0 t : nat)
      (e : Js.thrown) (eps : list (string * string)) :
  firstRejection (map (settledAt env net f tok t0) eps) = Some (t, e) -> t0 <= t.
Proof.
  intros H. apply firstRejection_In in H. apply in_map_iff in H.
  destruct H as [x [Hx _]]. unfold settledAt in Hx. injection Hx as Ht _. lia.
Qed.

(** *** The stages of [fetchData] *)

Lemma fetchJson_stageClosed (token : option string) (path failure : string)
      (f : Api.AnalyticsFilters) (k : Js.value -> Home.State -> Home.State) :
  In (Api.productContext f) productContexts -> In (Api.userType f) userTypes ->
  (forall a, keepsFilters (k a)) ->
  stageClosed env token (Home.Awaiting (Api.fetchJson env net path failure f) k).
Proof.
  intros Hp Hu Hk. split; [exact Hk|]. intros w <-. rewrite fetchJson_run. cbn [snd].
  do 2 eexists. split; [reflexivity|]. split; [lia|].
  constructor; [|constructor]. exists path, f. cbn [snd]. auto.
Qed.

Lemma fetchAllFastKPIs_stageClosed (token : option string) (f : Api.AnalyticsFilters)
      (k : Api.FastKPIs -> Home.State -> Home.State) :
  In (Api.productContext f) productContexts -> In (Api.userType f) userTypes ->
  (forall a, keepsFilters (k a)) ->
  stageClosed env token (Home.Awaiting (Api.fetchAllFastKPIs env net f) k).
Proof.
  intros Hp Hu Hk. split; [exact Hk|]. intros w <-.
  rewrite fetchAllFastKPIs_run. cbn [snd].
  do 2 eexists. split; [reflexivity|]. split.
  - destruct (firstRejection _) as [[t e]|] eqn:E;
      [eapply firstRejection_later; exact E | apply latest_later].
  - apply Forall_map, Forall_forall. intros e _. exists (fst e), f. cbn [snd]. auto.
Qed.

Lemma fetchDataRun_closed (token : option string) (sd ed pc ut : string) :
  In pc productContexts -> In ut userTypes ->
  keepsFilters (fst (Home.fetchDataRun env net sd ed pc ut))
  /\ runClosed env token (snd (Home.fetchDataRun env net sd ed pc ut)).
Proof.
  intros Hp Hu. split; [intros s; repeat split|].
  split; [|intros err s; reflexivity].
  cbn [Home.fetchDataRun snd Home.stages].
  apply Forall_cons; [|apply Forall_cons; [|apply Forall_cons; [|apply Forall_nil]]].
  - apply fetchAllFastKPIs_stageClosed; [exact Hp | exact Hu | intros a s; repeat split].
  - apply fetchJson_stageClosed; [exact Hp | exact Hu | intros a s; repeat split].
  - apply fetchJson_stageClosed; [exact Hp | exact Hu | intros a s; repeat split].
Qed.

(** *** The steps of the tab keep the invariant *)

Lemma render_facts (f : Home.State -> Home.State) (w : World Home.Page) :
  authToken (Home.render f w) = authToken w
  /\ now (Home.render f w) = now w
  /\ issued (Home.render f w) = issued w
  /\ (Home.state (ui (Home.render f w)) = Home.state (ui w)
      \/ Home.state (ui (Home.render f w)) = f (Home.state (ui w))).
Proof. unfold Home.render. destruct (Home.crashed _); cbn; auto. Qed.

Lemma render_closed (token : option string) (f : Home.State -> Home.State)
      (w : World Home.Page) :
  selectorsClosed (f (Home.state (ui w))) ->
  worldClosed env token w -> worldClosed env token (Home.render f w).
Proof.
  intros Hf (Htok & Hs & Hlog). destruct (render_facts f w) as (H1 & _ & H3 & H4).
  unfold worldClosed. rewrite H1, H3. split; [assumption|]. split; [|assumption].
  destruct H4 as [-> | ->]; assumption.
Qed.

Lemma keepsFilters_selectors (f : Home.State -> Home.State) (s : Home.State) :
  keepsFilters f -> selectorsClosed s -> selectorsClosed (f s).
Proof.
  intros Hf [Hp Hu]. destruct (Hf s) as (_ & _ & Hpc & Hut).
  unfold selectorsClosed. now rewrite Hpc, Hut.
Qed.

Lemma launch_closed (token : option string) (r : Home.Run) (w : World Home.Page) :
  runClosed env token r -> worldClosed env token w ->
  worldClosed env token (fst (Home.launch r w))
  /\ now (fst (Home.launch r w)) = now w
  /\ Forall (pendingClosed env token) (snd (Home.launch r w))
  /\ Forall (fun p => now w <= Home.settlesAt p) (snd (Home.launch r w)).
Proof.
  intros [Hst Hh] Hw. unfold Home.launch.
  destruct (Home.stages r) as [|[A promise andThen] rest].
  - cbn [fst snd]. repeat split; auto; apply Hw.
  - inversion Hst as [|? ? Hstage Hrest]; subst.
    unfold stageClosed in Hstage. destruct Hstage as [Hthen Hprom].
    destruct Hw as (Htok & Hs & Hlog).
    destruct (Hprom w Htok) as (t & l & Hw' & Hlater & Hl).
    destruct (promise w) as [[err|a] w'] eqn:E; cbn [snd] in Hw'; subst w';
      cbn [fst snd setNow authToken now issued ui Home.settlesAt].
    + split; [|split; [reflexivity|split]].
      * split; [reflexivity|]. split; [exact Hs|]. cbn [issued].
        apply Forall_app. split; assumption.
      * constructor; [|constructor]. split; [|split].
        -- cbn [Home.update]. intros s. rewrite Hh. repeat split.
        -- split; [constructor | exact Hh].
        -- cbn [Home.rejection Home.update Home.continuation Home.stages].
           intros err' H. injection H as <-. split; [intros s; apply Hh | reflexivity].
      * constructor; [exact Hlater | constructor].
    + split; [|split; [reflexivity|split]].
      * split; [reflexivity|]. split; [exact Hs|]. cbn [issued].
        apply Forall_app. split; assumption.
      * constructor; [|constructor]. split; [|split].
        -- exact (Hthen a).
        -- split; [exact Hrest | exact Hh].
        -- cbn [Home.rejection]. discriminate.
      * constructor; [exact Hlater | constructor].
Qed.

Lemma effect_closed (token : option string) (w : World Home.Page) :
  worldClosed env token w ->
  worldClosed env token (fst (Home.effect env net w))
  /\ now (fst (Home.effect env net w)) = now w
  /\ Forall (pendingClosed env token) (snd (Home.effect env net w))
  /\ Forall (fun p => now w <= Home.settlesAt p) (snd (Home.effect env net w)).
Proof.
  intros Hw. unfold Home.effect.
  pose proof Hw as (_ & [Hp Hu] & _).
  destruct (fetchDataRun_closed token
              (Home.startDate (Home.state (ui w))) (Home.endDate (Home.state (ui w)))
              (Home.productContext (Home.state (ui w))) (Home.userType (Home.state (ui w)))
              Hp Hu) as [Hpre Hrun].
  destruct (Home.fetchDataRun _ _ _ _ _ _) as [before r]. cbn [fst snd] in Hpre, Hrun.
  assert (Hw1 : worldClosed env token (Home.render before w)).
  { apply render_closed; [|exact Hw]. apply keepsFilters_selectors; [exact Hpre | apply Hw]. }
  destruct (launch_closed token r _ Hrun Hw1) as (H1 & H2 & H3 & H4).
  destruct (render_facts before w) as (_ & Hnow & _).
  rewrite Hnow in H2, H4. auto.
Qed.

Lemma react_closed (token : option string) (g : FilterControls.Gesture)
      (w : World Home.Page) :
  worldClosed env token w ->
  worldClosed env token (fst (Home.react env net g w))
  /\ now (fst (Home.react env net g w)) = now w
  /\ Forall (pendingClosed env token) (snd (Home.react env net g w))
  /\ Forall (fun p => now w <= Home.settlesAt p) (snd (Home.react env net g w)).
Proof.
  intros Hw. unfold Home.react.
  pose proof Hw as (Htok & Hs & Hlog).
  pose proof (handle_selectorsClosed g _ Hs) as Hs'.
  destruct (Home.controlsOnScreen _); [|cbn [fst snd]; auto].
  destruct (Home.sameDeps _ _).
  - cbn [fst snd]. repeat split; auto; apply Hs'.
  - set (w1 := Home.render _ w).
    assert (Hw1 : worldClosed env token w1) by (apply render_closed; assumption).
    destruct (effect_closed token w1 Hw1) as (H1 & H2 & H3 & H4).
    destruct (render_facts (fun _ => FilterControls.handle Home.filterControlsProps g
                                       (Home.state (ui w))) w) as (_ & Hnow & _).
    fold w1 in Hnow. rewrite Hnow in H2, H4. auto.
Qed.

Lemma setNow_closed (token : option string) (t : nat) (w : World Home.Page) :
  worldClosed env token w -> worldClosed env token (setNow t w).
Proof. intros H. exact H. Qed.

Lemma settleNext_closed (token : option string) (tab : Home.Tab) :
  tabClosed env token tab -> tabClosed env token (Home.settleNext tab).
Proof.
  intros (Hw & Hps & Hts). unfold Home.settleNext.
  destruct (Home.earliest (Home.pending tab)) as [[p others]|] eqn:E;
    [|split; [exact Hw | split; [exact Hps | exact Hts]]].
  destruct (earliest_spec _ _ _ E) as (Hall & _ & Hmin & _ & _).
  destruct (Hall _ Hps) as [(Hup & Hrun & _) Hothers].
  destruct (Hall _ Hts) as [Hnow _].
  set (w := setNow (Nat.max (now (Home.world tab)) (Home.settlesAt p)) (Home.world tab)).
  assert (Hw1 : worldClosed env token (Home.render (Home.update p) w)).
  { apply render_closed; [|apply setNow_closed; exact Hw].
    apply keepsFilters_selectors; [exact Hup | apply Hw]. }
  destruct (launch_closed token (Home.continuation p) _ Hrun Hw1) as (H1 & H2 & H3 & H4).
  destruct (render_facts (Home.update p) w) as (_ & Hnow' & _).
  rewrite Hnow' in H2, H4.
  destruct (Home.launch _ _) as [w' ps]. cbn [fst snd] in *.
  split; [exact H1|]. split; [apply Forall_app; split; assumption|].
  cbn [Home.world Home.pending]. rewrite H2.
  replace (now w) with (Home.settlesAt p) in * by (subst w; cbn; lia).
  apply Forall_app. split; assumption.
Qed.

Lemma wait_closed (token : option string) (ticks : nat) (tab : Home.Tab) :
  tabClosed env token tab -> tabClosed env token (Home.wait ticks tab).
Proof.
  intros (Hw & Hps & Hts). unfold Home.wait.
  split; [exact Hw|]. split; [exact Hps|]. cbn [Home.world Home.pending now setNow].
  destruct (Home.earliest (Home.pending tab)) as [[p others]|] eqn:E.
  - destruct (earliest_spec _ _ _ E) as (Hall & Hin & Hmin & _ & _).
    destruct (Hall _ Hts) as [Hp _].
    apply Forall_forall. intros q Hq. rewrite Forall_forall in Hts, Hmin.
    specialize (Hts q Hq).
    destruct (Hin q Hq) as [->|Hq']; [lia|]. specialize (Hmin q Hq'). lia.
  - apply earliest_None in E. rewrite E. constructor.
Qed.

Lemma step_closed (token : option string) (e : Home.Event) (tab : Home.Tab) :
  tabClosed env token tab -> tabClosed env token (Home.step env net tab e).
Proof.
  intros Htab. destruct e as [g| |ticks]; cbn [Home.step].
  - destruct Htab as (Hw & Hps & Hts).
    destruct (react_closed token g _ Hw) as (H1 & H2 & H3 & H4).
    destruct (Home.react env net g (Home.world tab)) as [w ps]. cbn [fst snd] in *.
    split; [exact H1|]. split; [apply Forall_app; split; assumption|].
    cbn [Home.world Home.pending]. rewrite H2. apply Forall_app. split; assumption.
  - now apply settleNext_closed.
  - now apply wait_closed.
Qed.

Lemma run_closed (token : option string) (events : list Home.Event) :
  forall tab, tabClosed env token tab -> tabClosed env token (Home.run env net events tab).
Proof.
  unfold Home.run. induction events as [|e events IH]; intros tab Htab; [exact Htab|].
  cbn [fold_left]. apply IH. now apply step_closed.
Qed.

Lemma settling_closed (token : option string) (n : nat) (tab : Home.Tab) :
  tabClosed env token tab -> tabClosed env token (Nat.iter n Home.settleNext tab).
Proof.
  intros Htab. induction n as [|n IH]; [exact Htab|].
  cbn [Nat.iter nat_rect]. now apply settleNext_closed.
Qed.

Lemma mounted_closed (token : option string) :
  tabClosed env token (Home.mounted env net (Home.mount token)).
Proof.
  assert (Hw : worldClosed env token (Home.mount token)).
  { split; [reflexivity|]. split; [|constructor].
    unfold selectorsClosed, productContexts, userTypes. cbn. tauto. }
  destruct (effect_closed token _ Hw) as (H1 & H2 & H3 & H4).
  unfold Home.mounted.
  destruct (Home.effect env net (Home.mount token)) as [w ps]. cbn [fst snd] in *.
  split; [exact H1|]. split; [exact H3|]. cbn [Home.world Home.pending]. now rewrite H2.
Qed.

(** The invariant of a session, at its end and at every point before. *)
Lemma session_closed (token : option string) (events : list Home.Event) :
  tabClosed env token (Home.run env net events (Home.mounted env net (Home.mount token)))
  /\ worldClosed env token (snd (Home.session env net events (Home.mount token))).
Proof.
  pose proof (run_closed token events _ (mounted_closed token)) as Hrun.
  split; [exact Hrun|].
  unfold Home.session, Home.drain. cbn [snd].
  apply (settling_closed token _ _ Hrun).
Qed.

(** *** Every promise settles *)

Lemma launch_awaitsLeft (r : Home.Run) (w : World Home.Page) :
  list_sum (map Home.awaitsLeft (snd (Home.launch r w))) <= length (Home.stages r).
Proof.
  unfold Home.launch. destruct (Home.stages r) as [|[A promise andThen] rest]; [cbn; lia|].
  destruct (promise w) as [[err|a] w']; cbn; lia.
Qed.

Lemma settleNext_progress (tab : Home.Tab) :
  Home.pending tab <> [] ->
  list_sum (map Home.awaitsLeft (Home.pending (Home.settleNext tab)))
  < list_sum (map Home.awaitsLeft (Home.pending tab)).
Proof.
  intros Hne. unfold Home.settleNext.
  destruct (Home.earliest (Home.pending tab)) as [[p others]|] eqn:E;
    [|apply earliest_None in E; contradiction].
  destruct (earliest_spec _ _ _ E) as (_ & _ & _ & Hsum & _).
  pose proof (launch_awaitsLeft (Home.continuation p)
                (Home.render (Home.update p)
                   (setNow (Nat.max (now (Home.world tab)) (Home.settlesAt p))
                           (Home.world tab)))) as Hle.
  destruct (Home.launch _ _) as [w' ps]. cbn [snd Home.pending] in *.
  rewrite Hsum, map_app, list_sum_app.
  change (Home.awaitsLeft p) with (S (length (Home.stages (Home.continuation p)))). lia.
Qed.

Lemma settling_ends (n : nat) :
  forall tab,
    list_sum (map Home.awaitsLeft (Home.pending tab)) <= n ->
    Home.pending (Nat.iter n Home.settleNext tab) = [].
Proof.
  induction n as [|n IH]; intros tab Hn.
  - cbn. destruct (Home.pending tab) as [|p ps]; [reflexivity|].
    cbn in Hn. unfold Home.awaitsLeft in Hn. lia.
  - rewrite Nat.iter_succ_r. apply IH.
    destruct (Home.pending tab) as [|p ps] eqn:E.
    + unfold Home.settleNext. rewrite E. cbn. rewrite E. cbn. lia.
    + assert (Hne : Home.pending tab <> []) by (rewrite E; discriminate).
      pose proof (settleNext_progress tab Hne) as Hlt. rewrite E in Hlt. lia.
Qed.

(** [drain] leaves no promise in flight. *)
Lemma drain_settles_all (tab : Home.Tab) : Home.pending (Home.drain tab) = [].
Proof. unfold Home.drain. now apply settling_ends. Qed.

(** C6. The two selects offer exactly [pool], [landscape] and [all],
    [internal], [external].  Whatever the user does with the controls,
    from mounting on, and however the answers of the server fall between
    the gestures, the two cells hold values of those enumerations, and
    every request the page has issued carries filters whose product
    context and user type, as read back from its query string, are values
    of those enumerations. *)
Theorem selectors_stay_in_their_enumerations
        (token : option string) (gs : list Home.Event) :
  let w' := snd (Home.session env net gs (Home.mount token)) in
  map fst FilterControls.productContextOptions = ["pool"; "landscape"]
  /\ map fst FilterControls.userTypeOptions = ["all"; "internal"; "external"]
  /\ In (Home.productContext (Home.state (ui w'))) ["pool"; "landscape"]
  /\ In (Home.userType (Home.state (ui w'))) ["all"; "internal"; "external"]
  /\ Forall (fun r =>
               exists path f p u,
                 snd r = requestFor env token path f
                 /\ URLSearchParams.get
                      (URLSearchParams.parse (Api.buildQueryString f)) "product_context"
                    = Some p
                 /\ In p ["pool"; "landscape"]
                 /\ URLSearchParams.get
                      (URLSearchParams.parse (Api.buildQueryString f)) "user_type"
                    = Some u
                 /\ In u ["all"; "internal"; "external"])
            (issued w').
Proof.
  intros w'. split; [reflexivity|]. split; [reflexivity|].
  destruct (session_closed token gs) as [_ (_ & [Hp Hu] & Hall)]. fold w' in Hp, Hu, Hall.
  split; [exact Hp|]. split; [exact Hu|].
  eapply Forall_impl; [|exact Hall].
  intros r (path & f & Hr & Hpc & Hut).
  exists path, f, (Api.productContext f), (Api.userType f).
  destruct (buildQueryString_required f) as (_ & _ & Hq1 & Hq2).
  repeat split; assumption.
Qed.

End Sessions.

(** ** Failures of a run *)

Lemma caught_showsFailure (err : Js.thrown) (s : Home.State) :
  showsFailure err (caught err s).
Proof.
  unfold showsFailure.
  split; [destruct err; reflexivity|]. do 3 (split; [reflexivity|]).
  intros Hm. apply view_caught; [destruct err; reflexivity | exact Hm].
Qed.

(** *** A run that nothing overlaps *)

Lemma crashed_begun (s : Home.State) : Home.crashed (begun s) = false.
Proof. reflexivity. Qed.

Lemma view_withFast (fast : Api.FastKPIs) (s : Home.State) :
  Home.view (withFast fast (begun s))
  = if Home.cardsRender (Home.mkDashboardData fast Js.VNull Js.VNull)
    then Home.Dashboard (Home.mkDashboardData fast Js.VNull Js.VNull)
                        Home.ClusteringSpinner Home.SentimentSpinner false
    else Home.RenderThrows.
Proof.
  unfold Home.view, Home.clusteringPanelOf, Home.sentimentPanelOf, Home.detailsTableOf.
  cbn [withFast begun Home.setLoading Home.setData Home.setError Home.setSentimentLoading
       Home.setClusteringLoading Home.loading Home.error Home.data Home.clusteringLoading
       Home.sentimentLoading Home.clustering Js.truthy negb].
  now rewrite andb_false_r.
Qed.

Lemma crashed_withFast (fast : Api.FastKPIs) (s : Home.State) :
  Home.cardsRender (Home.mkDashboardData fast Js.VNull Js.VNull) = true ->
  Home.crashed (withFast fast (begun s)) = false.
Proof. intros H. unfold Home.crashed. now rewrite view_withFast, H. Qed.

Lemma view_without_error (s : Home.State) (m : string) :
  Js.truthy (Home.error s) = false -> Home.view s <> Home.ErrorScreen m.
Proof.
  intros He. unfold Home.view. rewrite He.
  destruct (Home.loading s); [discriminate|].
  destruct (Home.data s) as [d|]; [|discriminate].
  destruct (Home.clusteringPanelOf s), (Home.sentimentPanelOf s), (Home.detailsTableOf s);
    try discriminate.
  destruct (Home.cardsRender d); discriminate.
Qed.

(** The filter controls change what is asked for, not what is shown. *)
Lemma view_handle (g : FilterControls.Gesture) (s : Home.State) :
  Home.view (FilterControls.handle Home.filterControlsProps g s) = Home.view s.
Proof.
  destruct g as [x|x|i|i|]; try reflexivity.
  - destruct i as [|[|[|i]]]; reflexivity.
  - destruct i as [|[|[|[|i]]]]; reflexivity.
Qed.

Ltac tidy :=
  cbn [Async.setNow Async.authToken Async.now Async.issued Async.ui
       Home.state Home.frames Home.world Home.pending Home.earliest Home.settlesAt
       Home.update Home.continuation Home.stages Home.handler app fst snd].

Ltac settles s crashed_s :=
  unfold Home.settleNext; tidy; rewrite Nat.max_r by lia;
  unfold Home.render; tidy;
  change (Home.crashed _) with (Home.crashed s); rewrite crashed_s.

Section Failures.
Variable env : option string.
Variable net : Async.Network.

Import Async.

(** A run that nothing overlaps, taken promise by promise, is [fetchData]
    run in one go, as long as the page stays on the screen while the run
    lasts. *)
Lemma mounted_alone (w : World Home.Page) :
  let s := Home.state (ui w) in
  let f := Home.filtersOf (Home.startDate s) (Home.endDate s)
                          (Home.productContext s) (Home.userType s) in
  let rs := map (settledAt env net f (authToken w) (now w)) fastEndpoints in
  Home.crashed s = false ->
  (firstRejection rs = None ->
   Home.cardsRender (Home.mkDashboardData (recordsOf rs) Js.VNull Js.VNull) = true) ->
  (forall c,
      firstRejection rs = None ->
      answered (net (latest (now w) rs) (requestFor env (authToken w) clusteringPath f))
      = Some c ->
      Home.crashed (withClustering c (withFast (recordsOf rs) (begun s))) = false) ->
  Home.world (Home.drain (Home.mounted env net w))
  = snd (Home.fetchData env net (Home.startDate s) (Home.endDate s)
                        (Home.productContext s) (Home.userType s) w).
Proof.
  intros s f rs Hs Hcards Hc.
  rewrite fetchData_run. cbv zeta. fold s f rs.
  unfold Home.mounted, Home.effect. fold s. cbn [Home.fetchDataRun].
  unfold Home.render at 1. fold s. rewrite Hs.
  unfold Home.launch at 1. cbn [Home.stages]. fold f.
  rewrite fetchAllFastKPIs_run. tidy. fold rs.
  destruct (firstRejection rs) as [[t err]|] eqn:E.
  - pose proof (firstRejection_later env net _ _ _ _ _ _ E) as Hlater.
    match goal with
    | |- context [Home.drain ?tab] => change (Home.drain tab) with (Home.settleNext tab)
    end.
    settles (begun s) crashed_begun.
    unfold Home.launch. tidy. rewrite <- !app_assoc. reflexivity.
  - pose proof (latest_later (now w) rs) as Hlater. specialize (Hcards eq_refl).
    match goal with
    | |- context [Home.drain ?tab] =>
        change (Home.drain tab)
          with (Home.settleNext (Home.settleNext (Home.settleNext tab)))
    end.
    unfold Home.settleNext at 3. tidy. rewrite Nat.max_r by lia.
    unfold Home.render at 1. tidy.
    change (Home.crashed _) with (Home.crashed (begun s)) at 1. rewrite crashed_begun.
    unfold Home.launch at 1. tidy.
    unfold Api.fetchPainPointClustering. rewrite fetchJson_run. tidy. fold clusteringPath.
    destruct (settle "Failed to fetch pain point clustering" _) as [err|c] eqn:Ec.
    + tidy. unfold Home.settleNext at 2. tidy. rewrite Nat.max_r by lia.
      unfold Home.render at 1. tidy.
      change (Home.crashed _) with (Home.crashed (withFast (recordsOf rs) (begun s))) at 1.
      rewrite (crashed_withFast _ _ Hcards).
      unfold Home.launch at 1. tidy. unfold Home.settleNext. tidy.
      rewrite <- !app_assoc. reflexivity.
    + apply settle_answered in Ec. specialize (Hc c eq_refl Ec).
      tidy. unfold Home.settleNext at 2. tidy. rewrite Nat.max_r by lia.
      unfold Home.render at 1. tidy.
      change (Home.crashed _) with (Home.crashed (withFast (recordsOf rs) (begun s))) at 1.
      rewrite (crashed_withFast _ _ Hcards).
      unfold Home.launch at 1. tidy.
      unfold Api.fetchSentimentAnalysis. rewrite fetchJson_run. tidy. fold sentimentPath.
      destruct (settle "Failed to fetch sentiment analysis" _) as [err|v];
        tidy; unfold Home.settleNext; tidy; (rewrite Nat.max_r by lia);
        unfold Home.render; tidy;
        change (Home.crashed _)
          with (Home.crashed (withClustering c (withFast (recordsOf rs) (begun s))));
        rewrite Hc; unfold Home.launch; tidy; rewrite <- !app_assoc; reflexivity.
Qed.

(** C1, as the code has it.  A failure is not confined to its operation.
    If any of the ten exchanges of the aggregate goes unanswered, the
    aggregate rejects and returns none of the ten records.  On a page
    that is on the screen and left alone while its run of [fetchData]
    lasts, a rejection of the aggregate, of the clustering fetch or of the
    sentiment fetch ends the run: the page has then sent the ten requests
    only, the ten and the clustering request only, or all twelve; the
    error cell holds the message of the rejection ("Failed to fetch data"
    for a thrown value that is no [Error]), the three loading flags are
    down and, the message not being empty, the page is the error screen
    with that message, not the dashboard.  The same holds in a session
    with any number of runs in flight: at the instant a rejected promise
    settles, whichever run it belongs to and whatever the cells hold, the
    page stores the message, drops the flags and shows the error screen,
    and that run sends nothing further. *)
Theorem any_failure_fails_the_page
        (w : World Home.Page) (token : option string) (events : list Home.Event) :
  let s := Home.state (ui w) in
  let f := Home.filtersOf (Home.startDate s) (Home.endDate s)
                          (Home.productContext s) (Home.userType s) in
  let tok := authToken w in
  let ten := map (fun e => (now w, requestFor env tok (fst e) f)) fastEndpoints in
  let creq := requestFor env tok clusteringPath f in
  let sreq := requestFor env tok sentimentPath f in
  let alone := Home.world (Home.drain (Home.mounted env net w)) in
  let tab := Home.run env net events (Home.mounted env net (Home.mount token)) in
  (Exists (fun r => answered (net (fst r) (snd r)) = None) ten ->
   exists err, fst (Api.fetchAllFastKPIs env net f w) = inl err)
  /\ (forall err,
         Home.crashed s = false ->
         fst (Api.fetchAllFastKPIs env net f w) = inl err ->
         issued alone = (issued w ++ ten)%list
         /\ showsFailure err (Home.state (ui alone)))
  /\ (forall fast w1 err,
         Home.crashed s = false ->
         Api.fetchAllFastKPIs env net f w = (inr fast, w1) ->
         Home.cardsRender (Home.mkDashboardData fast Js.VNull Js.VNull) = true ->
         fst (Api.fetchPainPointClustering env net f w1) = inl err ->
         issued alone = (issued w ++ ten ++ [(now w1, creq)])%list
         /\ showsFailure err (Home.state (ui alone)))
  /\ (forall fast w1 c w2 err,
         Home.crashed s = false ->
         Api.fetchAllFastKPIs env net f w = (inr fast, w1) ->
         Home.cardsRender (Home.mkDashboardData fast Js.VNull Js.VNull) = true ->
         Api.fetchPainPointClustering env net f w1 = (inr c, w2) ->
         Home.crashed (withClustering c (withFast fast (begun s))) = false ->
         fst (Api.fetchSentimentAnalysis env net f w2) = inl err ->
         issued alone = (issued w ++ ten ++ [(now w1, creq); (now w2, sreq)])%list
         /\ showsFailure err (Home.state (ui alone)))
  /\ (forall err,
         nextRejection tab = Some err ->
         Home.crashed (Home.state (ui (Home.world tab))) = false ->
         let tab' := Home.settleNext tab in
         showsFailure err (Home.state (ui (Home.world tab')))
         /\ issued (Home.world tab') = issued (Home.world tab)
         /\ S (length (Home.pending tab')) = length (Home.pending tab)).
Proof.
  intros s f tok ten creq sreq alone tab.
  split; [|split; [|split; [|split]]].
  - intros HE. rewrite fetchAllFastKPIs_run. cbn [fst]. fold f tok.
    destruct (firstRejection _) as [[t err]|] eqn:E; [now exists err|].
    exfalso. apply fast_all_answered in E.
    apply (Forall_not_Exists (fun r => answered (net (fst r) (snd r))) ten); [|exact HE].
    unfold ten. now apply Forall_map.
  - intros err Hs H. subst alone.
    rewrite fetchAllFastKPIs_run in H. cbn [fst] in H. fold tok in H.
    set (rs := map (settledAt env net f tok (now w)) fastEndpoints) in *.
    rewrite (mounted_alone w Hs); fold s f tok rs.
    + rewrite fetchData_run. cbv zeta. fold s f tok rs.
      destruct (firstRejection rs) as [[t e]|]; [|discriminate H].
      injection H as ->. cbn [snd issued ui Home.state].
      split; [reflexivity | apply caught_showsFailure].
    + intros Hnone. rewrite Hnone in H. discriminate H.
    + intros c Hnone. rewrite Hnone in H. discriminate H.
  - intros fast w1 err Hs Hfast Hcards Hc. subst alone.
    rewrite fetchAllFastKPIs_run in Hfast. fold tok in Hfast.
    set (rs := map (settledAt env net f tok (now w)) fastEndpoints) in *.
    destruct (firstRejection rs) as [[t e]|] eqn:E; [discriminate Hfast|].
    apply pair_equal_spec in Hfast. destruct Hfast as [Hfast <-].
    injection Hfast as <-.
    unfold Api.fetchPainPointClustering in Hc. rewrite fetchJson_run in Hc.
    cbn [fst now authToken] in Hc |- *. fold clusteringPath in Hc.
    rewrite (mounted_alone w Hs); fold s f tok rs.
    + rewrite fetchData_run. cbv zeta. fold s f tok rs. rewrite E, Hc.
      cbn [snd issued ui Home.state].
      split; [reflexivity | apply caught_showsFailure].
    + intros _. exact Hcards.
    + intros c _ Hans. apply (settle_answered "Failed to fetch pain point clustering") in Hans.
      rewrite Hans in Hc. discriminate Hc.
  - intros fast w1 c w2 err Hs Hfast Hcards Hc Hshown Hv. subst alone.
    rewrite fetchAllFastKPIs_run in Hfast. fold tok in Hfast.
    set (rs := map (settledAt env net f tok (now w)) fastEndpoints) in *.
    destruct (firstRejection rs) as [[t e]|] eqn:E; [discriminate Hfast|].
    apply pair_equal_spec in Hfast. destruct Hfast as [Hfast <-].
    injection Hfast as <-.
    unfold Api.fetchPainPointClustering in Hc. rewrite fetchJson_run in Hc.
    cbn [fst now authToken] in Hc |- *. fold clusteringPath in Hc.
    apply pair_equal_spec in Hc. destruct Hc as [Hc <-].
    unfold Api.fetchSentimentAnalysis in Hv. rewrite fetchJson_run in Hv.
    cbn [fst now authToken] in Hv |- *. fold sentimentPath in Hv.
    rewrite (mounted_alone w Hs); fold s f tok rs.
    + rewrite fetchData_run. cbv zeta. fold s f tok rs. rewrite E, Hc, Hv.
      cbn [snd issued ui Home.state].
      split; [reflexivity | apply caught_showsFailure].
    + intros _. exact Hcards.
    + intros c' _ Hans. apply (settle_answered "Failed to fetch pain point clustering") in Hans.
      rewrite Hans in Hc. injection Hc as ->. exact Hshown.
  - intros err Hrej Hcrash tab'.
    pose proof (run_closed env net token events _ (mounted_closed env net token))
      as (_ & Hps & _).
    fold tab in Hps. unfold nextRejection in Hrej. subst tab'. unfold Home.settleNext.
    destruct (Home.earliest (Home.pending tab)) as [[p others]|] eqn:E; [|discriminate].
    destruct (earliest_spec _ _ _ E) as (Hall & _ & _ & _ & Hlen).
    destruct (Hall _ Hps) as [(_ & _ & Hp) _].
    destruct (Hp err Hrej) as [Hup Hst].
    unfold Home.launch. rewrite Hst. cbn [Home.world Home.pending].
    unfold Home.render. cbn [ui setNow Home.state]. rewrite Hcrash.
    cbn [ui Home.state issued]. rewrite Hup, app_nil_r.
    split; [apply caught_showsFailure|]. split; [reflexivity | now rewrite Hlen].
Qed.

End Failures.

Lemma any_failure_fails_the_page_witness :
  let net := failingOn "pain-point-clustering" 503 "ClassificationUnavailable" in
  let message := "Failed to fetch pain point clustering" in
  let alone := Home.world (Home.drain (Home.mounted None net (Home.mount None))) in
  let tab := Home.settleNext
               (Home.run None net [Home.Settle] (Home.mounted None net (Home.mount None))) in
  (Home.error (Home.state (Async.ui alone)) = Some message
   /\ Home.view (Home.state (Async.ui alone)) = Home.ErrorScreen message
   /\ length (Async.issued alone) = 11)
  /\ Home.view (Home.state (Async.ui (Home.world tab))) = Home.ErrorScreen message
  /\ exists err,
       fst (Api.fetchAllFastKPIs None (failingOn "volume-trends" 500 "DataAccessError")
              (Home.filtersOf "2025-12-01" "2025-12-31" "pool" "all") (Home.mount None))
       = inl err.
Proof.
  intros net message alone tab.
  destruct (any_failure_fails_the_page None net (Home.mount None) None [Home.Settle])
    as (_ & _ & Hclustering & _ & Hnext).
  split; [|split].
  - edestruct Hclustering as [Hnew (Herror & _ & _ & _ & Hview)].
    + vm_compute. reflexivity.
    + vm_compute. reflexivity.
    + vm_compute. reflexivity.
    + vm_compute. reflexivity.
    + split; [exact Herror|]. split; [apply Hview; discriminate|].
      fold net alone in Hnew. rewrite Hnew. reflexivity.
  - destruct (Hnext (Js.ErrorObject "Error" message)) as [(_ & _ & _ & _ & Hview) _].
    + vm_compute. reflexivity.
    + vm_compute. reflexivity.
    + apply Hview. discriminate.
  - destruct (any_failure_fails_the_page None (failingOn "volume-trends" 500 "DataAccessError")
                (Home.mount None) None [])
      as (Haggregate & _).
    apply Haggregate. vm_compute. do 1 right. left. reflexivity.
Defined.


(** ** Dates *)

Lemma operationPaths_plain :
  Forall (fun path => occurs "?" path = false /\ occurs "#" path = false) operationPaths.
Proof. repeat constructor. Qed.

(** Behind a base URL that holds neither [?] nor [#], the query of a
    request is the query string built from its filters. *)
Lemma queryOf_request (env token : option string) (path : string)
      (f : Api.AnalyticsFilters) :
  occurs "?" (Api.API_URL env) = false ->
  occurs "#" (Api.API_URL env) = false ->
  In path operationPaths ->
  queryOf (Async.url (requestFor env token path f))
  = URLSearchParams.parse (Api.buildQueryString f).
Proof.
  intros Hq Hh Hpath.
  destruct (proj1 (Forall_forall _ _) operationPaths_plain path Hpath) as [Hpq Hph].
  assert (Hchars : allChars queryChar (Api.buildQueryString f) = true)
    by (unfold Api.buildQueryString; apply toString_queryChars).
  unfold queryOf, requestFor. cbn [Async.url].
  rewrite <- append_assoc.
  change ("?" ++ Api.buildQueryString f) with (String "?" (Api.buildQueryString f)).
  rewrite beforeFirst_absent.
  - rewrite afterFirst_app; [reflexivity|]. now rewrite occurs_app, Hq, Hpq.
  - rewrite occurs_app. cbn [occurs]. rewrite occurs_app, Hh, Hph.
    now rewrite (queryChars_no_hash _ Hchars).
Qed.

Lemma timestamp_of_day (d : string) :
  occurs "T" d = false ->
  timestamp (d ++ "T00:00:00") = Some (d, 0%N)
  /\ timestamp (d ++ "T23:59:59") = Some (d, 86399%N).
Proof.
  intros Hd. unfold timestamp.
  change (d ++ "T00:00:00") with (d ++ String "T" "00:00:00").
  change (d ++ "T23:59:59") with (d ++ String "T" "23:59:59").
  rewrite !(split_app_sep "T" d _ Hd). split; reflexivity.
Qed.

Section Dates.
Variable env : option string.
Variable net : Async.Network.

Import Async.

(** The requests of one [fetchData]: the operations in their order, as far
    as the run gets, each with the filters built from the four cells. *)
Lemma fetchData_requests (sd ed pc ut : string) (w : World Home.Page) :
  let f := Api.mkFilters (sd ++ "T00:00:00") (ed ++ "T23:59:59") pc ut None None in
  let new := issuedBy (Home.fetchData env net sd ed pc ut) w in
  10 <= length new <= 12
  /\ map snd new
     = map (fun path => requestFor env (authToken w) path f)
           (firstn (length new) operationPaths).
Proof.
  intros f new. subst new. unfold issuedBy. rewrite fetchData_run. cbv zeta.
  change (Home.filtersOf sd ed pc ut) with f.
  destruct (firstRejection _) as [[t err]|];
    [|case_settle; [|case_settle]];
    cbn [snd issued]; rewrite skipn_app_exact;
    (split; [cbn; lia | reflexivity]).
Qed.

(** C10. Whatever the two dates, [fetchData] sends its requests, the ten
    fast ones at least and the twelve operations at most, in their order,
    each with the query string of the filters whose start is the start date
    followed by [T00:00:00] and whose end is the end date followed by
    [T23:59:59].  Behind a base URL that holds neither [?] nor [#], the
    receiving end reads those two timestamps back from the URL of every
    request sent.  Read as timestamps, they are second 0 of the start date
    and second 86399, the last one, of the end date; so when the same date
    is chosen twice the range runs from the first to the last second of
    that day and is not empty. *)
Theorem dates_expand_to_whole_days (sd ed pc ut : string) (w : World Home.Page) :
  let new := issuedBy (Home.fetchData env net sd ed pc ut) w in
  let sameDay := issuedBy (Home.fetchData env net sd sd pc ut) w in
  10 <= length new <= 12
  /\ map (fun r => url (snd r)) new
     = map (fun path =>
              Api.API_URL env ++ path ++ "?"
              ++ Api.buildQueryString
                   (Api.mkFilters (sd ++ "T00:00:00") (ed ++ "T23:59:59") pc ut None None))
           (firstn (length new) operationPaths)
  /\ (occurs "?" (Api.API_URL env) = false ->
      occurs "#" (Api.API_URL env) = false ->
      Forall (fun r => submitted r "start_date" = Some (sd ++ "T00:00:00")
                       /\ submitted r "end_date" = Some (ed ++ "T23:59:59")) new
      /\ (occurs "T" sd = false -> occurs "T" ed = false ->
          Forall (fun r => option_map timestamp (submitted r "start_date")
                           = Some (Some (sd, 0%N))
                           /\ option_map timestamp (submitted r "end_date")
                              = Some (Some (ed, 86399%N))) new)
      /\ (occurs "T" sd = false ->
          10 <= length sameDay
          /\ Forall (fun r =>
                       exists day first last,
                         option_map timestamp (submitted r "start_date")
                         = Some (Some (day, first))
                         /\ option_map timestamp (submitted r "end_date")
                            = Some (Some (day, last))
                         /\ (first < last)%N) sameDay)).
Proof.
  intros new sameDay.
  destruct (fetchData_requests sd ed pc ut w) as [Hlen Hsnd]. fold new in Hlen, Hsnd.
  split; [exact Hlen|]. split.
  { rewrite <- (map_map snd url), Hsnd, map_map. reflexivity. }
  intros Hq Hh.
  assert (Hread : forall ed',
             Forall (fun r => submitted r "start_date" = Some (sd ++ "T00:00:00")
                              /\ submitted r "end_date" = Some (ed' ++ "T23:59:59"))
                    (issuedBy (Home.fetchData env net sd ed' pc ut) w)).
  { intros ed'. destruct (fetchData_requests sd ed' pc ut w) as [_ Hsnd'].
    apply Forall_forall. intros r Hr.
    apply (in_map snd) in Hr. rewrite Hsnd' in Hr. apply in_map_iff in Hr.
    destruct Hr as (path & Hr & Hpath). unfold submitted.
    rewrite <- Hr, (queryOf_request _ _ _ _ Hq Hh).
    - destruct (buildQueryString_required
                  (Api.mkFilters (sd ++ "T00:00:00") (ed' ++ "T23:59:59") pc ut None None))
        as (H1 & H2 & _).
      split; assumption.
    - rewrite <- (firstn_skipn (length (issuedBy (Home.fetchData env net sd ed' pc ut) w))
                               operationPaths).
      apply in_or_app. now left. }
  split; [exact (Hread ed)|split].
  - intros Hsd Hed. eapply Forall_impl; [|exact (Hread ed)].
    intros r [-> ->]. cbn [option_map].
    destruct (timestamp_of_day sd Hsd) as [-> _].
    destruct (timestamp_of_day ed Hed) as [_ ->]. split; reflexivity.
  - intros Hsd. split; [apply (fetchData_requests sd sd pc ut w)|].
    eapply Forall_impl; [|exact (Hread sd)].
    intros r [-> ->]. cbn [option_map].
    destruct (timestamp_of_day sd Hsd) as [-> ->].
    exists sd, 0%N, 86399%N. repeat split.
Qed.

End Dates.

Lemma dates_expand_to_whole_days_witness :
  let sameDay := issuedBy (Home.fetchData None serving "2025-12-05" "2025-12-05" "pool" "all")
                          (Home.mount None) in
  10 <= length sameDay
  /\ Forall (fun r =>
               exists day first last,
                 option_map timestamp (submitted r "start_date") = Some (Some (day, first))
                 /\ option_map timestamp (submitted r "end_date") = Some (Some (day, last))
                 /\ (first < last)%N) sameDay.
Proof.
  intros sameDay.
  destruct (dates_expand_to_whole_days None serving "2025-12-05" "2025-12-05" "pool" "all"
              (Home.mount None)) as (_ & _ & H).
  destruct H as (_ & _ & H); [reflexivity | reflexivity |].
  apply H. reflexivity.
Defined.

(** ** Validation of the filters *)

Lemma readProduct_In (p : string) :
  Service.readProduct p <> None <-> In p ["pool"; "landscape"].
Proof.
  unfold Service.readProduct. cbn [In].
  destruct (p =? "pool") eqn:E1; [apply String.eqb_eq in E1|apply String.eqb_neq in E1].
  - split; [auto | discriminate].
  - destruct (p =? "landscape") eqn:E2;
      [apply String.eqb_eq in E2|apply String.eqb_neq in E2].
    + split; [auto | discriminate].
    + split; [congruence | intros [H|[H|[]]]; congruence].
Qed.

(** C7. Validation of the Filter Contract answers a request whose end is
    before its start with a [ValidationError], and so one whose product is
    neither [pool] nor [landscape]; such a request sends no query to the
    data layer.  When nothing else is wrong with the request the kind is
    [invalid-range] in the first case and [invalid-enumeration-value] in
    the second.  Conversely, whenever an operation is served, and only then
    can it have sent queries, the range is in order, the product is one of
    the two, and every query went to the one source of that product. *)
Theorem invalid_filters_never_reach_the_data_layer
        {Q R : Type} (compute : Service.FilterContract -> Service.Source -> list Q * R)
        (raw : Service.RawParameters) :
  let refused := exists kind,
                   Service.request compute raw = (Service.ValidationError kind, []) in
  (forall s e, Service.rawStart raw = Some s -> Service.rawEnd raw = Some e ->
               (e < s)%N -> refused)
  /\ (forall p, Service.rawProduct raw = Some p -> ~ In p ["pool"; "landscape"] -> refused)
  /\ (forall s e p, Service.rawStart raw = Some s -> Service.rawEnd raw = Some e ->
                    Service.rawProduct raw = Some p -> In p ["pool"; "landscape"] ->
                    Service.rawUserType raw = None -> (e < s)%N ->
                    Service.request compute raw
                    = (Service.ValidationError Service.InvalidRange, []))
  /\ (forall s e p, Service.rawStart raw = Some s -> Service.rawEnd raw = Some e ->
                    Service.rawProduct raw = Some p -> ~ In p ["pool"; "landscape"] ->
                    Service.rawUserType raw = None -> (s <= e)%N ->
                    Service.request compute raw
                    = (Service.ValidationError Service.InvalidEnumerationValue, []))
  /\ (forall record queries,
         Service.request compute raw = (Service.Served record, queries) ->
         exists s e p source,
           Service.rawStart raw = Some s /\ Service.rawEnd raw = Some e /\ (s <= e)%N
           /\ Service.rawProduct raw = Some p /\ In p ["pool"; "landscape"]
           /\ option_map Service.route (Service.readProduct p) = Some source
           /\ Forall (fun q => fst q = source) queries).
Proof.
  intros refused. subst refused. unfold Service.request, Service.validate.
  split; [|split; [|split; [|split]]].
  - intros s e -> -> Hlt. apply N.ltb_lt in Hlt.
    destruct (Service.rawProduct raw) as [p|]; [|eauto].
    destruct (Service.readProduct p); [|eauto].
    destruct (option_map _ _) as [[u|]|]; try rewrite Hlt; eauto.
  - intros p -> Hp.
    destruct (Service.rawStart raw), (Service.rawEnd raw); eauto.
    destruct (Service.readProduct p) eqn:E; [|eauto].
    exfalso. apply Hp, readProduct_In. congruence.
  - intros s e p -> -> -> Hp -> Hlt. apply N.ltb_lt in Hlt.
    apply readProduct_In in Hp.
    destruct (Service.readProduct p); [|congruence].
    cbn [option_map]. now rewrite Hlt.
  - intros s e p -> -> -> Hp _ _.
    destruct (Service.readProduct p) eqn:E; [|reflexivity].
    exfalso. apply Hp, readProduct_In. congruence.
  - intros record queries.
    destruct (Service.rawStart raw) as [s|]; [|discriminate].
    destruct (Service.rawEnd raw) as [e|]; [|discriminate].
    destruct (Service.rawProduct raw) as [p|]; [|discriminate].
    destruct (Service.readProduct p) as [product|] eqn:E; [|discriminate].
    destruct (option_map _ _) as [[u|]|]; try discriminate;
      (destruct (e <? s)%N eqn:Hlt; [discriminate|]);
      apply N.ltb_ge in Hlt; cbn [Service.product];
      (destruct (compute _ _) as [qs rec]); intros H; injection H as _ <-;
      exists s, e, p, (Service.route product);
      (split; [reflexivity|]); (split; [reflexivity|]); (split; [exact Hlt|]);
      (split; [reflexivity|]); (split; [apply readProduct_In; congruence|]);
      (split; [rewrite E; reflexivity|]);
      apply Forall_map, Forall_forall; intros q _; reflexivity.
Qed.

Lemma invalid_filters_never_reach_the_data_layer_witness :
  let reversed := Service.mkRaw (Some 1764633600%N) (Some 1762041599%N) (Some "pool")
                                None None (Some "all") in
  let unknown := Service.mkRaw (Some 1764547200%N) (Some 1767225599%N) (Some "spa")
                               None None None in
  let compute := fun (c : Service.FilterContract) (_ : Service.Source) =>
                   (["count distinct sessions"], (Service.end_ c - Service.start c)%N) in
  (exists kind, Service.request compute reversed = (Service.ValidationError kind, []))
  /\ Service.request compute unknown
     = (Service.ValidationError Service.InvalidEnumerationValue, []).
Proof.
  intros reversed unknown compute. split.
  - destruct (invalid_filters_never_reach_the_data_layer compute reversed) as [H _].
    apply (H 1764633600%N 1762041599%N); [reflexivity | reflexivity | reflexivity].
  - destruct (invalid_filters_never_reach_the_data_layer compute unknown)
      as (_ & _ & _ & H & _).
    apply (H 1764547200%N 1767225599%N "spa"); try reflexivity; [|lia].
    cbn. intros [H1|[H1|[]]]; discriminate H1.
Defined.

(** ** Repeated invocation *)

Ltac unfold_operations :=
  unfold Api.fetchSessionMetrics, Api.fetchVolumeTrends, Api.fetchUserEngagement,
    Api.fetchUserRetention, Api.fetchQueryCategories, Api.fetchReturningUserBehavior,
    Api.fetchUserSegmentation, Api.fetchTimePatterns, Api.fetchConversationLength,
    Api.fetchPlatformAnalytics, Api.fetchPainPointClustering, Api.fetchSentimentAnalysis.

Section Determinism.
Context {U : Type}.
Variable env : option string.

Import Async.

Lemma operation_issued (net : Network) (i : nat) (f : Api.AnalyticsFilters) (w : World U) :
  i < 12 ->
  exists path failure,
    issuedBy (operation env net i f) w = [(now w, requestFor env (authToken w) path f)]
    /\ authToken (snd (operation env net i f w)) = authToken w
    /\ forall (net' : Network) (w' : World U),
        issuedBy (operation env net' i f) w'
        = [(now w', requestFor env (authToken w') path f)]
        /\ fst (operation env net' i f w')
           = settle failure (net' (now w') (requestFor env (authToken w') path f)).
Proof.
  intros Hi.
  do 12 (destruct i as [|i];
         [do 2 eexists; split; [apply fetchJson_issued|];
          split; [unfold operation; cbn [nth operations Api.fastKPIFetchers app];
                  unfold_operations; rewrite fetchJson_run; reflexivity
                 |intros net' w'; split; [apply fetchJson_issued|];
                  unfold operation; cbn [nth operations Api.fastKPIFetchers app];
                  unfold_operations; rewrite fetchJson_run; reflexivity]|]).
  lia.
Qed.

(** C8. Each of the twelve operations, invoked with the same filters,
    sends a request to the same URL, whatever the time, the server, the
    page's state or the token; with the same token the whole request,
    headers included, is the same.  In particular an operation invoked
    twice in a row sends the same request twice, and a server whose
    answers do not change over time gives both invocations the same
    result.  The requests of the aggregate are the same in the same
    way. *)
Theorem same_filters_same_request
        (net1 net2 : Network) (f : Api.AnalyticsFilters) (w1 w2 : World U) (i : nat) :
  i < 12 ->
  map (fun r => url (snd r)) (issuedBy (operation env net1 i f) w1)
  = map (fun r => url (snd r)) (issuedBy (operation env net2 i f) w2)
  /\ (authToken w1 = authToken w2 ->
      map snd (issuedBy (operation env net1 i f) w1)
      = map snd (issuedBy (operation env net2 i f) w2))
  /\ map snd (issuedBy (operation env net1 i f) (snd (operation env net1 i f w1)))
     = map snd (issuedBy (operation env net1 i f) w1)
  /\ ((forall t t' r, net1 t r = net1 t' r) ->
      fst (operation env net1 i f (snd (operation env net1 i f w1)))
      = fst (operation env net1 i f w1))
  /\ map (fun r => url (snd r)) (issuedBy (Api.fetchAllFastKPIs env net1 f) w1)
     = map (fun r => url (snd r)) (issuedBy (Api.fetchAllFastKPIs env net2 f) w2)
  /\ (authToken w1 = authToken w2 ->
      map snd (issuedBy (Api.fetchAllFastKPIs env net1 f) w1)
      = map snd (issuedBy (Api.fetchAllFastKPIs env net2 f) w2)).
Proof.
  intros Hi.
  destruct (operation_issued net1 i f w1 Hi) as (path & failure & H1 & Htok & Hany).
  rewrite H1.
  rewrite (proj1 (Hany net2 w2)).
  rewrite (proj1 (Hany net1 (snd (operation env net1 i f w1)))).
  rewrite (proj2 (Hany net1 (snd (operation env net1 i f w1)))).
  rewrite (proj2 (Hany net1 w1)), Htok.
  rewrite !fetchAllFastKPIs_issued, !map_map. cbn [map fst snd url requestFor].
  repeat split.
  - intros ->. reflexivity.
  - intros Hstill. now rewrite (Hstill _ (now w1)).
  - intros ->. reflexivity.
Qed.

End Determinism.

Lemma same_filters_same_request_witness :
  let f := Home.filtersOf "2025-12-01" "2025-12-31" "pool" "all" in
  let busy := Async.mkWorld (Some "token") 40 [] (Home.mkPage Home.initial []) in
  map snd (issuedBy (operation None healthy 10 f) (Home.mount (Some "token")))
  = map snd (issuedBy (operation None (failingOn "pain-point-clustering" 503 "ClassificationUnavailable") 10 f)
                      busy).
Proof.
  intros f busy.
  destruct (same_filters_same_request None healthy
              (failingOn "pain-point-clustering" 503 "ClassificationUnavailable")
              f (Home.mount (Some "token")) busy 10) as (_ & H & _); [lia|].
  apply H. reflexivity.
Defined.

(** ** The sentiment trend *)

Lemma SFcompare_swap (x y : SpecFloat.spec_float) :
  SpecFloat.SFcompare y x = option_map CompOpp (SpecFloat.SFcompare x y).
Proof.
  destruct x as [sx|sx| |sx mx ex], y as [sy|sy| |sy my ey]; cbn;
    try reflexivity;
    try (destruct sx; reflexivity); try (destruct sy; reflexivity);
    try (destruct sx, sy; reflexivity).
  destruct sx, sy; cbn; try reflexivity;
    rewrite (BinInt.Z.compare_antisym ex ey);
    destruct (BinInt.Z.compare ex ey); cbn; try reflexivity;
    pose proof (BinPos.Pos.compare_cont_antisym mx my Eq) as H; cbn in H;
    rewrite <- H; destruct (BinPos.Pos.compare_cont Eq mx my); reflexivity.
Qed.

Lemma leb_true_not_gt (x y : float) :
  PrimFloat.leb x y = true -> PrimFloat.ltb y x = false.
Proof.
  rewrite leb_spec, ltb_spec. unfold SpecFloat.SFleb, SpecFloat.SFltb.
  rewrite (SFcompare_swap (Prim2SF x) (Prim2SF y)).
  destruct (SpecFloat.SFcompare (Prim2SF x) (Prim2SF y)) as [[ | | ]|];
    cbn; congruence.
Qed.

Lemma below_negative_band_not_above (x : float) :
  PrimFloat.ltb x (-0.05) = true -> PrimFloat.ltb 0.05 x = false.
Proof.
  rewrite !ltb_spec. unfold SpecFloat.SFltb.
  replace (Prim2SF (-0.05))
    with (SpecFloat.S754_finite true 7205759403792794%positive (-57)%Z)
    by (vm_compute; reflexivity).
  replace (Prim2SF 0.05)
    with (SpecFloat.S754_finite false 7205759403792794%positive (-57)%Z)
    by (vm_compute; reflexivity).
  destruct (Prim2SF x) as [s|s| |s m e]; cbn [SpecFloat.SFcompare]; try congruence.
  - destruct s; congruence.
  - destruct s; [reflexivity|discriminate].
Qed.

(** C4. The trend shown for a score is "Positive" exactly when the score is
    strictly above 0.05, "Negative" exactly when it is strictly below -0.05,
    and "Neutral" for every score from -0.05 to 0.05, both ends included; in
    particular at 0.05 and at -0.05. *)
Theorem sentiment_trend_bands (score : float) :
  (Home.sentimentTrend score = "Positive" <-> PrimFloat.ltb 0.05 score = true)
  /\ (Home.sentimentTrend score = "Negative" <-> PrimFloat.ltb score (-0.05) = true)
  /\ (PrimFloat.leb (-0.05) score = true -> PrimFloat.leb score 0.05 = true ->
      Home.sentimentTrend score = "Neutral")
  /\ Home.sentimentTrend 0.05 = "Neutral"
  /\ Home.sentimentTrend (-0.05) = "Neutral".
Proof.
  unfold Home.sentimentTrend.
  split; [|split; [|split; [|split; reflexivity]]].
  - destruct (PrimFloat.ltb 0.05 score); [tauto|].
    destruct (PrimFloat.ltb score (-0.05)); split; discriminate.
  - pose proof (below_negative_band_not_above score) as H.
    destruct (PrimFloat.ltb score (-0.05)).
    + rewrite (H eq_refl). tauto.
    + destruct (PrimFloat.ltb 0.05 score); split; discriminate.
  - intros Hlo Hhi.
    rewrite (leb_true_not_gt _ _ Hhi), (leb_true_not_gt _ _ Hlo). reflexivity.
Qed.

Lemma sentiment_trend_bands_witness :
  Home.sentimentTrend 0.03 = "Neutral" /\ Home.sentimentTrend 0.7 = "Positive"
  /\ Home.sentimentTrend (-0.3) = "Negative".
Proof.
  split; [|split].
  - apply (sentiment_trend_bands 0.03); reflexivity.
  - apply (sentiment_trend_bands 0.7). reflexivity.
  - apply (sentiment_trend_bands (-0.3)). reflexivity.
Defined.

(** ** The authentication guard *)

(** On an email with a single [@] the guard checks what follows it; on an
    email with none it finds no domain. *)
Lemma isAllowed_plain_email (a d : string) :
  occurs "@" a = false -> occurs "@" d = false ->
  AuthGuard.isAllowed (a ++ String "@" d) = domainAllowlisted (a ++ String "@" d)
  /\ AuthGuard.isAllowed a = false.
Proof.
  intros Ha Hd. unfold AuthGuard.isAllowed, AuthGuard.emailDomain, domainAllowlisted.
  rewrite (split_app_sep "@" a d Ha), (split_without_sep "@" d Hd),
    (split_without_sep "@" a Ha).
  split; [|reflexivity].
  assert (H : afterFirstAt (a ++ String "@" d) = Some d).
  { clear Hd. induction a as [|c a IH]; [reflexivity|].
    simpl in Ha |- *. apply orb_false_iff in Ha. destruct Ha as [Hc Ha].
    rewrite Hc. now apply IH. }
  rewrite H. reflexivity.
Qed.

(** C9 against the code.  An email whose part between its first and second
    [@] is an allowlisted domain is admitted, although what follows its
    first [@] is not allowlisted and its mail domain is another one; so is
    the address with a quoted local part ending in [@]. *)
Theorem guard_admits_foreign_domain :
  let plain := "a@instalily.ai@evil.com" in
  let quoted := dquote ++ "a@instalily.ai@" ++ dquote ++ "@evil.com" in
  let signedIn := fun e =>
    AuthGuard.mkAuth0 true false (Some (AuthGuard.mkUser (Some e))) in
  AuthGuard.AuthGuard (signedIn plain) = AuthGuard.Children
  /\ domainAllowlisted plain = false
  /\ AuthGuard.AuthGuard (signedIn quoted) = AuthGuard.Children
  /\ domainAllowlisted quoted = false
  /\ AuthGuard.AuthGuard (signedIn "a@evil.com") = AuthGuard.AccessDenied.
Proof. vm_compute. repeat split. Qed.

(** ** Worked examples *)

Example buildQueryString_december :
  Api.buildQueryString (Home.filtersOf "2025-12-01" "2025-12-31" "pool" "all")
  = "start_date=2025-12-01T00%3A00%3A00&end_date=2025-12-31T23%3A59%3A59&product_context=pool&user_type=all".
Proof. reflexivity. Qed.

Example buildQueryString_optional_fields :
  URLSearchParams.parse
    (Api.buildQueryString
       (Api.mkFilters "2025-12-01T00:00:00" "2025-12-31T23:59:59" "landscape" "internal"
                      (Some "prod env") (Some "")))
  = [ ("start_date", "2025-12-01T00:00:00"); ("end_date", "2025-12-31T23:59:59");
      ("product_context", "landscape"); ("user_type", "internal");
      ("environment", "prod env") ].
Proof. reflexivity. Qed.

Example landscape_is_reachable :
  let w' := snd (Home.session None serving
                   [ Home.Settle; Home.User (FilterControls.ChooseProductContext 1);
                     Home.Settle; Home.User (FilterControls.ChooseUserType 2) ]
                   (Home.mount None)) in
  (Home.productContext (Home.state (Async.ui w')), Home.userType (Home.state (Async.ui w')))
  = ("landscape", "external").
Proof. vm_compute. reflexivity. Qed.

(** While the loading screen is up there are no controls to act on. *)
Example no_gesture_on_the_loading_screen :
  Home.productContext
    (Home.state (Async.ui (snd (Home.session None serving
                                  [Home.User (FilterControls.ChooseProductContext 1)]
                                  (Home.mount None)))))
  = "pool".
Proof. vm_compute. reflexivity. Qed.

Example session_frames :
  map (fun fr => (fst fr, Home.loading (snd fr), Home.clusteringLoading (snd fr),
                  Home.sentimentLoading (snd fr)))
      (Home.frames (Async.ui (snd (Home.session None serving [] (Home.mount None)))))
  = [ (0, true, true, true); (3, false, true, true);
      (43, false, false, true); (63, false, false, false) ].
Proof. vm_compute. reflexivity. Qed.

(** A clustering answer without [clusters] makes [clustering.clusters.map]
    throw: the page goes off the screen at the instant the answer arrives,
    and the run still sends its sentiment request. *)
Example malformed_clustering_answer :
  let w' := snd (Home.session None healthy [] (Home.mount None)) in
  map (fun fr => (fst fr, Home.crashed (snd fr))) (Home.frames (Async.ui w'))
  = [(0, false); (3, false); (6, true)]
  /\ map fst (Async.issued w') = [0; 0; 0; 0; 0; 0; 0; 0; 0; 0; 3; 6].
Proof. vm_compute. split; reflexivity. Qed.

(** Runs overlap.  The user picks the landscape product eight ticks after
    mounting, while the clustering request of the first run is under way;
    at tick 43 that request is answered, and the page, whose filters say
    landscape, shows the clusters of the pool product until the second
    run's own answer arrives at tick 51. *)
Example runs_overlap :
  let w' := snd (Home.session None serving
                   [ Home.Settle; Home.Wait 5;
                     Home.User (FilterControls.ChooseProductContext 1) ]
                   (Home.mount None)) in
  exists stale fresh,
    In (43, stale) (Home.frames (Async.ui w'))
    /\ Home.productContext stale = "landscape"
    /\ Home.clusteringLoading stale = false
    /\ Home.clustering stale = clusteringRecord "pool"
    /\ In (51, fresh) (Home.frames (Async.ui w'))
    /\ Home.clustering fresh = clusteringRecord "landscape".
Proof.
  vm_compute. do 2 eexists.
  split; [do 5 right; left; reflexivity|].
  split; [reflexivity|]. split; [reflexivity|]. split; [reflexivity|].
  split; [do 6 right; left; reflexivity | reflexivity].
Qed.

Example guard_samples :
  AuthGuard.AuthGuard (AuthGuard.mkAuth0 true false
                         (Some (AuthGuard.mkUser (Some "Ana@SRSDistribution.com"))))
  = AuthGuard.Children
  /\ AuthGuard.AuthGuard (AuthGuard.mkAuth0 true false (Some (AuthGuard.mkUser None)))
     = AuthGuard.Children
  /\ AuthGuard.AuthGuard (AuthGuard.mkAuth0 true false
                            (Some (AuthGuard.mkUser (Some "no-at-sign"))))
     = AuthGuard.AccessDenied
  /\ AuthGuard.AuthGuard (AuthGuard.mkAuth0 false false None) = AuthGuard.Redirecting.
Proof. vm_compute. repeat split. Qed.


(** * Further properties of the code *)

(** ** The query string *)

Lemma supplied_or_else (v : option string) :
  Js.truthy v = true -> supplied v = Some (Js.or_else v "").
Proof.
  intros H. unfold supplied. rewrite H. symmetry. now apply truthy_or_else.
Qed.

(** X1. [buildQueryString] keeps the values of the filters apart: two
    filters get the same query string exactly when they have the same start
    date, end date, product context and user type, and the same environment
    and user id as far as these are supplied, an empty string counting as
    not supplied.  So a value cannot pass for another parameter: a user id
    [u&user_type=internal] does not turn the user type into [internal].
    This is about well-formed text, which is what the byte strings of the
    model hold; a JavaScript string with a lone surrogate, which
    [URLSearchParams] replaces by U+FFFD before it serializes, has no
    counterpart among them. *)
Theorem buildQueryString_injective (f g : Api.AnalyticsFilters) :
  Api.buildQueryString f = Api.buildQueryString g
  <-> (Api.startDate f = Api.startDate g
       /\ Api.endDate f = Api.endDate g
       /\ Api.productContext f = Api.productContext g
       /\ Api.userType f = Api.userType g
       /\ supplied (Api.environment f) = supplied (Api.environment g)
       /\ supplied (Api.userId f) = supplied (Api.userId g)).
Proof.
  split.
  - intros H. apply (f_equal URLSearchParams.parse) in H.
    rewrite !buildQueryString_parse in H.
    pose proof (supplied_or_else (Api.environment f)) as Hef.
    pose proof (supplied_or_else (Api.environment g)) as Heg.
    pose proof (supplied_or_else (Api.userId f)) as Huf.
    pose proof (supplied_or_else (Api.userId g)) as Hug.
    unfold supplied in *.
    destruct (Js.truthy (Api.environment f)), (Js.truthy (Api.environment g)),
      (Js.truthy (Api.userId f)), (Js.truthy (Api.userId g));
      cbn in H; inversion H; subst;
      try rewrite (Hef eq_refl); try rewrite (Heg eq_refl);
      try rewrite (Huf eq_refl); try rewrite (Hug eq_refl);
      repeat split; congruence.
  - intros (Hsd & Hed & Hpc & Hut & He & Hu).
    unfold Api.buildQueryString. rewrite Hsd, Hed, Hpc, Hut.
    unfold supplied in He, Hu.
    destruct (Js.truthy (Api.environment f)) eqn:E1,
             (Js.truthy (Api.environment g)) eqn:E2;
      try (rewrite He in E1; discriminate E1);
      try (rewrite <- He in E2; discriminate E2);
      try rewrite He;
      (destruct (Js.truthy (Api.userId f)) eqn:U1, (Js.truthy (Api.userId g)) eqn:U2;
       try (rewrite Hu in U1; discriminate U1);
       try (rewrite <- Hu in U2; discriminate U2);
       try rewrite Hu; reflexivity).
Qed.

Lemma buildQueryString_injective_witness :
  let f := Api.mkFilters "2025-12-01T00:00:00" "2025-12-31T23:59:59" "pool" "all"
                         None (Some "u&user_type=internal") in
  let g := Api.mkFilters "2025-12-01T00:00:00" "2025-12-31T23:59:59" "pool" "internal"
                         None (Some "u") in
  let h := Api.mkFilters "2025-12-01T00:00:00" "2025-12-31T23:59:59" "pool" "all"
                         (Some "") (Some "u&user_type=internal") in
  Api.buildQueryString f <> Api.buildQueryString g
  /\ Api.buildQueryString f = Api.buildQueryString h.
Proof.
  intros f g h. split.
  - intros H. apply (buildQueryString_injective f g) in H.
    destruct H as (_ & _ & _ & Hu & _). discriminate Hu.
  - apply (buildQueryString_injective f h). repeat split.
Defined.

(** X2. Whatever the filters hold (spaces, [&], [#], [?], bytes above 127),
    the query string is made only of ASCII letters, digits and
    [* - . _ + % & =]; and it holds [&] only between parameters and [=]
    only between a name and its value. *)
Theorem buildQueryString_is_url_safe (f : Api.AnalyticsFilters) :
  allChars queryChar (Api.buildQueryString f) = true
  /\ Forall (fun piece =>
               exists name val,
                 piece = name ++ "=" ++ val
                 /\ occurs "=" name = false /\ occurs "=" val = false
                 /\ occurs "&" piece = false)
            (Js.split "&" (Api.buildQueryString f)).
Proof.
  split.
  - unfold Api.buildQueryString. apply toString_queryChars.
  - unfold Api.buildQueryString.
    match goal with
    | |- context [URLSearchParams.toString ?p] => set (params := p)
    end.
    assert (Hne : params <> []).
    { subst params. destruct (Js.truthy (Api.environment f)), (Js.truthy (Api.userId f));
        discriminate. }
    unfold URLSearchParams.toString. rewrite split_join.
    + apply Forall_map, Forall_forall. intros kv _.
      exists (URLSearchParams.serialize (fst kv)), (URLSearchParams.serialize (snd kv)).
      split; [reflexivity|].
      split; [apply serialize_clean|]. split; [apply serialize_clean|].
      apply serializePair_clean.
    + destruct params; [congruence | discriminate].
    + apply Forall_map, Forall_forall. intros kv _. apply serializePair_clean.
Qed.

(** ** The module's token and base URL *)

Lemma headersOf_expected (token : option string) :
  headersOf token = expectedHeaders token.
Proof.
  unfold headersOf, expectedHeaders, Api.getAuthHeaders, Async.bind, Async.getWorld.
  cbn. destruct token as [t|]; [|reflexivity].
  cbn. destruct (t =? ""); reflexivity.
Qed.

Lemma prefix_append (a b : string) : String.prefix a (a ++ b) = true.
Proof.
  induction a as [|c a IH]; [now destruct b|].
  simpl. destruct (ascii_dec c c); [exact IH | congruence].
Qed.

Section Token.
Context {U : Type}.
Variable env : option string.
Variable net : Async.Network.

Import Async.

(** X3. After [setAuthToken(token)], whatever the token was before, each of
    the twelve operations and the aggregate send [Content-Type:
    application/json] and, exactly when the token is a non-empty string,
    [Authorization: Bearer] followed by it; after [setAuthToken(null)] or
    with an empty token no [Authorization] header leaves.  The operations
    leave the token as it was set. *)
Theorem setAuthToken_governs_headers
        (token : option string) (f : Api.AnalyticsFilters) (w : World U) (i : nat) :
  i < 12 ->
  map (fun r => headers (snd r))
      (issuedBy (bind (Api.setAuthToken token) (fun _ => operation env net i f)) w)
  = [expectedHeaders token]
  /\ authToken (snd (bind (Api.setAuthToken token) (fun _ => operation env net i f) w))
     = token
  /\ Forall (fun r => headers (snd r) = expectedHeaders token)
            (issuedBy (bind (Api.setAuthToken token)
                            (fun _ => Api.fetchAllFastKPIs env net f)) w)
  /\ authToken (snd (bind (Api.setAuthToken token)
                          (fun _ => Api.fetchAllFastKPIs env net f) w))
     = token.
Proof.
  intros Hi. unfold issuedBy, bind, Api.setAuthToken.
  set (w0 := mkWorld token (now w) (issued w) (ui w)).
  change (issued w) with (issued w0).
  destruct (operation_issued env net i f w0 Hi) as (path & failure & H1 & Htok & _).
  unfold issuedBy in H1. rewrite H1, Htok.
  pose proof (fetchAllFastKPIs_issued env net f w0) as H2. unfold issuedBy in H2.
  rewrite H2, fetchAllFastKPIs_run. cbn [map snd fst headers requestFor authToken w0].
  split; [now rewrite headersOf_expected|]. split; [reflexivity|].
  split; [|reflexivity].
  apply Forall_map, Forall_forall. intros e _.
  cbn [snd headers requestFor]. apply headersOf_expected.
Qed.

End Token.

Lemma setAuthToken_governs_headers_witness :
  let f := Home.filtersOf "2025-12-01" "2025-12-31" "pool" "all" in
  map (fun r => Async.headers (snd r))
      (issuedBy (Async.bind (Api.setAuthToken None)
                            (fun _ => operation None healthy 0 f))
                (Home.mount (Some "stale")))
  = [[("Content-Type", "application/json")]].
Proof.
  intros f.
  destruct (setAuthToken_governs_headers None healthy None f (Home.mount (Some "stale")) 0)
    as [H _]; [lia | exact H].
Defined.

Section SessionRequests.
Variable env : option string.
Variable net : Async.Network.

Import Async.

(** X4. Nothing in a page session touches the token: from mounting on,
    whatever the gestures, whenever they come and whatever the server
    answers, every request the page has issued carries the headers of the
    token it was mounted with, and its URL starts with the base URL, which
    is [NEXT_PUBLIC_API_URL] when that is a non-empty string and
    [http://localhost:8080] otherwise. *)
Theorem session_requests_share_token_and_base
        (token : option string) (gs : list Home.Event) :
  let w' := snd (Home.session env net gs (Home.mount token)) in
  authToken w' = token
  /\ Forall (fun r => headers (snd r) = expectedHeaders token
                      /\ String.prefix (Api.API_URL env) (url (snd r)) = true)
            (issued w')
  /\ Api.API_URL env
     = match env with
       | Some u => if u =? "" then "http://localhost:8080" else u
       | None => "http://localhost:8080"
       end.
Proof.
  intros w'.
  destruct (session_closed env net token gs) as [_ (Htok & _ & Hall)].
  fold w' in Htok, Hall.
  split; [exact Htok|]. split; [|reflexivity].
  eapply Forall_impl; [|exact Hall].
  intros r (path & f & Hr & _). rewrite Hr. cbn [headers url requestFor].
  split; [apply headersOf_expected | apply prefix_append].
Qed.

End SessionRequests.

(** ** The aggregate *)

Lemma firstRejection_earliest {A : Type} (rs : list (nat * (Js.thrown + A)))
      (t : nat) (e : Js.thrown) :
  Async.firstRejection rs = Some (t, e) ->
  forall t' e', In (t', inl e') rs -> t <= t'.
Proof.
  revert t e. induction rs as [|[t1 [e1|a1]] rs IH]; intros t e H t' e' Hin; simpl in H.
  - destruct Hin.
  - destruct (Async.firstRejection rs) as [[t2 e2]|] eqn:E.
    + destruct (t2 <? t1)%nat eqn:Hlt; inversion H; subst.
      * apply Nat.ltb_lt in Hlt. destruct Hin as [Heq|Hin].
        -- inversion Heq; subst. lia.
        -- eapply IH; [reflexivity | exact Hin].
      * apply Nat.ltb_ge in Hlt. destruct Hin as [Heq|Hin].
        -- inversion Heq; subst. lia.
        -- specialize (IH _ _ eq_refl _ _ Hin). lia.
    + inversion H; subst. destruct Hin as [Heq|Hin].
      * inversion Heq; subst. lia.
      * exfalso. apply firstRejection_None in E. rewrite Forall_forall in E.
        destruct (E _ Hin) as [a Ha]. discriminate.
  - destruct Hin as [Heq|Hin]; [discriminate|]. eapply IH; eassumption.
Qed.

Lemma unanswered_settles_rejected (failure : string) (x : Async.Exchange) :
  answered x = None -> exists err, settle failure x = inl err.
Proof.
  unfold answered, settle. destruct (Async.outcome x) as [r|e]; [|eauto].
  destruct (Async.ok r); [|eauto].
  destruct (Async.body r); [discriminate | eauto].
Qed.

Section Aggregate.
Context {U : Type}.
Variable env : option string.
Variable net : Async.Network.

Import Async.

Lemma fulfilled_answers (f : Api.AnalyticsFilters) (tok : option string) (t0 : nat)
      (eps : list (string * string)) :
  Forall (fun e => answered (net t0 (requestFor env tok (fst e) f)) <> None) eps ->
  fulfilled (map (settledAt env net f tok t0) eps)
  = map (fun e => answerOf env net tok t0 f (fst e)) eps.
Proof.
  induction eps as [|e eps IH]; intros H; [reflexivity|].
  inversion H as [|? ? He Heps]; subst.
  cbn [map fulfilled settledAt]. unfold answerOf at 1.
  destruct (answered (net t0 (requestFor env tok (fst e) f))) as [v|] eqn:E; [|congruence].
  apply (settle_answered (snd e)) in E. rewrite E. cbn [snd].
  now rewrite IH.
Qed.

(** X5. The aggregate fulfils exactly when each of its ten requests is
    answered, and then each field of the record it returns holds the body
    answered on that field's own endpoint: [sessionMetrics] the one of
    session-metrics, [volumeTrends] the one of volume-trends, and so on to
    [platformAnalytics]. *)
Theorem fetchAllFastKPIs_pairs_records (f : Api.AnalyticsFilters) (w : World U) :
  let a := answerOf env net (authToken w) (now w) f in
  let allAnswered :=
    Forall (fun e => answered (net (now w) (requestFor env (authToken w) (fst e) f)) <> None)
           fastEndpoints in
  ((exists fast, fst (Api.fetchAllFastKPIs env net f w) = inr fast) <-> allAnswered)
  /\ (allAnswered ->
      fst (Api.fetchAllFastKPIs env net f w)
      = inr (Api.mkFastKPIs
               (a "/analytics/session-metrics") (a "/analytics/volume-trends")
               (a "/analytics/user-engagement") (a "/analytics/user-retention")
               (a "/analytics/query-categories") (a "/analytics/returning-user-behavior")
               (a "/analytics/user-segmentation") (a "/analytics/time-patterns")
               (a "/analytics/conversation-length") (a "/analytics/platform-analytics"))).
Proof.
  intros a allAnswered. subst allAnswered.
  rewrite fetchAllFastKPIs_run. cbn [fst].
  rewrite <- (fast_all_answered env net f (authToken w) (now w)).
  split.
  - split.
    + intros [fast H].
      destruct (firstRejection _) as [[t e]|]; [discriminate | reflexivity].
    + intros ->. eauto.
  - intros H. rewrite H. unfold recordsOf.
    apply fast_all_answered in H. rewrite (fulfilled_answers f _ _ _ H).
    reflexivity.
Qed.

(** X6. When the aggregate rejects, it does so with the rejection of one of
    its ten operations, one whose exchange ended no later than any other
    unanswered one, and at the instant that exchange ended: it does not
    wait for the slower requests. *)
Theorem fetchAllFastKPIs_rejects_with_first_failure
        (f : Api.AnalyticsFilters) (w : World U) (err : Js.thrown) :
  let x := fun e : string * string => net (now w) (requestFor env (authToken w) (fst e) f) in
  fst (Api.fetchAllFastKPIs env net f w) = inl err ->
  exists e,
    In e fastEndpoints
    /\ settle (snd e) (x e) = inl err
    /\ now (snd (Api.fetchAllFastKPIs env net f w)) = now w + latency (x e)
    /\ forall e', In e' fastEndpoints -> answered (x e') = None ->
                  latency (x e) <= latency (x e').
Proof.
  intros x H. rewrite fetchAllFastKPIs_run in H |- *. cbn [fst snd now] in *.
  set (rs := map (settledAt env net f (authToken w) (now w)) fastEndpoints) in *.
  destruct (firstRejection rs) as [[t e0]|] eqn:E; [|discriminate].
  injection H as H. subst e0.
  pose proof (firstRejection_In _ _ _ E) as Hin.
  apply in_map_iff in Hin. destruct Hin as [e [He Hine]].
  unfold settledAt in He. injection He as Ht Hs.
  exists e. split; [exact Hine|]. split; [exact Hs|]. split; [now rewrite <- Ht|].
  intros e' Hine' Hun.
  destruct (unanswered_settles_rejected (snd e') _ Hun) as [err' Herr'].
  assert (Hin' : In (now w + latency (x e'), inl err') rs).
  { apply in_map_iff. exists e'. split; [|exact Hine'].
    unfold settledAt. fold (x e'). now rewrite Herr'. }
  pose proof (firstRejection_earliest _ _ _ E _ _ Hin') as Hle.
  fold (x e) in Ht. lia.
Qed.

End Aggregate.

Lemma fetchAllFastKPIs_pairs_records_witness :
  let f := Home.filtersOf "2025-12-01" "2025-12-31" "pool" "all" in
  fst (Api.fetchAllFastKPIs None healthy f (Home.mount None))
  = inr (Api.mkFastKPIs (Js.VObj []) (Js.VObj []) (Js.VObj []) (Js.VObj []) (Js.VObj [])
                        (Js.VObj []) (Js.VObj []) (Js.VObj []) (Js.VObj []) (Js.VObj [])).
Proof.
  intros f.
  destruct (fetchAllFastKPIs_pairs_records None healthy f (Home.mount None)) as [_ H].
  apply H. repeat constructor; discriminate.
Defined.

Lemma fetchAllFastKPIs_rejects_with_first_failure_witness :
  let f := Home.filtersOf "2025-12-01" "2025-12-31" "pool" "all" in
  let net := failingOn "volume-trends" 500 "DataAccessError" in
  exists e,
    In e fastEndpoints
    /\ settle (snd e) (net 0 (requestFor None None (fst e) f))
       = inl (Js.ErrorObject "Error" "Failed to fetch volume trends")
    /\ Async.now (snd (Api.fetchAllFastKPIs None net f (Home.mount None)))
       = 0 + Async.latency (net 0 (requestFor None None (fst e) f))
    /\ forall e', In e' fastEndpoints ->
                  answered (net 0 (requestFor None None (fst e') f)) = None ->
                  Async.latency (net 0 (requestFor None None (fst e) f))
                  <= Async.latency (net 0 (requestFor None None (fst e') f)).
Proof.
  intros f net.
  apply (fetchAllFastKPIs_rejects_with_first_failure None net f (Home.mount None)).
  vm_compute. reflexivity.
Defined.

(** ** The page after a fetch *)

Section Outcomes.
Variable env : option string.
Variable net : Async.Network.

Import Async.

(** X7. A page left alone from mounting on (no gesture, hence no second
    run), whose twelve requests are all answered with records the panels
    can render, ends on the dashboard: no error, the three loading flags
    down, the ten records, the clustering answer and the sentiment answer
    in their cells, the filter cells at their defaults.  It has rendered
    four frames, at mounting and as each of the three promises settled,
    and sent twelve requests.  The details table is shown exactly when the
    clustering answer is truthy; a [null] answer gives "No clustering data
    available", and likewise for sentiment.  What the chart library draws
    inside the panels is not part of the statement. *)
Theorem page_left_alone_ends_on_the_dashboard
        (token : option string) (fast : Api.FastKPIs) (c v : Js.value) :
  let f := Home.filtersOf "2025-12-01" "2025-12-31" "pool" "all" in
  let t1 := now (snd (Api.fetchAllFastKPIs env net f (Home.mount token))) in
  let t2 := t1 + latency (net t1 (requestFor env token clusteringPath f)) in
  let t3 := t2 + latency (net t2 (requestFor env token sentimentPath f)) in
  let d := Home.mkDashboardData fast Js.VNull Js.VNull in
  let final := Home.mkState "2025-12-01" "2025-12-31" "pool" "all" (Some d) c v
                            false false false None in
  let w' := snd (Home.session env net [] (Home.mount token)) in
  fst (Api.fetchAllFastKPIs env net f (Home.mount token)) = inr fast ->
  answered (net t1 (requestFor env token clusteringPath f)) = Some c ->
  answered (net t2 (requestFor env token sentimentPath f)) = Some v ->
  Home.crashed final = false ->
  Home.state (ui w') = final
  /\ map fst (Home.frames (ui w')) = [0; t1; t2; t3]
  /\ length (issued w') = 12
  /\ exists clusteringPanel sentimentPanel,
      Home.view final = Home.Dashboard d clusteringPanel sentimentPanel (Js.valueTruthy c)
      /\ (Js.valueTruthy c = false -> clusteringPanel = Home.NoClusteringData)
      /\ (Js.valueTruthy v = false -> sentimentPanel = Home.NoSentimentData)
      /\ (Js.valueTruthy c = true ->
          exists clusters,
            Home.prop c "clusters" = Js.VArr clusters
            /\ clusteringPanel = Home.ClusteringChart clusters)
      /\ (Js.valueTruthy v = true ->
          exists score,
            Home.prop v "avg_sentiment_score" = Js.VNum score
            /\ sentimentPanel = Home.SentimentCards (Home.sentimentTrend score)).
Proof.
  intros f t1 t2 t3 d final w' Hfast Hc Hv Hfinal.
  assert (Hpanels : exists clusteringPanel sentimentPanel detailsTable,
             Home.clusteringPanelOf final = Some clusteringPanel
             /\ Home.sentimentPanelOf final = Some sentimentPanel
             /\ Home.detailsTableOf final = Some detailsTable
             /\ Home.cardsRender d = true).
  { unfold Home.crashed, Home.view in Hfinal. cbn [Home.loading Home.error Home.data final
                                                   Js.truthy] in Hfinal.
    destruct (Home.clusteringPanelOf final) as [cp|]; [|discriminate].
    destruct (Home.sentimentPanelOf final) as [sp|]; [|discriminate].
    destruct (Home.detailsTableOf final) as [tb|]; [|discriminate].
    destruct (Home.cardsRender d); [|discriminate].
    exists cp, sp, tb. repeat split. }
  destruct Hpanels as (cp & sp & tb & Hcp & Hsp & Htb & Hcards).
  subst w' t3 t2 t1. unfold Home.session, Home.run. cbn [fold_left snd].
  rewrite mounted_alone.
  - rewrite fetchData_run. rewrite fetchAllFastKPIs_run in Hfast, Hc, Hv |- *.
    cbn [Home.mount authToken now issued ui Home.state Home.frames snd fst] in *.
    cbv zeta. change (Home.filtersOf _ _ _ _) with f.
    set (rs := map (settledAt env net f token 0) fastEndpoints) in *.
    destruct (firstRejection rs) as [[t e]|]; [discriminate Hfast|].
    injection Hfast as Hfast.
    apply (settle_answered "Failed to fetch pain point clustering") in Hc.
    apply (settle_answered "Failed to fetch sentiment analysis") in Hv.
    rewrite Hc, Hv. cbn [ui Home.state Home.frames issued].
    rewrite Hfast. split; [reflexivity|]. split; [reflexivity|]. split; [reflexivity|].
    exists cp, sp. unfold Home.view.
    cbn [Home.loading Home.error Home.data final Js.truthy].
    rewrite Hcp, Hsp, Htb, Hcards.
    unfold Home.clusteringPanelOf, Home.sentimentPanelOf, Home.detailsTableOf in Hcp, Hsp, Htb.
    cbn [final Home.clusteringLoading Home.sentimentLoading Home.clustering Home.sentiment
         negb] in Hcp, Hsp, Htb.
    rewrite andb_true_r in Htb.
    split; [|split; [|split; [|split]]].
    + destruct (Js.valueTruthy c); [|congruence].
      destruct (Home.prop c "clusters"); try discriminate.
      destruct (forallb _ _); congruence.
    + intros E. rewrite E in Hcp. congruence.
    + intros E. rewrite E in Hsp. congruence.
    + intros E. rewrite E in Hcp.
      destruct (Home.prop c "clusters") as [| | | | |clusters|]; try discriminate.
      exists clusters. split; [reflexivity | congruence].
    + intros E. rewrite E in Hsp.
      destruct (Home.prop v "avg_sentiment_score") as [| | |score| | |]; try discriminate.
      destruct (Home.prop v "sentiment_distribution"); try discriminate.
      destruct (_ && _); [|discriminate].
      exists score. split; [reflexivity | congruence].
  - reflexivity.
  - intros Hnone. rewrite fetchAllFastKPIs_run in Hfast.
    cbn [Home.mount authToken now issued ui Home.state snd fst] in *.
    change (Home.filtersOf _ _ _ _) with f in Hnone |- *.
    set (rs := map (settledAt env net f token 0) fastEndpoints) in *.
    rewrite Hnone in Hfast. injection Hfast as Hfast. rewrite Hfast. exact Hcards.
  - intros c' Hnone Hc'.
    rewrite fetchAllFastKPIs_run in Hfast, Hc.
    cbn [Home.mount authToken now issued ui Home.state snd fst] in *.
    change (Home.filtersOf _ _ _ _) with f in Hnone, Hc' |- *.
    set (rs := map (settledAt env net f token 0) fastEndpoints) in *.
    rewrite Hnone in Hfast, Hc. injection Hfast as Hfast.
    rewrite Hc in Hc'. injection Hc' as <-. rewrite Hfast.
    unfold Home.crashed, Home.view, Home.clusteringPanelOf, Home.sentimentPanelOf,
      Home.detailsTableOf.
    cbn. unfold Home.clusteringPanelOf, Home.detailsTableOf in Hcp, Htb.
    cbn [final Home.clusteringLoading Home.clustering negb] in Hcp, Htb.
    rewrite Hcp, Htb. fold d. rewrite Hcards. reflexivity.
Qed.

(** X8. Which message a failure leaves: a thrown value that is not an
    [Error] shows as "Failed to fetch data"; an [Error] shows its own
    message, except that an empty message is not shown at all: the page
    then renders as if nothing had failed, blank when it holds no data
    yet. *)
Theorem failure_message_on_screen
        (sd ed pc ut : string) (w : World Home.Page) (err : Js.thrown) :
  let f := Home.filtersOf sd ed pc ut in
  let s' := Home.state (ui (snd (Home.fetchData env net sd ed pc ut w))) in
  fst (Api.fetchAllFastKPIs env net f w) = inl err ->
  Home.error s' = Some (Home.messageOf err)
  /\ Home.data s' = Home.data (Home.state (ui w))
  /\ (forall v, err = Js.NonError v -> Home.view s' = Home.ErrorScreen "Failed to fetch data")
  /\ (forall name m, err = Js.ErrorObject name m -> m <> "" ->
                     Home.view s' = Home.ErrorScreen m)
  /\ (forall name, err = Js.ErrorObject name "" ->
                   (forall m, Home.view s' <> Home.ErrorScreen m)
                   /\ (Home.data (Home.state (ui w)) = None -> Home.view s' = Home.Nothing)).
Proof.
  intros f s' H. subst s'. rewrite fetchData_run. rewrite fetchAllFastKPIs_run in H.
  cbn [fst snd] in *. fold f in H |- *.
  destruct (firstRejection _) as [[t e0]|]; [|discriminate].
  injection H as H. subst e0. cbn [ui Home.state].
  split; [reflexivity|]. split; [reflexivity|]. split; [|split].
  - intros v ->. reflexivity.
  - intros name m -> Hm. apply view_caught; [reflexivity | exact Hm].
  - intros name ->. split.
    + intros m. now apply view_without_error.
    + intros Hd. unfold Home.view. cbn. now rewrite Hd.
Qed.

(** X10. The filter controls are on the dashboard only: while the page
    shows the loading screen, the error screen or nothing, no gesture
    reaches it.  A gesture that leaves the four filter cells as they were
    (the same date typed again, the option already selected, Reset on the
    defaults) fetches nothing and puts nothing on screen; a gesture that
    changes one renders the page with the new cells, then the loading
    screen, and starts a fetch of at least the ten fast requests.  After
    Reset the four cells hold the defaults, whatever they held before. *)
Theorem gesture_fetches_only_on_change (g : FilterControls.Gesture) (w : World Home.Page) :
  let s := Home.state (ui w) in
  let s' := FilterControls.handle Home.filterControlsProps g s in
  let w' := snd (Home.gesture env net g w) in
  (Home.sameDeps s s' = true ->
   issuedBy (Home.gesture env net g) w = []
   /\ Home.frames (ui w') = Home.frames (ui w)
   /\ Home.state (ui w') = s')
  /\ (Home.controlsOnScreen s = true -> Home.sameDeps s s' = false ->
      10 <= Datatypes.length (issuedBy (Home.gesture env net g) w)
      /\ Home.frames (ui w') = (Home.frames (ui w) ++ [(now w, s'); (now w, begun s')])%list
      /\ Home.view (begun s') = Home.LoadingScreen)
  /\ (Home.controlsOnScreen s = false -> w' = w)
  /\ Home.sameDeps s (FilterControls.handle Home.filterControlsProps
                        (FilterControls.EditStartDate (Home.startDate s)) s) = true
  /\ Home.sameDeps s (FilterControls.handle Home.filterControlsProps
                        (FilterControls.EditEndDate (Home.endDate s)) s) = true
  /\ Home.sameDeps Home.initial
                   (FilterControls.handle Home.filterControlsProps
                      FilterControls.ClickReset s) = true.
Proof.
  intros s s' w'. subst w'. unfold issuedBy, Home.gesture, Home.react. cbn [snd].
  fold s s'.
  split; [|split; [|split; [|split; [|split]]]].
  - intros Hsame. pose proof (handle_sameDeps g s Hsame) as Hs'. fold s' in Hs'.
    rewrite Hsame. destruct (Home.controlsOnScreen s); cbn [fst issued ui Home.frames Home.state].
    + split; [|split; reflexivity].
      rewrite <- (app_nil_r (issued w)) at 2. apply skipn_app_exact.
    + split; [|split; [reflexivity | now rewrite Hs']].
      rewrite <- (app_nil_r (issued w)) at 2. apply skipn_app_exact.
  - intros Hon Hdiff. rewrite Hon, Hdiff.
    assert (Hs : Home.crashed s = false).
    { unfold Home.controlsOnScreen in Hon. unfold Home.crashed.
      destruct (Home.view s); try discriminate; reflexivity. }
    assert (Hs' : Home.crashed s' = false).
    { unfold Home.crashed, s'. rewrite view_handle. exact Hs. }
    unfold Home.effect, Home.render. fold s. rewrite Hs. tidy. rewrite Hs'.
    cbn [Home.fetchDataRun]. unfold Home.launch. tidy.
    rewrite fetchAllFastKPIs_run. tidy.
    destruct (firstRejection _) as [[t e]|]; tidy;
      (split; [rewrite skipn_app_exact, length_map; cbn; lia|]);
      (split; [now rewrite <- app_assoc | reflexivity]).
  - intros Hoff. rewrite Hoff. reflexivity.
  - unfold Home.sameDeps. cbn. now rewrite !String.eqb_refl.
  - unfold Home.sameDeps. cbn. now rewrite !String.eqb_refl.
  - reflexivity.
Qed.

End Outcomes.

Lemma page_left_alone_ends_on_the_dashboard_witness :
  let w' := snd (Home.session None serving [] (Home.mount None)) in
  Home.clustering (Home.state (Async.ui w')) = clusteringRecord "pool"
  /\ Home.sentiment (Home.state (Async.ui w')) = sentimentRecord
  /\ Home.error (Home.state (Async.ui w')) = None
  /\ map fst (Home.frames (Async.ui w')) = [0; 3; 43; 63].
Proof.
  intros w'.
  destruct (page_left_alone_ends_on_the_dashboard None serving None
              (Api.mkFastKPIs (Js.VObj []) (Js.VObj []) (Js.VObj []) (Js.VObj []) (Js.VObj [])
                              (Js.VObj []) (Js.VObj []) (Js.VObj []) (Js.VObj []) (Js.VObj []))
              (clusteringRecord "pool") sentimentRecord)
    as (Hstate & Hframes & _); try (vm_compute; reflexivity).
  fold w' in Hstate, Hframes. rewrite Hstate, Hframes.
  do 3 (split; [reflexivity|]). vm_compute. reflexivity.
Defined.

Lemma failure_message_on_screen_witness :
  Home.view (Home.state (Async.ui (snd (Home.fetchData None silent "2025-12-01" "2025-12-31"
                                                       "pool" "all" (Home.mount None)))))
  = Home.Nothing.
Proof.
  destruct (failure_message_on_screen None silent "2025-12-01" "2025-12-31" "pool" "all"
              (Home.mount None) (Js.ErrorObject "TypeError" ""))
    as (_ & _ & _ & _ & H); [vm_compute; reflexivity|].
  destruct (H "TypeError" eq_refl) as [_ Hblank]. apply Hblank. reflexivity.
Defined.

Lemma gesture_fetches_only_on_change_witness :
  let dashboard := snd (Home.session None serving [] (Home.mount None)) in
  issuedBy (Home.gesture None serving FilterControls.ClickReset) dashboard = []
  /\ 10 <= Datatypes.length
             (issuedBy (Home.gesture None serving (FilterControls.ChooseProductContext 1))
                       dashboard)
  /\ snd (Home.gesture None serving (FilterControls.ChooseProductContext 1) (Home.mount None))
     = Home.mount None.
Proof.
  intros dashboard. split; [|split].
  - destruct (gesture_fetches_only_on_change None serving FilterControls.ClickReset
                dashboard) as [H _].
    apply H. vm_compute. reflexivity.
  - destruct (gesture_fetches_only_on_change None serving
                (FilterControls.ChooseProductContext 1) dashboard) as (_ & H & _).
    apply H; vm_compute; reflexivity.
  - destruct (gesture_fetches_only_on_change None serving
                (FilterControls.ChooseProductContext 1) (Home.mount None))
      as (_ & _ & H & _).
    apply H. reflexivity.
Defined.

(** ** Category names and chart colours *)

Lemma upperChar_not_underscore (c : ascii) :
  (c =? "_")%char = false -> (Js.upperChar c =? "_")%char = false.
Proof. destruct c as [[] [] [] [] [] [] [] []]; intros H; try reflexivity; discriminate H. Qed.

Lemma upperChar_idempotent (c : ascii) : Js.upperChar (Js.upperChar c) = Js.upperChar c.
Proof. destruct c as [[] [] [] [] [] [] [] []]; reflexivity. Qed.

Lemma snakeChar_back (c : ascii) :
  snakeChar c = true -> (c =? "_")%char = false ->
  (c =? " ")%char = false /\ (Js.upperChar c =? " ")%char = false
  /\ Js.lowerChar c = c /\ Js.lowerChar (Js.upperChar c) = c.
Proof.
  destruct c as [[] [] [] [] [] [] [] []]; intros H1 H2;
    try discriminate H1; try discriminate H2; repeat split.
Qed.

Lemma formatCategoryName_wordwise (name : string) :
  exists h t,
    Js.split "_" name = h :: t
    /\ wordwise false name = Js.join " " (h :: map Charts.capitalize t)
    /\ wordwise true name = Js.join " " (Charts.capitalize h :: map Charts.capitalize t).
Proof.
  unfold Js.join. induction name as [|c r (h & t & Hs & Hf & Ht)].
  - exists "", []. repeat split.
  - cbn [Js.split wordwise]. destruct (c =? "_")%char.
    + exists "", (h :: t). rewrite Hs. split; [reflexivity|].
      rewrite Ht. split; reflexivity.
    + rewrite Hs. exists (String c h), t. split; [reflexivity|].
      rewrite Hf. split; destruct t; reflexivity.
Qed.

Lemma formatCategoryName_eq (name : string) :
  Charts.formatCategoryName name = wordwise true name.
Proof.
  unfold Charts.formatCategoryName.
  destruct (formatCategoryName_wordwise name) as (h & t & Hs & _ & Ht).
  now rewrite Hs, Ht.
Qed.

Lemma wordwise_no_underscore (b : bool) (s : string) : occurs "_" (wordwise b s) = false.
Proof.
  revert b. induction s as [|c r IH]; intros b; [reflexivity|].
  cbn [wordwise]. destruct (c =? "_")%char eqn:E; cbn [occurs].
  - now rewrite IH.
  - rewrite IH. destruct b; [now rewrite upperChar_not_underscore | now rewrite E].
Qed.

Lemma wordwise_length (b : bool) (s : string) :
  String.length (wordwise b s) = String.length s.
Proof.
  revert b. induction s as [|c r IH]; intros b; [reflexivity|].
  cbn [wordwise]. destruct (c =? "_")%char; cbn [String.length]; now rewrite IH.
Qed.

Lemma wordwise_again (b : bool) (s : string) :
  wordwise false (wordwise b s) = wordwise b s
  /\ wordwise true (wordwise true s) = wordwise true s.
Proof.
  assert (H : forall s b, wordwise false (wordwise b s) = wordwise b s).
  { clear. induction s as [|c r IH]; intros b; [reflexivity|].
    cbn [wordwise]. destruct (c =? "_")%char eqn:E.
    - cbn [wordwise]. change (" " =? "_")%char with false. cbn iota. now rewrite IH.
    - cbn [wordwise]. destruct b.
      + rewrite (upperChar_not_underscore c E). now rewrite IH.
      + rewrite E. now rewrite IH. }
  split; [apply H|].
  destruct s as [|c r]; [reflexivity|].
  cbn [wordwise]. destruct (c =? "_")%char eqn:E.
  - cbn [wordwise]. change (" " =? "_")%char with false. cbn iota.
    now rewrite H.
  - cbn [wordwise]. rewrite (upperChar_not_underscore c E), upperChar_idempotent.
    now rewrite H.
Qed.

Lemma wordwise_toSnake (b : bool) (s : string) :
  allChars snakeChar s = true -> toSnake (wordwise b s) = s.
Proof.
  revert b. induction s as [|c r IH]; intros b H; [reflexivity|].
  cbn [allChars] in H. apply andb_true_iff in H. destruct H as [Hc Hr].
  cbn [wordwise]. destruct (c =? "_")%char eqn:E.
  - cbn [toSnake]. rewrite Ascii.eqb_refl, (IH _ Hr).
    apply Ascii.eqb_eq in E. now subst c.
  - destruct (snakeChar_back c Hc E) as (H1 & H2 & H3 & H4).
    cbn [toSnake]. rewrite (IH _ Hr). destruct b.
    + now rewrite H2, H4.
    + now rewrite H1, H3.
Qed.

(** X11. On a name of ASCII characters, [formatCategoryName] gives a label
    of the same length that holds no underscore; it gives the empty label
    for the empty name; and formatting a label again changes nothing. *)
Theorem formatCategoryName_label (name : string) :
  isAscii name = true ->
  occurs "_" (Charts.formatCategoryName name) = false
  /\ String.length (Charts.formatCategoryName name) = String.length name
  /\ Charts.formatCategoryName (Charts.formatCategoryName name)
     = Charts.formatCategoryName name
  /\ Charts.formatCategoryName "" = "".
Proof.
  intros _. rewrite !formatCategoryName_eq.
  split; [apply wordwise_no_underscore|]. split; [apply wordwise_length|].
  split; [apply (wordwise_again true) | reflexivity].
Qed.

Lemma formatCategoryName_label_witness :
  occurs "_" (Charts.formatCategoryName "order_status_inquiry") = false
  /\ String.length (Charts.formatCategoryName "order_status_inquiry") = 20.
Proof.
  destruct (formatCategoryName_label "order_status_inquiry") as (H1 & H2 & _);
    [reflexivity | split; assumption].
Defined.

(** X12. On identifiers written with lower-case letters, digits and
    underscores, the label determines the identifier: putting the label in
    lower case and its spaces back to underscores returns the identifier,
    so two different identifiers never get the same label. *)
Theorem formatCategoryName_keeps_identifiers_apart (a b : string) :
  allChars snakeChar a = true -> allChars snakeChar b = true ->
  toSnake (Charts.formatCategoryName a) = a
  /\ (Charts.formatCategoryName a = Charts.formatCategoryName b -> a = b).
Proof.
  intros Ha Hb. rewrite !formatCategoryName_eq.
  split; [now apply wordwise_toSnake|].
  intros H. apply (f_equal toSnake) in H.
  now rewrite !wordwise_toSnake in H.
Qed.

Lemma formatCategoryName_keeps_identifiers_apart_witness :
  toSnake (Charts.formatCategoryName "product_search") = "product_search".
Proof.
  destruct (formatCategoryName_keeps_identifiers_apart "product_search" "general")
    as [H _]; [reflexivity | reflexivity | exact H].
Defined.

Lemma COLORS_NoDup : NoDup Charts.COLORS.
Proof.
  unfold Charts.COLORS.
  repeat (constructor; [cbn; intros H; repeat (destruct H as [H|H]; [discriminate H|]); exact H|]).
  constructor.
Qed.

(** X13. Every cell of a pie chart gets one of the seven colours, whatever
    its index: the lookup never runs past the array.  Two cells get the same
    colour exactly when their indices differ by a multiple of seven, so a
    chart of more than seven slices repeats colours, the eighth slice taking
    the colour of the first. *)
Theorem cellFill_cycles (i j : nat) :
  (exists colour, Charts.cellFill i = Some colour /\ In colour Charts.COLORS)
  /\ (Charts.cellFill i = Charts.cellFill j <-> i mod 7 = j mod 7)
  /\ Charts.cellFill (i + 7) = Charts.cellFill i.
Proof.
  unfold Charts.cellFill. change (Datatypes.length Charts.COLORS) with 7.
  assert (Hi : i mod 7 < 7) by (apply Nat.mod_upper_bound; discriminate).
  split; [|split].
  - destruct (nth_error Charts.COLORS (i mod 7)) as [c|] eqn:E.
    + exists c. split; [reflexivity|]. eapply nth_error_In; eassumption.
    + apply nth_error_None in E. change (Datatypes.length Charts.COLORS) with 7 in E. lia.
  - split.
    + intros H. apply (proj1 (NoDup_nth_error Charts.COLORS) COLORS_NoDup); assumption.
    + intros ->. reflexivity.
  - replace ((i + 7) mod 7) with (i mod 7); [reflexivity|].
    rewrite <- (Nat.Div0.add_mod_idemp_r i 7 7). rewrite Nat.Div0.mod_same.
    now rewrite Nat.add_0_r.
Qed.

(** ** The guard's decision *)

Lemma lowerChar_at (c : ascii) : (Js.lowerChar c =? "@")%char = (c =? "@")%char.
Proof. destruct c as [[] [] [] [] [] [] [] []]; reflexivity. Qed.

Lemma lowerChar_idempotent (c : ascii) : Js.lowerChar (Js.lowerChar c) = Js.lowerChar c.
Proof. destruct c as [[] [] [] [] [] [] [] []]; reflexivity. Qed.

Lemma toLowerCase_idempotent (s : string) :
  Js.toLowerCase (Js.toLowerCase s) = Js.toLowerCase s.
Proof.
  induction s as [|c r IH]; [reflexivity|].
  cbn. now rewrite lowerChar_idempotent, IH.
Qed.

Lemma split_toLowerCase (s : string) :
  Js.split "@" (Js.toLowerCase s) = map Js.toLowerCase (Js.split "@" s).
Proof.
  induction s as [|c r IH]; [reflexivity|].
  cbn [Js.toLowerCase Js.split]. rewrite lowerChar_at, IH.
  destruct (c =? "@")%char; [reflexivity|].
  destruct (Js.split "@" r); reflexivity.
Qed.

Lemma emailDomain_lowered (email : string) :
  AuthGuard.emailDomain email
  = nth_error (Js.split "@" (Js.toLowerCase email)) 1.
Proof.
  unfold AuthGuard.emailDomain. rewrite split_toLowerCase.
  symmetry. apply nth_error_map.
Qed.

Lemma toLowerCase_empty (s : string) : (Js.toLowerCase s =? "") = (s =? "").
Proof. destruct s; reflexivity. Qed.

(** X14. The guard does not look at the case of the address: two ASCII
    addresses that are equal once lowercased get the same decision. *)
Theorem AuthGuard_ignores_case (loading authenticated : bool) (e1 e2 : string) :
  isAscii e1 = true -> isAscii e2 = true ->
  Js.toLowerCase e1 = Js.toLowerCase e2 ->
  AuthGuard.AuthGuard
    (AuthGuard.mkAuth0 authenticated loading (Some (AuthGuard.mkUser (Some e1))))
  = AuthGuard.AuthGuard
      (AuthGuard.mkAuth0 authenticated loading (Some (AuthGuard.mkUser (Some e2)))).
Proof.
  intros _ _ H.
  assert (Hempty : (e1 =? "") = (e2 =? ""))
    by (now rewrite <- (toLowerCase_empty e1), <- (toLowerCase_empty e2), H).
  assert (Hallowed : AuthGuard.isAllowed e1 = AuthGuard.isAllowed e2)
    by (unfold AuthGuard.isAllowed; now rewrite !emailDomain_lowered, H).
  unfold AuthGuard.AuthGuard.
  cbn [AuthGuard.isLoading AuthGuard.isAuthenticated AuthGuard.user AuthGuard.email
       Js.truthy Js.or_else].
  rewrite Hempty. destruct (e2 =? ""); [reflexivity|]. now rewrite Hallowed.
Qed.

Lemma AuthGuard_ignores_case_witness :
  AuthGuard.AuthGuard (signedIn "Ana.Lima@InstaLILY.ai")
  = AuthGuard.AuthGuard (signedIn "ana.lima@instalily.ai").
Proof.
  apply (AuthGuard_ignores_case false true); reflexivity.
Defined.

(** X15. On an address with a single [@], the guard, once Auth0 has loaded
    and the user is authenticated, renders the page exactly when the part
    after the [@], lowercased, is one of the five allowlisted domains (a
    subdomain or a longer name ending in one is not), and denies access
    otherwise; the part before the [@] plays no role.  While Auth0 is
    loading it shows the loading screen, and without authentication it
    redirects, whatever the address. *)
Theorem AuthGuard_on_plain_addresses (loading authenticated : bool) (a d : string) :
  occurs "@" a = false -> occurs "@" d = false ->
  AuthGuard.AuthGuard
    (AuthGuard.mkAuth0 authenticated loading
                       (Some (AuthGuard.mkUser (Some (a ++ String "@" d)))))
  = if loading then AuthGuard.LoadingScreen
    else if negb authenticated then AuthGuard.Redirecting
    else if existsb (String.eqb (Js.toLowerCase d)) AuthGuard.ALLOWED_DOMAINS
         then AuthGuard.Children
         else AuthGuard.AccessDenied.
Proof.
  intros Ha Hd. unfold AuthGuard.AuthGuard. cbn.
  destruct loading; [reflexivity|]. destruct authenticated; [|reflexivity]. cbn.
  assert (Hne : (a ++ String "@" d =? "") = false) by (now destruct a).
  rewrite Hne. cbn.
  unfold AuthGuard.isAllowed, AuthGuard.emailDomain.
  rewrite (split_app_sep "@" a d Ha), (split_without_sep "@" d Hd). cbn.
  unfold AuthGuard.strictEq.
  destruct (_ || _); reflexivity.
Qed.

Lemma AuthGuard_on_plain_addresses_witness :
  AuthGuard.AuthGuard (signedIn "joe@mail.instalily.ai") = AuthGuard.AccessDenied
  /\ AuthGuard.AuthGuard (signedIn "joe@HeritagePSG.com") = AuthGuard.Children.
Proof.
  split.
  - apply (AuthGuard_on_plain_addresses false true "joe" "mail.instalily.ai"); reflexivity.
  - apply (AuthGuard_on_plain_addresses false true "joe" "HeritagePSG.com"); reflexivity.
Defined.

(** ** The message of a failed fast operation *)

Lemma fastEndpoints_messages (e : string * string) :
  In e fastEndpoints -> snd e <> "".
Proof.
  unfold fastEndpoints. cbn [In]. intros H.
  repeat (destruct H as [H|H]; [subst e; discriminate|]). destruct H.
Qed.

Section NamedFailure.
Variable env : option string.
Variable net : Async.Network.

Import Async.

(** X16. When the response to one of the ten fast requests is not ok and
    the other nine are answered, the page ends on the error screen showing
    the failure message of that very operation ("Failed to fetch volume
    trends" for volume-trends, and so on), whatever the response's status
    and body. *)
Theorem error_screen_names_the_failed_operation
        (sd ed pc ut : string) (w : World Home.Page) (e : string * string) (r : Response) :
  let f := Home.filtersOf sd ed pc ut in
  let x := fun e' : string * string =>
             net (now w) (requestFor env (authToken w) (fst e') f) in
  In e fastEndpoints ->
  outcome (x e) = Responded r ->
  ok r = false ->
  (forall e', In e' fastEndpoints -> e' <> e -> answered (x e') <> None) ->
  Home.view (Home.state (ui (snd (Home.fetchData env net sd ed pc ut w))))
  = Home.ErrorScreen (snd e).
Proof.
  intros f x Hin Hout Hok Hothers.
  assert (He : settle (snd e) (x e) = inl (Js.ErrorObject "Error" (snd e))).
  { unfold settle. now rewrite Hout, Hok. }
  rewrite fetchData_run. cbn [snd]. fold f.
  set (rs := map (settledAt env net f (authToken w) (now w)) fastEndpoints).
  destruct (firstRejection rs) as [[t err]|] eqn:E.
  - apply firstRejection_In in E. apply in_map_iff in E.
    destruct E as [e0 [He0 Hin0]]. unfold settledAt in He0.
    injection He0 as _ Hs. fold (x e0) in Hs.
    assert (e0 = e).
    { destruct (string_dec (fst e0) (fst e)) as [H1|H1];
        [destruct (string_dec (snd e0) (snd e)) as [H2|H2]|];
        [destruct e0, e; cbn in *; congruence | |];
        exfalso; (apply (Hothers e0 Hin0); [intros ->; congruence|]);
        now rewrite (settle_unanswered _ _ _ Hs). }
    subst e0. rewrite He in Hs. injection Hs as <-.
    cbn [ui Home.state]. apply view_caught; [reflexivity|].
    now apply fastEndpoints_messages.
  - exfalso. apply firstRejection_None in E. rewrite Forall_forall in E.
    destruct (E (settledAt env net f (authToken w) (now w) e)) as [a Ha].
    + apply in_map. exact Hin.
    + unfold settledAt in Ha. cbn [snd] in Ha. fold (x e) in Ha. congruence.
Qed.

End NamedFailure.

Lemma error_screen_names_the_failed_operation_witness :
  Home.view (Home.state (Async.ui (snd (Home.fetchData None
                (failingOn "user-retention" 404 "NotFound")
                "2025-12-01" "2025-12-31" "pool" "all" (Home.mount None)))))
  = Home.ErrorScreen "Failed to fetch user retention".
Proof.
  apply (error_screen_names_the_failed_operation None
           (failingOn "user-retention" 404 "NotFound")
           "2025-12-01" "2025-12-31" "pool" "all" (Home.mount None)
           ("/analytics/user-retention", "Failed to fetch user retention")
           (Async.mkResponse 404 (Async.Json (Js.VObj [("error", Js.VStr "NotFound")])))).
  - cbn. tauto.
  - reflexivity.
  - reflexivity.
  - intros e' Hin Hne. cbn in Hin.
    repeat (destruct Hin as [Hin|Hin];
            [subst e'; first [congruence | vm_compute; discriminate]|]).
    destruct Hin.
Defined.
